(** * Harvest-aware selling policies: a shallow embedding

    The trading agent decides, once per simulated day, how much of a
    producer's inventory to sell.  This development embeds the ten
    decision policies, the indicator library and the rolling-horizon
    optimiser as they are documented in
    [docs/trading-agent/strategies.md] and
    [docs/trading-agent/introduction.md], and states the properties of
    the specification over that embedding.

    Numbers.  Python floats are read as exact rationals ([Q]); day
    indices and periods are Python integers ([Z]).  A quantity that
    needs a square root (the standard deviation, hence the coefficient
    of variation) is kept as the rational under the root, see [Root].
    Where numpy yields [nan] (the mean or median of an empty array) the
    model yields [0]; every comparison the sources make against such a
    value is false in both readings or is excluded by a guard that is
    modelled as written. *)

From Stdlib Require Import String.
From Stdlib Require Import QArith Qminmax Qabs ZArith List Bool Lia Lqa.
From Stdlib Require Import Sorted.
Import ListNotations.

Local Open Scope Q_scope.

(* ================================================================== *)
(** ** Numbers and numpy primitives *)
(* ================================================================== *)

Module Np.

Definition ltb (x y : Q) : bool := negb (Qle_bool y x).
Definition leb (x y : Q) : bool := Qle_bool x y.
Definition gtb (x y : Q) : bool := ltb y x.
Definition geb (x y : Q) : bool := leb y x.
Definition eqb (x y : Q) : bool := Qeq_bool x y.

(** Python's builtin [min(a, b)]: the first argument unless the second
    is strictly smaller. *)
Definition py_min (a b : Q) : Q := if ltb b a then b else a.
Definition py_max (a b : Q) : Q := if ltb a b then b else a.

Definition sum (l : list Q) : Q := fold_right Qplus 0 l.

Definition len {A} (l : list A) : Z := Z.of_nat (length l).

(** [np.mean]; [nan] on an empty array is rendered [0]. *)
Definition mean (l : list Q) : Q :=
  match l with
  | [] => 0
  | _ => sum l / inject_Z (len l)
  end.

Fixpoint insert (x : Q) (l : list Q) : list Q :=
  match l with
  | [] => [x]
  | y :: l' => if leb x y then x :: l else y :: insert x l'
  end.

Definition sort (l : list Q) : list Q := fold_right insert [] l.

(** [np.median]: the middle order statistic, or the mean of the two
    middle ones for an even count. *)
Definition median (l : list Q) : Q :=
  let s := sort l in
  let n := length s in
  match n with
  | O => 0
  | _ =>
      if Nat.even n
      then (nth (n / 2 - 1) s 0 + nth (n / 2) s 0) / 2
      else nth (n / 2) s 0
  end.

(** Population variance, the square of [np.std]. *)
Definition var (l : list Q) : Q :=
  let m := mean l in
  mean (map (fun x => (x - m) * (x - m)) l).

(** [np.diff]. *)
Fixpoint diff (l : list Q) : list Q :=
  match l with
  | x :: ((y :: _) as t) => (y - x) :: diff t
  | _ => []
  end.

(** [l[-k:]] with Python's reading of the index [-k]: the last [k]
    elements for a positive [k] (all of them when [k] exceeds the
    length), the whole list for [k = 0] (since [-0] is [0]), and
    [l[|k|:]] for a negative [k]. *)
Definition last_slice {A} (k : Z) (l : list A) : list A :=
  if (k <=? 0)%Z then skipn (Z.to_nat (- k)) l
  else skipn (length l - Z.to_nat k) l.

(** [l[1:]] and [l[:-1]]. *)
Definition tail1 {A} (l : list A) : list A := skipn 1 l.
Definition init1 {A} (l : list A) : list A := firstn (length l - 1) l.

Definition zip_with {A B C} (f : A -> B -> C) (l : list A) (m : list B)
  : list C :=
  map (fun p => f (fst p) (snd p)) (combine l m).

(** [np.argmax]: the first index at which the maximum is attained. *)
Fixpoint argmax_from (best : Q) (ibest i : nat) (l : list Q) : nat :=
  match l with
  | [] => ibest
  | x :: t =>
      if ltb best x then argmax_from x i (S i) t
      else argmax_from best ibest (S i) t
  end.

Definition argmax (l : list Q) : nat :=
  match l with
  | [] => O
  | x :: t => argmax_from x O 1%nat t
  end.

(** Python's [max] over a non-empty list ([0] stands for the
    [ValueError] of the empty case, which no caller reaches with a
    forecast that has at least one horizon day). *)
Definition maximum (l : list Q) : Q :=
  match l with
  | [] => 0
  | x :: t => fold_left py_max t x
  end.

End Np.

(** A non-negative real known through its square: [Sqrt r] stands for
    the square root of the rational [r].  The coefficient of variation
    [std / median] is such a number, and the sources only ever compare
    it with non-negative rational cut-offs. *)
Record Root : Type := Sqrt { radicand : Q }.

Definition root_of_Q (c : Q) : Root := Sqrt (c * c).

(** [Sqrt r < c] for a rational [c]: false for [c <= 0] (a root is never
    negative), otherwise [r < c * c]. *)
Definition root_ltb (x : Root) (c : Q) : bool :=
  Np.ltb 0 c && Np.ltb (radicand x) (c * c).

(* ================================================================== *)
(** ** Data model *)
(* ================================================================== *)

Inductive Action : Type := SELL | HOLD.

(** A value interpolated into a reason string. *)
Inductive Arg : Type :=
| Flt (q : Q)        (* a float *)
| Int (z : Z)        (* an int *)
| Cv (r : Root).    (* a coefficient of variation *)

(** The diagnostic reason of a decision.  An f-string such as
    [f'cooldown_{n}d'] is kept as its template, with [{}] for every
    interpolated value, and the list of those values. *)
Record Reason : Type := mkReason { tag : string; values : list Arg }.

Definition plain (s : string) : Reason := mkReason s [].

(** [f'{p}{reason}']: a reason quoted inside another one. *)
Definition prefix (p : string) (r : Reason) : Reason :=
  mkReason (p ++ tag r)%string (values r).

(** The dict a strategy returns.  [info] holds the extra keys that only
    the optimiser sets ([window_len], [predicted_net_value]). *)
Record Decision : Type := mkDecision {
  action : Action;
  amount : Q;
  reason : Reason;
  info : list (string * Arg)
}.

Definition hold (r : Reason) : Decision := mkDecision HOLD 0 r [].
Definition sell (a : Q) (r : Reason) : Decision := mkDecision SELL a r [].

(** The price DataFrame: a [price] column and, when the frame has them,
    [high] and [low] columns of the same length. *)
Record PriceHistory : Type := mkHistory {
  price : list Q;
  high_low : option (list Q * list Q)
}.

(** A forecast ensemble: one row per sampled path, one column per
    horizon day. *)
Definition Ensemble : Type := list (list Q).

Module Ens.
Definition n_paths (p : Ensemble) : nat := length p.
(** [predictions.shape[1]] *)
Definition n_days (p : Ensemble) : nat :=
  match p with
  | [] => O
  | r :: _ => length r
  end.
(** [predictions.size] *)
Definition size (p : Ensemble) : nat := (n_paths p * n_days p)%nat.
(** [predictions[:, h]] *)
Definition column (p : Ensemble) (h : nat) : list Q :=
  map (fun r => nth h r 0) p.
End Ens.

(* ================================================================== *)
(** ** Indicator library ([indicators.py]) *)
(* ================================================================== *)

Module Indicators.

(** [calculate_rsi(prices, period=14)] *)
Definition calculate_rsi (prices : list Q) (period : Z) : Q :=
  if (Np.len prices <? period + 1)%Z then 50
  else
    let deltas := Np.diff (Np.last_slice (period + 1) prices) in
    let gains := map (fun d => if Np.gtb d 0 then d else 0) deltas in
    let losses := map (fun d => if Np.ltb d 0 then - d else 0) deltas in
    let avg_gain := Np.mean gains in
    let avg_loss := Np.mean losses in
    if Np.eqb avg_loss 0 then 100
    else
      let rs := avg_gain / avg_loss in
      100 - 100 / (1 + rs).

(** [calculate_adx(price_history, period=14)], returning
    [(adx, plus_di, minus_di)]. *)
Definition calculate_adx (price_history : PriceHistory) (period : Z)
  : Q * Q * Q :=
  if (Np.len (price price_history) <? period + 1)%Z then (20, 0, 0)
  else
    let '(high, low) :=
      match high_low price_history with
      | Some hl => hl
      | None => (price price_history, price price_history)
      end in
    let close := price price_history in
    let tr :=
      Np.zip_with Np.py_max
        (Np.zip_with Qminus (Np.tail1 high) (Np.tail1 low))
        (Np.zip_with Np.py_max
           (map Qabs (Np.zip_with Qminus (Np.tail1 high) (Np.init1 close)))
           (map Qabs (Np.zip_with Qminus (Np.tail1 low) (Np.init1 close))))
    in
    let up := Np.zip_with Qminus (Np.tail1 high) (Np.init1 high) in
    let down := Np.zip_with Qminus (Np.init1 low) (Np.tail1 low) in
    let plus_dm :=
      Np.zip_with (fun u d => if Np.gtb u d then Np.py_max u 0 else 0)
        up down in
    let minus_dm :=
      Np.zip_with (fun u d => if Np.gtb d u then Np.py_max d 0 else 0)
        up down in
    let atr := Np.mean (Np.last_slice period tr) in
    let '(plus_di, minus_di) :=
      if Np.gtb atr 0
      then (100 * Np.mean (Np.last_slice period plus_dm) / atr,
            100 * Np.mean (Np.last_slice period minus_dm) / atr)
      else (0, 0) in
    let di_sum := plus_di + minus_di in
    let adx :=
      if Np.gtb di_sum 0
      then 100 * Qabs (plus_di - minus_di) / di_sum
      else 0 in
    (adx, plus_di, minus_di).

(** [calculate_prediction_confidence(predictions, horizon_day)]: the
    coefficient of variation [std / median] of the ensemble at one
    horizon day, and [1.0] (maximum uncertainty) for a missing or
    empty ensemble or a median that is not positive. *)
Definition calculate_prediction_confidence
    (predictions : option Ensemble) (horizon_day : nat) : Root :=
  match predictions with
  | None => root_of_Q 1
  | Some p =>
      if (Ens.size p =? 0)%nat then root_of_Q 1
      else
        let horizon_day :=
          if (Ens.n_days p <=? horizon_day)%nat
          then (Ens.n_days p - 1)%nat else horizon_day in
        let day_predictions := Ens.column p horizon_day in
        let median_pred := Np.median day_predictions in
        if Np.gtb median_pred 0
        then Sqrt (Np.var day_predictions / (median_pred * median_pred))
        else root_of_Q 1
  end.

End Indicators.

(* ================================================================== *)
(** ** The [Strategy] base class ([base.py]) *)
(* ================================================================== *)

(** Every strategy inherits [_force_liquidation_check] from the base
    class.  The sources give two renderings of it, so it is an
    interface with two instances. *)
Class LiquidationRule : Type :=
  { _force_liquidation_check : Z -> Q -> option Decision }.

(** strategies.md, "Force Liquidation": sell everything once
    [day >= self.max_holding_days]. *)
Definition hard_deadline (max_holding_days : Z) : LiquidationRule :=
  {| _force_liquidation_check day inventory :=
       if (max_holding_days <=? day)%Z
       then Some (sell inventory (plain "force_liquidation_max_days"))
       else None |}.

(** The two-tier rendering, "Force Liquidation (lines 56-76)": a gradual
    5 % per day from day 345 after the harvest start, everything from
    day 365. *)
Definition two_tier (harvest_start : Z) : LiquidationRule :=
  {| _force_liquidation_check day inventory :=
       let days_since_harvest := (day - harvest_start)%Z in
       if (365 <=? days_since_harvest)%Z
       then Some (sell inventory (plain "force_liquidation_max_days"))
       else if (345 <=? days_since_harvest)%Z
       then Some (sell (inventory * 0.05) (plain "gradual_liquidation"))
       else None |}.

(** Modelled from the spec: [_execute_trade(day, inventory, batch_size,
    reason)] is called by the strategies but its body is not part of
    the documented sources.  introduction.md renders each call as
    [return SELL amount=inventory*batch_size]; the sale day is recorded
    the way [EqualBatchStrategy.decide] does it inline
    ([self.last_sale_day = day]), which is what the specification's
    [last_sale_day] state and its cooldown rule rely on.  The second
    component is the new [last_sale_day]. *)
Definition _execute_trade (day : Z) (inventory batch_size : Q)
    (reason : Reason) : Decision * Z :=
  (sell (inventory * batch_size) reason, day).

(** [price_history['price'].tail(n).mean()] *)
Definition tail_mean (h : PriceHistory) (n : Z) : Q :=
  Np.mean (Np.last_slice n (price h)).

(* ================================================================== *)
(** ** Rule-based strategies ([baseline.py]) *)
(* ================================================================== *)

Module ImmediateSaleStrategy.

Record Params : Type := {
  min_batch_size : Q;
  sale_frequency_days : Z
}.

Definition default : Params :=
  {| min_batch_size := 5; sale_frequency_days := 7 |}.

(** The state is [self.days_since_last_sale]. *)
Definition decide `{LiquidationRule} (self : Params)
    (days_since_last_sale : Z)
    (day : Z) (inventory current_price : Q)
    (price_history : PriceHistory) (predictions : option Ensemble)
  : Decision * Z :=
  if Np.leb inventory 0 then (hold (plain "no_inventory"), days_since_last_sale)
  else
    match _force_liquidation_check day inventory with
    | Some forced => (forced, days_since_last_sale)
    | None =>
        let ready_to_sell :=
          (sale_frequency_days self <=? days_since_last_sale)%Z in
        let enough_inventory := Np.geb inventory (min_batch_size self) in
        if ready_to_sell && enough_inventory
        then (sell inventory
                (mkReason "immediate_weekly_sale_{}t" [Flt inventory]),
              0%Z)
        else
          let days_since_last_sale := (days_since_last_sale + 1)%Z in
          if negb enough_inventory
          then (hold (mkReason "accumulating_need_{}t"
                        [Flt (min_batch_size self)]),
                days_since_last_sale)
          else (hold (mkReason "waiting_for_sale_day_{}"
                        [Int days_since_last_sale]),
                days_since_last_sale)
    end.

End ImmediateSaleStrategy.

Module EqualBatchStrategy.

Record Params : Type := {
  batch_size : Q;
  frequency : Z
}.

Definition default : Params := {| batch_size := 0.25; frequency := 30 |}.

(** The state is [self.last_sale_day]. *)
Definition decide `{LiquidationRule} (self : Params) (last_sale_day : Z)
    (day : Z) (inventory current_price : Q)
    (price_history : PriceHistory) (predictions : option Ensemble)
  : Decision * Z :=
  if Np.leb inventory 0 then (hold (plain "no_inventory"), last_sale_day)
  else
    match _force_liquidation_check day inventory with
    | Some forced => (forced, last_sale_day)
    | None =>
        let days_since_sale := (day - last_sale_day)%Z in
        if (frequency self <=? days_since_sale)%Z
        then (sell (inventory * batch_size self) (plain "scheduled_batch"),
              day)
        else (hold (plain "waiting_for_schedule"), last_sale_day)
    end.

End EqualBatchStrategy.

Module PriceThresholdStrategy.

Record Params : Type := {
  threshold_pct : Q;
  batch_baseline : Q;
  batch_overbought_strong : Q;
  batch_overbought : Q;
  batch_strong_trend : Q;
  rsi_overbought : Q;
  rsi_moderate : Q;
  adx_strong : Q;
  cooldown_days : Z;
  max_days_without_sale : Z
}.

Definition default : Params :=
  {| threshold_pct := 0.05;
     batch_baseline := 0.25;
     batch_overbought_strong := 0.35;
     batch_overbought := 0.30;
     batch_strong_trend := 0.20;
     rsi_overbought := 70;
     rsi_moderate := 65;
     adx_strong := 25;
     cooldown_days := 7;
     max_days_without_sale := 60 |}.

(** [_analyze_historical(current_price, price_history)], returning
    [(batch_size, reason)]. *)
Definition _analyze_historical (self : Params) (current_price : Q)
    (price_history : PriceHistory) : Q * Reason :=
  let prices := price price_history in
  let rsi := Indicators.calculate_rsi prices 14 in
  let '(adx, _, _) := Indicators.calculate_adx price_history 14 in
  if Np.gtb rsi (rsi_overbought self) && Np.gtb adx (adx_strong self)
  then (batch_overbought_strong self,
        mkReason "overbought_strong_trend_rsi{}_adx{}" [Flt rsi; Flt adx])
  else if Np.gtb rsi (rsi_overbought self)
  then (batch_overbought self, mkReason "overbought_rsi{}" [Flt rsi])
  else if Np.gtb adx (adx_strong self) && Np.ltb rsi (rsi_moderate self)
  then (batch_strong_trend self,
        mkReason "strong_trend_rsi{}_adx{}" [Flt rsi; Flt adx])
  else (batch_baseline self,
        mkReason "baseline_rsi{}_adx{}" [Flt rsi; Flt adx]).

(** The threshold: 5 % above the 30-day moving average, or above the
    current price while the history is shorter than 30 days. *)
Definition threshold (self : Params) (current_price : Q)
    (price_history : PriceHistory) : Q :=
  if (30 <=? Np.len (price price_history))%Z
  then tail_mean price_history 30 * (1 + threshold_pct self)
  else current_price * (1 + threshold_pct self).

Definition decide `{LiquidationRule} (self : Params) (last_sale_day : Z)
    (day : Z) (inventory current_price : Q)
    (price_history : PriceHistory) (predictions : option Ensemble)
  : Decision * Z :=
  if Np.leb inventory 0 then (hold (plain "no_inventory"), last_sale_day)
  else
    match _force_liquidation_check day inventory with
    | Some forced => (forced, last_sale_day)
    | None =>
        let days_since_sale := (day - last_sale_day)%Z in
        let threshold := threshold self current_price price_history in
        let signal_triggered := Np.gtb current_price threshold in
        let can_trade := (cooldown_days self <=? days_since_sale)%Z in
        if negb signal_triggered then
          if (max_days_without_sale self <=? days_since_sale)%Z
          then _execute_trade day inventory (batch_baseline self)
                 (mkReason "fallback_{}d" [Int days_since_sale])
          else (hold (mkReason "below_threshold_{}<{}"
                        [Flt current_price; Flt threshold]),
                last_sale_day)
        else if negb can_trade then
          (hold (mkReason "cooldown_{}d"
                   [Int (cooldown_days self - days_since_sale)]),
           last_sale_day)
        else
          let '(batch_size, reason) :=
            _analyze_historical self current_price price_history in
          _execute_trade day inventory batch_size reason
    end.

End PriceThresholdStrategy.

Module MovingAverageStrategy.

Record Params : Type := {
  ma_period : Z;
  batch_baseline : Q;
  batch_strong_momentum : Q;
  batch_overbought_strong : Q;
  batch_overbought : Q;
  rsi_overbought : Q;
  rsi_min : Q;
  adx_strong : Q;
  adx_weak : Q;
  cooldown_days : Z;
  max_days_without_sale : Z
}.

Definition default : Params :=
  {| ma_period := 30;
     batch_baseline := 0.25;
     batch_strong_momentum := 0.20;
     batch_overbought_strong := 0.35;
     batch_overbought := 0.30;
     rsi_overbought := 70;
     rsi_min := 45;
     adx_strong := 25;
     adx_weak := 20;
     cooldown_days := 7;
     max_days_without_sale := 60 |}.

Definition _analyze_historical (self : Params) (current_price : Q)
    (price_history : PriceHistory) : Q * Reason :=
  let prices := price price_history in
  let rsi := Indicators.calculate_rsi prices 14 in
  let '(adx, _, _) := Indicators.calculate_adx price_history 14 in
  if Np.gtb adx (adx_strong self) && Np.geb rsi (rsi_min self)
     && Np.leb rsi (rsi_overbought self)
  then (batch_strong_momentum self,
        mkReason "strong_momentum_rsi{}_adx{}" [Flt rsi; Flt adx])
  else if Np.gtb rsi (rsi_overbought self) && Np.gtb adx (adx_strong self)
  then (batch_overbought_strong self,
        mkReason "overbought_strong_rsi{}_adx{}" [Flt rsi; Flt adx])
  else if Np.gtb rsi (rsi_overbought self)
  then (batch_overbought self, mkReason "overbought_rsi{}" [Flt rsi])
  else (batch_baseline self,
        mkReason "baseline_rsi{}_adx{}" [Flt rsi; Flt adx]).

(** The crossover test on the last [ma_period + 1] prices:
    [(upward_cross, downward_cross)]. *)
Definition crossover (self : Params) (current_price : Q)
    (price_history : PriceHistory) : bool * bool :=
  let recent_prices :=
    Np.last_slice (ma_period self + 1) (price price_history) in
  let ma_current := Np.mean (Np.last_slice (ma_period self) recent_prices) in
  let ma_prev :=
    Np.mean (Np.init1 (Np.last_slice (ma_period self + 1) recent_prices)) in
  let prev_price := nth (length recent_prices - 2) recent_prices 0 in
  (Np.leb prev_price ma_prev && Np.gtb current_price ma_current,
   Np.geb prev_price ma_prev && Np.ltb current_price ma_current).

(** The documented part of [decide] ("lines 267-310"): fallback,
    history check, crossover detection.  [analyze] is the indicator
    analysis run on a downward crossover and [label] decorates the
    reasons. *)
Definition crossover_logic (self : Params)
    (analyze : Q -> PriceHistory -> Q * Reason)
    (label : Reason -> Reason)
    (last_sale_day day : Z) (inventory current_price : Q)
    (price_history : PriceHistory) : Decision * Z :=
  let days_since_sale := (day - last_sale_day)%Z in
  let can_trade := (cooldown_days self <=? days_since_sale)%Z in
  if (max_days_without_sale self <=? days_since_sale)%Z
  then _execute_trade day inventory (batch_baseline self)
         (label (mkReason "fallback_{}d" [Int days_since_sale]))
  else if (Np.len (price price_history) <? ma_period self + 1)%Z
  then (hold (label (plain "insufficient_history")), last_sale_day)
  else
    let '(upward_cross, downward_cross) :=
      crossover self current_price price_history in
    if upward_cross
    then (hold (label (plain "upward_crossover_bullish")), last_sale_day)
    else if downward_cross then
      if negb can_trade
      then (hold (label (mkReason "cooldown_{}d"
                           [Int (cooldown_days self - days_since_sale)])),
            last_sale_day)
      else
        let '(batch_size, reason) := analyze current_price price_history in
        _execute_trade day inventory batch_size (label reason)
    else (hold (label (plain "no_crossover")), last_sale_day).

(** [decide].  The documentation shows the body from the fallback
    test on; the two checks before it are the ones that open every
    other [decide] of [baseline.py] (the same file elides them for
    [PriceThresholdStrategy], whose full listing has them). *)
Definition decide `{LiquidationRule} (self : Params) (last_sale_day : Z)
    (day : Z) (inventory current_price : Q)
    (price_history : PriceHistory) (predictions : option Ensemble)
  : Decision * Z :=
  if Np.leb inventory 0 then (hold (plain "no_inventory"), last_sale_day)
  else
    match _force_liquidation_check day inventory with
    | Some forced => (forced, last_sale_day)
    | None =>
        crossover_logic self (_analyze_historical self) (fun r => r)
          last_sale_day day inventory current_price price_history
    end.

End MovingAverageStrategy.

(* ================================================================== *)
(** ** Forecast-aware strategies ([prediction.py]) *)
(* ================================================================== *)

Inductive Confidence : Type := HIGH | MEDIUM | LOW.

Inductive Direction : Type :=
| STRONG_UPWARD | MODERATE_UPWARD | STRONG_DOWNWARD | MODERATE_DOWNWARD
| NEUTRAL.

(** The dict returned by [_analyze_prediction_signal]. *)
Record Signal : Type := mkSignal {
  confidence : Confidence;
  direction : Direction;
  net_benefit_pct : Q;
  cv : Root
}.

(** The dict returned by [_get_baseline_action]. *)
Record BaselineAction : Type := mkBaselineAction {
  triggered : bool;
  batch_size : Q;
  baseline_reason : Reason
}.

Definition is_upward (d : Direction) : bool :=
  match d with STRONG_UPWARD | MODERATE_UPWARD => true | _ => false end.

Definition is_downward (d : Direction) : bool :=
  match d with STRONG_DOWNWARD | MODERATE_DOWNWARD => true | _ => false end.

(** Expected value of selling on each horizon day: the ensemble median
    less the storage accrued until then and the transaction cost. *)
Definition ev_by_day (storage_cost_pct_per_day transaction_cost_pct : Q)
    (current_price : Q) (predictions : Ensemble) : list Q :=
  map (fun h =>
         let future_price := Np.median (Ens.column predictions h) in
         let days_to_wait := inject_Z (Z.of_nat h + 1) in
         let storage_cost :=
           current_price * (storage_cost_pct_per_day / 100) * days_to_wait in
         let transaction_cost := future_price * (transaction_cost_pct / 100) in
         future_price - storage_cost - transaction_cost)
      (seq 0 (Ens.n_days predictions)).

Definition ev_today (transaction_cost_pct current_price : Q) : Q :=
  current_price - current_price * (transaction_cost_pct / 100).

Module MatchedPair.

(** The prediction parameters shared by the two matched-pair
    strategies. *)
Record Params : Type := {
  storage_cost_pct_per_day : Q;
  transaction_cost_pct : Q;
  high_confidence_cv : Q;
  medium_confidence_cv : Q;
  strong_positive_threshold : Q;
  strong_negative_threshold : Q;
  moderate_threshold : Q;
  batch_pred_hold : Q;
  batch_pred_aggressive : Q;
  batch_pred_cautious : Q
}.

Definition default : Params :=
  {| storage_cost_pct_per_day := 0.005;
     transaction_cost_pct := 0.01;
     high_confidence_cv := 0.05;
     medium_confidence_cv := 0.15;
     strong_positive_threshold := 2;
     strong_negative_threshold := -1;
     moderate_threshold := 0.5;
     batch_pred_hold := 0;
     batch_pred_aggressive := 0.40;
     batch_pred_cautious := 0.15 |}.

Section Pair.

Context `{LiquidationRule}.
Variable self : Params.
(** Inherited from the paired baseline. *)
Variable cooldown_days : Z.
Variable batch_baseline : Q.
(** [_get_baseline_action(current_price, price_history)]: what the
    paired baseline's signal says today.  Its body is not
    documented; the strategy is embedded for any such helper. *)
Variable _get_baseline_action : Q -> PriceHistory -> BaselineAction.
(** [_execute_baseline_logic], given per strategy below; the first
    argument is the state [self.last_sale_day]. *)
Variable _execute_baseline_logic :
  Z -> Z -> Q -> Q -> PriceHistory -> Decision * Z.

(** [_calculate_net_benefit_pct(current_price, predictions)] *)
Definition _calculate_net_benefit_pct (current_price : Q)
    (predictions : Ensemble) : Q :=
  let evs :=
    ev_by_day (storage_cost_pct_per_day self) (transaction_cost_pct self)
      current_price predictions in
  let optimal_ev := Np.maximum evs in
  100 * (optimal_ev - ev_today (transaction_cost_pct self) current_price)
  / current_price.

(** [_analyze_prediction_signal(current_price, price_history,
    predictions)] *)
Definition _analyze_prediction_signal (current_price : Q)
    (price_history : PriceHistory) (predictions : Ensemble) : Signal :=
  let net_benefit_pct :=
    _calculate_net_benefit_pct current_price predictions in
  let cv :=
    Indicators.calculate_prediction_confidence (Some predictions)
      (Nat.min 13 (Ens.n_days predictions - 1)) in
  let confidence :=
    if root_ltb cv (high_confidence_cv self) then HIGH
    else if root_ltb cv (medium_confidence_cv self) then MEDIUM
    else LOW in
  let direction :=
    if Np.gtb net_benefit_pct (strong_positive_threshold self)
    then STRONG_UPWARD
    else if Np.gtb net_benefit_pct (moderate_threshold self)
    then MODERATE_UPWARD
    else if Np.ltb net_benefit_pct (strong_negative_threshold self)
    then STRONG_DOWNWARD
    else if Np.ltb net_benefit_pct (- moderate_threshold self)
    then MODERATE_DOWNWARD
    else NEUTRAL in
  mkSignal confidence direction net_benefit_pct cv.

(** [_execute_prediction_override]: HIGH confidence, the forecast
    replaces the baseline. *)
Definition _execute_prediction_override (day : Z) (inventory : Q)
    (pred_signal : Signal) (price_history : PriceHistory)
  : Decision * Z :=
  let net_benefit := net_benefit_pct pred_signal in
  let cv := cv pred_signal in
  let '(batch_size, reason) :=
    match direction pred_signal with
    | STRONG_UPWARD =>
        (batch_pred_hold self,
         mkReason "OVERRIDE_hold_strong_upward_net{}%_cv{}"
           [Flt net_benefit; Cv cv])
    | MODERATE_UPWARD =>
        (batch_pred_cautious self,
         mkReason "OVERRIDE_small_hedge_mod_upward_net{}%_cv{}"
           [Flt net_benefit; Cv cv])
    | STRONG_DOWNWARD =>
        (batch_pred_aggressive self,
         mkReason "OVERRIDE_aggressive_strong_downward_net{}%_cv{}"
           [Flt net_benefit; Cv cv])
    | MODERATE_DOWNWARD =>
        (batch_baseline,
         mkReason "OVERRIDE_baseline_mod_downward_net{}%_cv{}"
           [Flt net_benefit; Cv cv])
    | NEUTRAL =>
        (batch_baseline,
         mkReason "OVERRIDE_neutral_net{}%_cv{}" [Flt net_benefit; Cv cv])
    end in
  _execute_trade day inventory batch_size reason.

(** [_execute_blended_decision]: MEDIUM confidence, the baseline
    signal blended with the forecast direction. *)
Definition _execute_blended_decision (last_sale_day day : Z)
    (inventory current_price : Q) (price_history : PriceHistory)
    (pred_signal : Signal) : Decision * Z :=
  let baseline_action := _get_baseline_action current_price price_history in
  let direction := direction pred_signal in
  let net_benefit := net_benefit_pct pred_signal in
  if triggered baseline_action then
    if is_upward direction
    then _execute_trade day inventory (batch_size baseline_action * 0.5)
           (mkReason "BLEND_reduce_sell_pred_upward_net{}%"
              [Flt net_benefit])
    else _execute_trade day inventory (batch_size baseline_action)
           (prefix "BLEND_follow_baseline_"
              (baseline_reason baseline_action))
  else
    if is_downward direction
    then _execute_trade day inventory (batch_pred_cautious self)
           (mkReason "BLEND_cautious_sell_pred_downward_net{}%"
              [Flt net_benefit])
    else (hold (plain "BLEND_hold_pred_agrees"), last_sale_day).

(** [decide]: forced liquidation, cooldown, then the three
    confidence tiers. *)
Definition decide (last_sale_day : Z)
    (day : Z) (inventory current_price : Q)
    (price_history : PriceHistory) (predictions : option Ensemble)
  : Decision * Z :=
  if Np.leb inventory 0 then (hold (plain "no_inventory"), last_sale_day)
  else
    match _force_liquidation_check day inventory with
    | Some forced => (forced, last_sale_day)
    | None =>
        let days_since_sale := (day - last_sale_day)%Z in
        if (days_since_sale <? cooldown_days)%Z
        then (hold (mkReason "cooldown_{}d"
                      [Int (cooldown_days - days_since_sale)]),
              last_sale_day)
        else
          let baseline :=
            _execute_baseline_logic last_sale_day day inventory
              current_price price_history in
          match predictions with
          | Some p =>
              if (0 <? Ens.size p)%nat then
                let pred_signal :=
                  _analyze_prediction_signal current_price price_history p
                in
                match confidence pred_signal with
                | HIGH =>
                    _execute_prediction_override day inventory pred_signal
                      price_history
                | MEDIUM =>
                    _execute_blended_decision last_sale_day day inventory
                      current_price price_history pred_signal
                | LOW => baseline
                end
              else baseline
          | None => baseline
          end
    end.

End Pair.

End MatchedPair.

Module PriceThresholdPredictive.

Record Params : Type := {
  base : PriceThresholdStrategy.Params;
  pred : MatchedPair.Params
}.

Definition default : Params :=
  {| base := PriceThresholdStrategy.default; pred := MatchedPair.default |}.

Section Helpers.

Context `{LiquidationRule}.
Variable self : Params.
Variable _get_baseline_action : Q -> PriceHistory -> BaselineAction.
(** [_analyze_baseline_technicals(current_price, price_history)]:
    the indicator analysis of the baseline branch, not documented;
    the strategy is embedded for any such helper. *)
Variable _analyze_baseline_technicals : Q -> PriceHistory -> Q * Reason.

(** [_execute_baseline_logic]: LOW confidence, "IDENTICAL logic to
    PriceThresholdStrategy". *)
Definition _execute_baseline_logic (last_sale_day day : Z)
    (inventory current_price : Q) (price_history : PriceHistory)
  : Decision * Z :=
  let days_since_sale := (day - last_sale_day)%Z in
  let threshold :=
    PriceThresholdStrategy.threshold (base self) current_price
      price_history in
  let signal_triggered := Np.gtb current_price threshold in
  if negb signal_triggered then
    if (PriceThresholdStrategy.max_days_without_sale (base self)
        <=? days_since_sale)%Z
    then _execute_trade day inventory
           (PriceThresholdStrategy.batch_baseline (base self))
           (mkReason "BASELINE_fallback_{}d" [Int days_since_sale])
    else (hold (mkReason "BASELINE_below_threshold_{}<{}"
                  [Flt current_price; Flt threshold]),
          last_sale_day)
  else
    let '(batch_size, reason) :=
      _analyze_baseline_technicals current_price price_history in
    _execute_trade day inventory batch_size (prefix "BASELINE_" reason).

Definition decide :=
  MatchedPair.decide (pred self)
    (PriceThresholdStrategy.cooldown_days (base self))
    (PriceThresholdStrategy.batch_baseline (base self))
    _get_baseline_action _execute_baseline_logic.

End Helpers.

End PriceThresholdPredictive.

Module MovingAveragePredictive.

Record Params : Type := {
  base : MovingAverageStrategy.Params;
  pred : MatchedPair.Params
}.

Definition default : Params :=
  {| base := MovingAverageStrategy.default; pred := MatchedPair.default |}.

Section Helpers.

Context `{LiquidationRule}.
Variable self : Params.
Variable _get_baseline_action : Q -> PriceHistory -> BaselineAction.
Variable _analyze_baseline_technicals : Q -> PriceHistory -> Q * Reason.

(** Modelled from the spec: the body of this strategy's
    [_execute_baseline_logic] is not documented.  strategies.md
    says the class has the "identical structure" of
    [PriceThresholdPredictive] with a baseline logic that
    "implements MA crossover detection", and the low-confidence
    tier is specified to run the paired baseline's logic verbatim:
    it is the crossover logic of [MovingAverageStrategy], with the
    reasons labelled [BASELINE_] as the sibling does. *)
Definition _execute_baseline_logic (last_sale_day day : Z)
    (inventory current_price : Q) (price_history : PriceHistory)
  : Decision * Z :=
  MovingAverageStrategy.crossover_logic (base self)
    _analyze_baseline_technicals (prefix "BASELINE_")
    last_sale_day day inventory current_price price_history.

Definition decide :=
  MatchedPair.decide (pred self)
    (MovingAverageStrategy.cooldown_days (base self))
    (MovingAverageStrategy.batch_baseline (base self))
    _get_baseline_action _execute_baseline_logic.

End Helpers.

End MovingAveragePredictive.

Module ExpectedValueStrategy.

Record Params : Type := {
  storage_cost_pct_per_day : Q;
  transaction_cost_pct : Q;
  min_net_benefit_pct : Q;
  negative_threshold_pct : Q;
  high_confidence_cv : Q;
  medium_confidence_cv : Q;
  strong_trend_adx : Q;
  batch_positive_confident : Q;
  batch_positive_uncertain : Q;
  batch_marginal : Q;
  batch_negative_mild : Q;
  batch_negative_strong : Q;
  cooldown_days : Z;
  baseline_batch : Q;
  baseline_frequency : Z
}.

Definition default : Params :=
  {| storage_cost_pct_per_day := 0.005;
     transaction_cost_pct := 0.01;
     min_net_benefit_pct := 0.5;
     negative_threshold_pct := -0.3;
     high_confidence_cv := 0.05;
     medium_confidence_cv := 0.10;
     strong_trend_adx := 25;
     batch_positive_confident := 0;
     batch_positive_uncertain := 0.10;
     batch_marginal := 0.15;
     batch_negative_mild := 0.25;
     batch_negative_strong := 0.35;
     cooldown_days := 7;
     baseline_batch := 0.15;
     baseline_frequency := 30 |}.

(** [_find_optimal_sale_day_pct], returning
    [(optimal_day, net_benefit_pct)]. *)
Definition _find_optimal_sale_day_pct (self : Params) (current_price : Q)
    (predictions : Ensemble) : nat * Q :=
  let evs :=
    ev_by_day (storage_cost_pct_per_day self) (transaction_cost_pct self)
      current_price predictions in
  let optimal_day := Np.argmax evs in
  (optimal_day,
   100 * (nth optimal_day evs 0
          - ev_today (transaction_cost_pct self) current_price)
   / current_price).

(** [_analyze_expected_value_pct], returning [(batch_size, reason)]. *)
Definition _analyze_expected_value_pct (self : Params) (current_price : Q)
    (price_history : PriceHistory) (predictions : Ensemble) : Q * Reason :=
  let '(optimal_day, net_benefit_pct) :=
    _find_optimal_sale_day_pct self current_price predictions in
  let cv_pred :=
    Indicators.calculate_prediction_confidence (Some predictions)
      (Nat.min 13 (Ens.n_days predictions - 1)) in
  let '(adx_pred, _, _) :=
    Indicators.calculate_adx price_history
      (Z.min 14 (Np.len (price price_history) - 1)) in
  let day_arg := Int (Z.of_nat optimal_day) in
  if Np.gtb net_benefit_pct (min_net_benefit_pct self) then
    if root_ltb cv_pred (high_confidence_cv self)
       && Np.gtb adx_pred (strong_trend_adx self)
    then (batch_positive_confident self,
          mkReason "net_benefit_{}%_high_conf_hold_to_day{}"
            [Flt net_benefit_pct; day_arg])
    else if root_ltb cv_pred (medium_confidence_cv self)
    then (batch_positive_uncertain self,
          mkReason "net_benefit_{}%_med_conf_small_hedge_day{}"
            [Flt net_benefit_pct; day_arg])
    else (batch_marginal self,
          mkReason "net_benefit_{}%_low_conf_hedge" [Flt net_benefit_pct])
  else if Np.gtb net_benefit_pct 0
  then (batch_marginal self,
        mkReason "marginal_benefit_{}%_gradual_liquidation"
          [Flt net_benefit_pct])
  else if Np.gtb net_benefit_pct (negative_threshold_pct self)
  then (batch_negative_mild self,
        mkReason "mild_negative_{}%_avoid_storage" [Flt net_benefit_pct])
  else (batch_negative_strong self,
        mkReason "strong_negative_{}%_sell_to_cut_losses"
          [Flt net_benefit_pct]).

Definition decide `{LiquidationRule} (self : Params) (last_sale_day : Z)
    (day : Z) (inventory current_price : Q)
    (price_history : PriceHistory) (predictions : option Ensemble)
  : Decision * Z :=
  if Np.leb inventory 0 then (hold (plain "no_inventory"), last_sale_day)
  else
    match _force_liquidation_check day inventory with
    | Some forced => (forced, last_sale_day)
    | None =>
        let days_since_sale := (day - last_sale_day)%Z in
        if (days_since_sale <? cooldown_days self)%Z
        then (hold (mkReason "cooldown_{}d"
                      [Int (cooldown_days self - days_since_sale)]),
              last_sale_day)
        else
          match predictions with
          | None =>
              if (baseline_frequency self <=? days_since_sale)%Z
              then _execute_trade day inventory (baseline_batch self)
                     (plain "no_predictions_fallback")
              else (hold (plain "no_predictions_waiting"), last_sale_day)
          | Some p =>
              let '(batch_size, reason) :=
                _analyze_expected_value_pct self current_price
                  price_history p in
              _execute_trade day inventory batch_size reason
          end
    end.

End ExpectedValueStrategy.

Module ConsensusStrategy.

Record Params : Type := {
  storage_cost_pct_per_day : Q;
  transaction_cost_pct : Q;
  consensus_threshold : Q;
  very_strong_consensus : Q;
  moderate_consensus : Q;
  min_return : Q;
  min_net_benefit_pct : Q;
  high_confidence_cv : Q;
  evaluation_day : nat;
  batch_strong_consensus : Q;
  batch_moderate : Q;
  batch_weak : Q;
  batch_bearish : Q;
  cooldown_days : Z
}.

Definition default : Params :=
  {| storage_cost_pct_per_day := 0.005;
     transaction_cost_pct := 0.01;
     consensus_threshold := 0.70;
     very_strong_consensus := 0.85;
     moderate_consensus := 0.60;
     min_return := 0.03;
     min_net_benefit_pct := 0.5;
     high_confidence_cv := 0.05;
     evaluation_day := 14;
     batch_strong_consensus := 0;
     batch_moderate := 0.15;
     batch_weak := 0.25;
     batch_bearish := 0.35;
     cooldown_days := 7 |}.

(** [eval_day = min(self.evaluation_day, predictions.shape[1] - 1)] *)
Definition eval_day (self : Params) (predictions : Ensemble) : nat :=
  Nat.min (evaluation_day self) (Ens.n_days predictions - 1).

(** The share of paths whose return at the evaluation day exceeds
    [min_return]. *)
Definition bullish_pct (self : Params) (current_price : Q)
    (predictions : Ensemble) : Q :=
  let day_predictions := Ens.column predictions (eval_day self predictions) in
  let bullish_count :=
    length (filter (fun p => Np.gtb ((p - current_price) / current_price)
                               (min_return self))
              day_predictions) in
  inject_Z (Z.of_nat bullish_count) / inject_Z (Np.len day_predictions).

Definition net_benefit_pct (self : Params) (current_price : Q)
    (predictions : Ensemble) : Q :=
  let eval_day := eval_day self predictions in
  let median_future := Np.median (Ens.column predictions eval_day) in
  let expected_return_pct := (median_future - current_price) / current_price in
  let days_to_wait := inject_Z (Z.of_nat eval_day + 1) in
  let storage_cost_pct := (storage_cost_pct_per_day self / 100) * days_to_wait in
  let transaction_cost_pct := transaction_cost_pct self / 100 in
  100 * (expected_return_pct - storage_cost_pct - transaction_cost_pct).

(** [_analyze_consensus_pct], returning [(batch_size, reason)]. *)
Definition _analyze_consensus_pct (self : Params) (current_price : Q)
    (price_history : PriceHistory) (predictions : Ensemble) : Q * Reason :=
  let bullish_pct := bullish_pct self current_price predictions in
  let cv :=
    Indicators.calculate_prediction_confidence (Some predictions)
      (eval_day self predictions) in
  let net_benefit_pct := net_benefit_pct self current_price predictions in
  if Np.geb bullish_pct (very_strong_consensus self)
     && Np.gtb net_benefit_pct (min_net_benefit_pct self)
  then (batch_strong_consensus self,
        mkReason "very_strong_consensus_{}_net_{}%_hold"
          [Flt bullish_pct; Flt net_benefit_pct])
  else if Np.geb bullish_pct (consensus_threshold self)
          && Np.gtb net_benefit_pct (min_net_benefit_pct self)
  then
    if root_ltb cv (high_confidence_cv self)
    then (batch_strong_consensus self,
          mkReason "strong_consensus_{}_high_conf_hold" [Flt bullish_pct])
    else (batch_moderate self,
          mkReason "strong_consensus_{}_med_conf_gradual" [Flt bullish_pct])
  else if Np.geb bullish_pct (moderate_consensus self)
  then (batch_moderate self,
        mkReason "moderate_consensus_{}_gradual" [Flt bullish_pct])
  else if Np.ltb bullish_pct (1 - consensus_threshold self)
  then (batch_bearish self,
        mkReason "bearish_consensus_{}_sell" [Flt bullish_pct])
  else (batch_weak self,
        mkReason "weak_consensus_{}_sell" [Flt bullish_pct]).

Definition decide `{LiquidationRule} (self : Params) (last_sale_day : Z)
    (day : Z) (inventory current_price : Q)
    (price_history : PriceHistory) (predictions : option Ensemble)
  : Decision * Z :=
  if Np.leb inventory 0 then (hold (plain "no_inventory"), last_sale_day)
  else
    match _force_liquidation_check day inventory with
    | Some forced => (forced, last_sale_day)
    | None =>
        let days_since_sale := (day - last_sale_day)%Z in
        if (days_since_sale <? cooldown_days self)%Z
        then (hold (mkReason "cooldown_{}d"
                      [Int (cooldown_days self - days_since_sale)]),
              last_sale_day)
        else
          match predictions with
          | None =>
              if (30 <=? days_since_sale)%Z
              then _execute_trade day inventory 0.20
                     (plain "no_predictions_fallback")
              else (hold (plain "no_predictions_waiting"), last_sale_day)
          | Some p =>
              let '(batch_size, reason) :=
                _analyze_consensus_pct self current_price price_history p in
              _execute_trade day inventory batch_size reason
          end
    end.

End ConsensusStrategy.

Module RiskAdjustedStrategy.

Record Params : Type := {
  storage_cost_pct_per_day : Q;
  transaction_cost_pct : Q;
  min_return : Q;
  min_net_benefit_pct : Q;
  max_uncertainty_low : Q;
  max_uncertainty_medium : Q;
  max_uncertainty_high : Q;
  strong_trend_adx : Q;
  evaluation_day : nat;
  batch_low_risk : Q;
  batch_medium_risk : Q;
  batch_high_risk : Q;
  batch_very_high_risk : Q;
  cooldown_days : Z
}.

Definition default : Params :=
  {| storage_cost_pct_per_day := 0.005;
     transaction_cost_pct := 0.01;
     min_return := 0.03;
     min_net_benefit_pct := 0.5;
     max_uncertainty_low := 0.05;
     max_uncertainty_medium := 0.10;
     max_uncertainty_high := 0.20;
     strong_trend_adx := 25;
     evaluation_day := 14;
     batch_low_risk := 0;
     batch_medium_risk := 0.10;
     batch_high_risk := 0.25;
     batch_very_high_risk := 0.35;
     cooldown_days := 7 |}.

(** [_analyze_risk_adjusted_pct], returning [(batch_size, reason)]. *)
Definition _analyze_risk_adjusted_pct (self : Params) (current_price : Q)
    (price_history : PriceHistory) (predictions : Ensemble) : Q * Reason :=
  let eval_day :=
    Nat.min (evaluation_day self) (Ens.n_days predictions - 1) in
  let day_predictions := Ens.column predictions eval_day in
  let median_future := Np.median day_predictions in
  let expected_return_pct := (median_future - current_price) / current_price in
  let cv :=
    Indicators.calculate_prediction_confidence (Some predictions) eval_day in
  let days_to_wait := inject_Z (Z.of_nat eval_day + 1) in
  let storage_cost_pct := (storage_cost_pct_per_day self / 100) * days_to_wait in
  let transaction_cost_pct := transaction_cost_pct self / 100 in
  let net_benefit_pct :=
    100 * (expected_return_pct - storage_cost_pct - transaction_cost_pct) in
  let '(adx, _, _) :=
    Indicators.calculate_adx price_history
      (Z.min 14 (Np.len (price price_history) - 1)) in
  if Np.geb expected_return_pct (min_return self)
     && Np.gtb net_benefit_pct (min_net_benefit_pct self)
  then
    if root_ltb cv (max_uncertainty_low self)
       && Np.gtb adx (strong_trend_adx self)
    then (batch_low_risk self,
          mkReason "low_risk_cv{}_return{}_hold" [Cv cv; Flt expected_return_pct])
    else if root_ltb cv (max_uncertainty_medium self)
    then (batch_medium_risk self,
          mkReason "medium_risk_cv{}_return{}_small_hedge"
            [Cv cv; Flt expected_return_pct])
    else if root_ltb cv (max_uncertainty_high self)
    then (batch_high_risk self,
          mkReason "high_risk_cv{}_return{}_hedge"
            [Cv cv; Flt expected_return_pct])
    else (batch_very_high_risk self,
          mkReason "very_high_risk_cv{}_sell" [Cv cv])
  else
    if Np.ltb net_benefit_pct 0
    then (batch_very_high_risk self,
          mkReason "negative_net_benefit_{}%_sell" [Flt net_benefit_pct])
    else (batch_high_risk self,
          mkReason "insufficient_return_{}_sell" [Flt expected_return_pct]).

Definition decide `{LiquidationRule} (self : Params) (last_sale_day : Z)
    (day : Z) (inventory current_price : Q)
    (price_history : PriceHistory) (predictions : option Ensemble)
  : Decision * Z :=
  if Np.leb inventory 0 then (hold (plain "no_inventory"), last_sale_day)
  else
    match _force_liquidation_check day inventory with
    | Some forced => (forced, last_sale_day)
    | None =>
        let days_since_sale := (day - last_sale_day)%Z in
        if (days_since_sale <? cooldown_days self)%Z
        then (hold (mkReason "cooldown_{}d"
                      [Int (cooldown_days self - days_since_sale)]),
              last_sale_day)
        else
          match predictions with
          | None =>
              if (30 <=? days_since_sale)%Z
              then _execute_trade day inventory 0.20
                     (plain "no_predictions_fallback")
              else (hold (plain "no_predictions_waiting"), last_sale_day)
          | Some p =>
              let '(batch_size, reason) :=
                _analyze_risk_adjusted_pct self current_price
                  price_history p in
              _execute_trade day inventory batch_size reason
          end
    end.

End RiskAdjustedStrategy.

(* ================================================================== *)
(** ** Python exceptions *)
(* ================================================================== *)

Inductive Exn : Type := IndexError | ValueError | SolverError.

(** A computation that returns a value or raises. *)
Inductive Py (A : Type) : Type :=
| Ok (a : A)
| Raise (e : Exn).

Arguments Ok {A} a.
Arguments Raise {A} e.

Definition bind {A B} (m : Py A) (k : A -> Py B) : Py B :=
  match m with
  | Ok a => k a
  | Raise e => Raise e
  end.

Notation "x <- m ;; k" := (bind m (fun x => k))
  (at level 61, m at next level, right associativity).

(** [try: body / except Exception: return fallback] *)
Definition try_except {A} (body : Py A) (fallback : A) : Py A :=
  match body with
  | Ok a => Ok a
  | Raise _ => Ok fallback
  end.

(* ================================================================== *)
(** ** Rolling-horizon optimiser ([rolling_horizon_mpc.py]) *)
(* ================================================================== *)

(** The forecast handed to the optimiser: the ensemble matrix, or a
    single path as a 1-D array. *)
Inductive Forecast : Type :=
| Paths (e : Ensemble)
| Path (l : list Q).

(** The arguments of [scipy.optimize.linprog]: minimise [c . x] subject
    to [A_eq x = b_eq] and the per-variable [(lower, upper)] bounds. *)
Record LinProg : Type := mkLinProg {
  c : list Q;
  A_eq : list (list Q);
  b_eq : list Q;
  bounds : list (Q * option Q)
}.

(** The [OptimizeResult] fields the strategy reads. *)
Record OptimizeResult : Type := mkResult {
  success : bool;
  x : list Q;
  fun_ : Q
}.

(** The dict returned by [_solve_window_lp]. *)
Record WindowSolution : Type := mkWindowSolution {
  sell_solution : list Q;
  inventory_solution : list Q;
  objective_value : Q;
  shadow_price : Q
}.

Module Vec.

Definition zeros (n : nat) : list Q := repeat 0 n.

(** [l[i] = v] for an index inside the array. *)
Fixpoint set_nth (i : nat) (v : Q) (l : list Q) : list Q :=
  match l, i with
  | [], _ => []
  | _ :: t, O => v :: t
  | a :: t, S i' => a :: set_nth i' v t
  end.

(** [l[i] += v] *)
Fixpoint add_nth (i : nat) (v : Q) (l : list Q) : list Q :=
  match l, i with
  | [], _ => []
  | a :: t, O => (a + v) :: t
  | a :: t, S i' => a :: add_nth i' v t
  end.

Fixpoint dot (r v : list Q) : Q :=
  match r, v with
  | a :: r', b :: v' => a * b + dot r' v'
  | _, _ => 0
  end.

End Vec.

Module RollingHorizonMPC.

Record Params : Type := {
  storage_cost_pct_per_day : Q;
  transaction_cost_pct : Q;
  horizon_days : Z;
  terminal_value_decay : Q;
  shadow_price_smoothing : option Q
}.

Definition default : Params :=
  {| storage_cost_pct_per_day := 0.3;
     transaction_cost_pct := 2;
     horizon_days := 14;
     terminal_value_decay := 0.95;
     shadow_price_smoothing := None |}.

(** Row [t] of [A_eq]: the inventory balance of horizon day [t] over
    the variables [sell[0..n-1], inv[0..n-1]]. *)
Definition balance_row (n_days t : nat) : list Q :=
  let row := Vec.zeros (2 * n_days) in
  let row := Vec.set_nth t 1 row in
  let row := Vec.set_nth (n_days + t) 1 row in
  if (0 <? t)%nat then Vec.set_nth (n_days + t - 1) (-1) row else row.

(** Entry [t] of [b_eq]. *)
Definition balance_rhs (current_inventory : Q) (future_harvest : list Q)
    (t : nat) : Q :=
  if (0 <? t)%nat then nth t future_harvest 0
  else current_inventory + nth t future_harvest 0.

(** The linear program [_solve_window_lp] sets up for a window of
    [n_days >= 1] days; [smoothed_shadow_price] is the state
    [self.smoothed_shadow_price]. *)
Definition window_lp (self : Params) (smoothed_shadow_price : option Q)
    (current_inventory : Q) (future_prices future_harvest : list Q)
  : LinProg :=
  let n_days := length future_prices in
  let revenue_coeff :=
    map (fun p => p * (1 - transaction_cost_pct self / 100)) future_prices in
  let storage_coeff :=
    map (fun p => p * (storage_cost_pct_per_day self / 100)) future_prices in
  let c0 := map Qopp revenue_coeff ++ storage_coeff in
  let last_price := nth (n_days - 1) future_prices 0 in
  let terminal_val_coeff :=
    match shadow_price_smoothing self, smoothed_shadow_price with
    | Some _, Some s => - s
    | _, _ => - last_price * terminal_value_decay self
    end in
  {| c := Vec.add_nth (n_days + n_days - 1) terminal_val_coeff c0;
     A_eq := map (balance_row n_days) (seq 0 n_days);
     b_eq := map (balance_rhs current_inventory future_harvest)
               (seq 0 n_days);
     bounds := repeat (0, None) (2 * n_days) |}.

(** [predictions is None or len(predictions) == 0] *)
Definition no_predictions (predictions : option Forecast) : bool :=
  match predictions with
  | None => true
  | Some (Paths e) => (length e =? 0)%nat
  | Some (Path l) => (length l =? 0)%nat
  end.

(** [window_len = min(self.horizon_days, available_horizon)] *)
Definition window_len (self : Params) (predictions : option Forecast) : Z :=
  let available_horizon :=
    match predictions with
    | Some (Paths e) => Z.of_nat (Ens.n_days e)
    | Some (Path l) => Np.len l
    | None => 0%Z
    end in
  Z.min (horizon_days self) available_horizon.

(** The window of predicted prices in dollars per ton: the mean over
    the paths of an ensemble, or the single path, times 20. *)
Definition future_prices_per_ton (self : Params)
    (predictions : option Forecast) : list Q :=
  let window_len := window_len self predictions in
  let future_prices_cents :=
    match predictions with
    | Some (Paths e) =>
        map (fun h => Np.mean (Ens.column e h)) (seq 0 (Z.to_nat window_len))
    | Some (Path l) => firstn (Z.to_nat window_len) l
    | None => []
    end in
  map (fun p => p * 20) future_prices_cents.

(** The exponential smoothing of the shadow price after a solve. *)
Definition update_shadow_price (self : Params)
    (smoothed_shadow_price : option Q) (shadow_price : Q) : option Q :=
  match shadow_price_smoothing self with
  | Some alpha =>
      match smoothed_shadow_price with
      | None => Some shadow_price
      | Some s => Some (alpha * shadow_price + (1 - alpha) * s)
      end
  | None => smoothed_shadow_price
  end.

Section Solver.

(** [scipy.optimize.linprog] with [method='highs']: an external
    solver, which may raise. *)
Variable linprog : LinProg -> Py OptimizeResult.

(** [_solve_window_lp]; [None] is Python's [None].  The terminal
    value is written at index [2 * n_days - 1] before the [try]
    block, which raises [IndexError] for an empty window, as does a
    harvest array shorter than the window. *)
Definition _solve_window_lp (self : Params)
    (smoothed_shadow_price : option Q)
    (current_inventory : Q) (future_prices future_harvest : list Q)
  : Py (option WindowSolution) :=
  let n_days := length future_prices in
  if (length future_harvest <? n_days)%nat then Raise IndexError
  else if (n_days =? 0)%nat then Raise IndexError
  else
    let lp :=
      window_lp self smoothed_shadow_price current_inventory
        future_prices future_harvest in
    try_except
      (result <- linprog lp ;;
       if negb (success result) then Ok None
       else
         Ok (Some
               {| sell_solution := firstn n_days (x result);
                  inventory_solution := skipn n_days (x result);
                  objective_value := - fun_ result;
                  shadow_price :=
                    nth (n_days - 1) future_prices 0
                    * terminal_value_decay self |}))
      None.

(** [decide]; the state is [self.smoothed_shadow_price]. *)
Definition decide (self : Params) (smoothed_shadow_price : option Q)
    (day : Z) (inventory current_price : Q)
    (price_history : PriceHistory) (predictions : option Forecast)
  : Py (Decision * option Q) :=
  if Np.leb inventory 0
  then Ok (hold (plain "no_inventory"), smoothed_shadow_price)
  else if no_predictions predictions
  then Ok (hold (plain "no_predictions"), smoothed_shadow_price)
  else
    let window_len := window_len self predictions in
    if (window_len <=? 0)%Z
    then Ok (sell inventory (plain "no_forecast_horizon"),
             smoothed_shadow_price)
    else
      let future_prices_per_ton := future_prices_per_ton self predictions in
      let future_harvest := Vec.zeros (Z.to_nat window_len) in
      result <- _solve_window_lp self smoothed_shadow_price inventory
                  future_prices_per_ton future_harvest ;;
      match result with
      | None => Ok (hold (plain "lp_failed"), smoothed_shadow_price)
      | Some result =>
          match sell_solution result with
          | [] => Raise IndexError
          | sell_today :: _ =>
              let smoothed_shadow_price :=
                update_shadow_price self smoothed_shadow_price
                  (shadow_price result) in
              if Np.ltb sell_today 0.1
              then Ok (hold (plain "mpc_hold"), smoothed_shadow_price)
              else
                let sell_amount := Np.py_min sell_today inventory in
                Ok ({| action := SELL;
                       amount := sell_amount;
                       reason := plain "mpc_optimize";
                       info :=
                         [("window_len"%string, Int window_len);
                          ("predicted_net_value"%string,
                           Flt (objective_value result))] |},
                    smoothed_shadow_price)
          end
      end.

End Solver.

End RollingHorizonMPC.

(* ================================================================== *)
(** ** The strategy interface *)
(* ================================================================== *)

(** [Strategy.decide(day, inventory, current_price, price_history,
    predictions)] over an explicit strategy state. *)
Record Policy : Type := mkPolicy {
  pstate : Type;
  pdecide :
    pstate -> Z -> Q -> Q -> PriceHistory -> option Ensemble
    -> Py (Decision * pstate)
}.

(** A [decide] over the state [self.last_sale_day] (or
    [self.days_since_last_sale]), which never raises. *)
Definition DatedDecide : Type :=
  Z -> Z -> Q -> Q -> PriceHistory -> option Ensemble -> Decision * Z.

Definition dated_policy (f : DatedDecide) : Policy :=
  {| pstate := Z;
     pdecide s day inventory current_price price_history predictions :=
       Ok (f s day inventory current_price price_history predictions) |}.

Definition mpc_policy (linprog : LinProg -> Py OptimizeResult)
    (self : RollingHorizonMPC.Params) : Policy :=
  {| pstate := option Q;
     pdecide s day inventory current_price price_history predictions :=
       RollingHorizonMPC.decide linprog self s day inventory current_price
         price_history (option_map Paths predictions) |}.

(** One call of [decide] as a run makes it. *)
Record Call : Type := mkCall {
  call_day : Z;
  call_inventory : Q;
  call_price : Q;
  call_history : PriceHistory;
  call_predictions : option Ensemble
}.

(** One entry of a run's trace: the call, the state
    [self.last_sale_day] it found, and the decision it returned. *)
Record Answer : Type := mkAnswer {
  asked : Call;
  last_sale_before : Z;
  answered : Decision
}.

(** The decisions of a strategy over a sequence of calls, the state
    threaded from one call to the next. *)
Fixpoint trace (f : DatedDecide) (last_sale_day : Z) (calls : list Call)
  : list Answer :=
  match calls with
  | [] => []
  | k :: rest =>
      let '(d, s) :=
        f last_sale_day (call_day k) (call_inventory k) (call_price k)
          (call_history k) (call_predictions k) in
      mkAnswer k last_sale_day d :: trace f s rest
  end.

(** The forced-liquidation check lets the call through. *)
Definition not_forced `{LiquidationRule} (k : Call) : Prop :=
  _force_liquidation_check (call_day k) (call_inventory k) = None.

(** A sale that the forced-liquidation check did not produce. *)
Definition non_forced_sell `{LiquidationRule} (a : Answer) : Prop :=
  action (answered a) = SELL /\ not_forced (asked a).

(** The cooldown gate at one call: fewer than [cooldown_days] days
    since the last sale means HOLD, forced liquidation excepted. *)
Definition gate_respected `{LiquidationRule} (cooldown_days : Z)
    (a : Answer) : Prop :=
  (call_day (asked a) - last_sale_before a < cooldown_days)%Z ->
  not_forced (asked a) ->
  action (answered a) = HOLD.

(** Two sales of a run that were not forced lie at least
    [cooldown_days] days apart. *)
Definition sales_spaced `{LiquidationRule} (cooldown_days : Z)
    (a1 a2 : Answer) : Prop :=
  non_forced_sell a1 -> non_forced_sell a2 ->
  (cooldown_days <= call_day (asked a2) - call_day (asked a1))%Z.

(** What makes a [decide] respect a cooldown of [c] days: a sale that
    is not forced happens only [c] days or more after the recorded one
    and is recorded in turn; nothing else touches the record. *)
Definition cooldown_gated `{LiquidationRule} (c : Z) (f : DatedDecide)
  : Prop :=
  forall last day inventory current_price price_history predictions,
    let r := f last day inventory current_price price_history predictions in
    (_force_liquidation_check day inventory = None ->
     action (fst r) = SELL ->
     (c <= day - last)%Z /\ snd r = day)
    /\ (_force_liquidation_check day inventory <> None
         \/ action (fst r) = HOLD ->
         snd r = last).

(** The strategies that are configured with [cooldown_days]. *)
Inductive CooldownStrategy : Type :=
| PriceThreshold (p : PriceThresholdStrategy.Params)
| MovingAverage (p : MovingAverageStrategy.Params)
| PriceThresholdPred (p : PriceThresholdPredictive.Params)
    (get_baseline_action : Q -> PriceHistory -> BaselineAction)
    (analyze_baseline_technicals : Q -> PriceHistory -> Q * Reason)
| MovingAveragePred (p : MovingAveragePredictive.Params)
    (get_baseline_action : Q -> PriceHistory -> BaselineAction)
    (analyze_baseline_technicals : Q -> PriceHistory -> Q * Reason)
| ExpectedValue (p : ExpectedValueStrategy.Params)
| Consensus (p : ConsensusStrategy.Params)
| RiskAdjusted (p : RiskAdjustedStrategy.Params).

Definition cooldown_of (s : CooldownStrategy) : Z :=
  match s with
  | PriceThreshold p => PriceThresholdStrategy.cooldown_days p
  | MovingAverage p => MovingAverageStrategy.cooldown_days p
  | PriceThresholdPred p _ _ =>
      PriceThresholdStrategy.cooldown_days (PriceThresholdPredictive.base p)
  | MovingAveragePred p _ _ =>
      MovingAverageStrategy.cooldown_days (MovingAveragePredictive.base p)
  | ExpectedValue p => ExpectedValueStrategy.cooldown_days p
  | Consensus p => ConsensusStrategy.cooldown_days p
  | RiskAdjusted p => RiskAdjustedStrategy.cooldown_days p
  end.

Definition decide_of `{LiquidationRule} (s : CooldownStrategy) : DatedDecide :=
  match s with
  | PriceThreshold p => PriceThresholdStrategy.decide p
  | MovingAverage p => MovingAverageStrategy.decide p
  | PriceThresholdPred p g a => PriceThresholdPredictive.decide p g a
  | MovingAveragePred p g a => MovingAveragePredictive.decide p g a
  | ExpectedValue p => ExpectedValueStrategy.decide p
  | Consensus p => ConsensusStrategy.decide p
  | RiskAdjusted p => RiskAdjustedStrategy.decide p
  end.

(** The two rule-based strategies test their 60-day fallback before the
    cooldown; the fallback period of a sensible configuration is not
    shorter than the cooldown (60 against 7 by default). *)
Definition fallback_after_cooldown (s : CooldownStrategy) : Prop :=
  match s with
  | PriceThreshold p =>
      (PriceThresholdStrategy.cooldown_days p
       <= PriceThresholdStrategy.max_days_without_sale p)%Z
  | MovingAverage p =>
      (MovingAverageStrategy.cooldown_days p
       <= MovingAverageStrategy.max_days_without_sale p)%Z
  | _ => True
  end.

(* ================================================================== *)
(** ** Backtest engine ([backtest_engine.py]) *)
(* ================================================================== *)

Module BacktestEngine.

(** [_create_harvest_schedule]: every day of a harvest window receives
    [harvest_volume / len(window)]; a day in no window receives
    nothing.  The windows are given as their lists of days (the
    month-to-day conversion [calculate_days] is not documented); a
    later window overwrites an earlier one, as the dict assignment
    does. *)
Fixpoint _create_harvest_schedule (harvest_volume : Q)
    (harvest_windows : list (list Z)) (day : Z) : Q :=
  match harvest_windows with
  | [] => 0
  | harvest_days :: rest =>
      if existsb (Z.eqb day) (concat rest)
      then _create_harvest_schedule harvest_volume rest day
      else if existsb (Z.eqb day) harvest_days
      then harvest_volume / inject_Z (Np.len harvest_days)
      else 0
  end.

(** "Price Conversion": futures prices are in cents per pound. *)
Definition price_per_ton (price : Q) : Q := price * 20.

(** "Cost Modeling": storage is charged on the inventory held, the
    transaction cost on the value sold. *)
Definition daily_storage_cost (inventory price_per_ton rate : Q) : Q :=
  inventory * price_per_ton * rate.

Definition transaction_cost (sale_value rate : Q) : Q := sale_value * rate.

Record Config : Type := {
  harvest_schedule : Z -> Q;
  storage_cost_pct_per_day : Q;
  transaction_cost_pct : Q
}.

(** What the outside world supplies for one day. *)
Record DayInput : Type := {
  price_today : Q;
  forecast : option Ensemble
}.

(** One line of the daily log. *)
Record DailyStateRecord : Type := {
  rec_day : Z;
  rec_harvest : Q;
  rec_decision : Decision;
  rec_sold : Q;
  rec_inventory : Q
}.

Record SimulationState (S : Type) : Type := {
  day : Z;
  inventory : Q;
  policy_state : S;
  prices_seen : PriceHistory;
  cumulative_harvest : Q;
  cumulative_sales : Q;
  total_storage_cost : Q;
  total_transaction_cost : Q;
  total_revenue : Q;
  log : list DailyStateRecord
}.

Arguments day {S} s.
Arguments inventory {S} s.
Arguments policy_state {S} s.
Arguments prices_seen {S} s.
Arguments cumulative_harvest {S} s.
Arguments cumulative_sales {S} s.
Arguments total_storage_cost {S} s.
Arguments total_transaction_cost {S} s.
Arguments total_revenue {S} s.
Arguments log {S} s.

Inductive EngineError : Type :=
| StateInvariantViolation (day : Z) (amount inventory : Q)
| PolicyRaised (day : Z) (e : Exn).

Definition initial {S} (start_day : Z) (s0 : S) : SimulationState S :=
  {| day := start_day; inventory := 0; policy_state := s0;
     prices_seen := mkHistory [] None;
     cumulative_harvest := 0; cumulative_sales := 0;
     total_storage_cost := 0; total_transaction_cost := 0;
     total_revenue := 0; log := [] |}.

(** The amount a decision takes out of the inventory. *)
Definition sold_amount (d : Decision) : Q :=
  match action d with
  | SELL => amount d
  | HOLD => 0
  end.

Section Engine.

Variable cfg : Config.
Variable policy : Policy.

(** Modelled from the spec: the daily loop of the engine is not among
    the documented sources (only its docstring, the harvest schedule
    and the cost formulas are).  Following the specification's system
    overview, data model and error handling design, one simulated day
    applies the harvest inflow, hands the policy the inventory, price,
    price history and forecast, accrues storage on the inventory held
    going into the day, executes a SELL by taking its amount out of the
    inventory and charging the transaction cost, and appends to the
    logs; the day index advances by one.  A sale that is negative or
    exceeds the inventory is a [StateInvariantViolation] and halts the
    simulation instead of being clamped. *)
Definition step (s : SimulationState (pstate policy)) (i : DayInput)
  : EngineError + SimulationState (pstate policy) :=
  let harvest := harvest_schedule cfg (day s) in
  let inventory := inventory s + harvest in
  let history :=
    mkHistory (price (prices_seen s) ++ [price_today i])
      (high_low (prices_seen s)) in
  match pdecide policy (policy_state s) (day s) inventory (price_today i)
          history (forecast i) with
  | Raise e => inl (PolicyRaised (day s) e)
  | Ok (d, ps) =>
      let sold := sold_amount d in
      if Np.ltb sold 0 || Np.ltb inventory sold
      then inl (StateInvariantViolation (day s) sold inventory)
      else
        let ton := price_per_ton (price_today i) in
        inr {| day := (day s + 1)%Z;
               inventory := inventory - sold;
               policy_state := ps;
               prices_seen := history;
               cumulative_harvest := cumulative_harvest s + harvest;
               cumulative_sales := cumulative_sales s + sold;
               total_storage_cost :=
                 total_storage_cost s
                 + daily_storage_cost inventory ton
                     (storage_cost_pct_per_day cfg);
               total_transaction_cost :=
                 total_transaction_cost s
                 + transaction_cost (sold * ton) (transaction_cost_pct cfg);
               total_revenue := total_revenue s + sold * ton;
               log :=
                 log s ++
                 [{| rec_day := day s; rec_harvest := harvest;
                     rec_decision := d; rec_sold := sold;
                     rec_inventory := inventory - sold |}] |}
  end.

(** The run: one [step] per day of input, halting at the first error. *)
Fixpoint run (s : SimulationState (pstate policy)) (inputs : list DayInput)
  : EngineError + SimulationState (pstate policy) :=
  match inputs with
  | [] => inr s
  | i :: rest =>
      match step s i with
      | inl e => inl e
      | inr s' => run s' rest
      end
  end.

End Engine.

(** Mass balance and non-negative stock, the invariant of a run. *)
Definition balanced {S} (s : SimulationState S) : Prop :=
  cumulative_harvest s == cumulative_sales s + inventory s
  /\ 0 <= inventory s.

End BacktestEngine.

(** ** Auxiliary notions for the statements *)

(** Both renderings of [_force_liquidation_check] sell the whole
    inventory from the deadline on. *)
Definition sells_all_from `{LiquidationRule} (deadline : Z) : Prop :=
  forall day inventory, (deadline <= day)%Z ->
    _force_liquidation_check day inventory
    = Some (sell inventory (plain "force_liquidation_max_days")).

(** The forecast lets the optimiser reach the solver: it is present,
    not empty, and leaves a window of at least one day. *)
Definition usable (self : RollingHorizonMPC.Params)
    (forecast : option Forecast) : Prop :=
  RollingHorizonMPC.no_predictions forecast = false
  /\ (0 < RollingHorizonMPC.window_len self forecast)%Z.

(** The linear program [decide] hands to the solver on a given day. *)
Definition day_lp (self : RollingHorizonMPC.Params)
    (smoothed_shadow_price : option Q) (inventory : Q)
    (forecast : option Forecast) : LinProg :=
  RollingHorizonMPC.window_lp self smoothed_shadow_price inventory
    (RollingHorizonMPC.future_prices_per_ton self forecast)
    (Vec.zeros (Z.to_nat (RollingHorizonMPC.window_len self forecast))).

(** The solver raised, or returned without success. *)
Definition solver_failed (o : Py OptimizeResult) : Prop :=
  match o with
  | Raise _ => True
  | Ok r => success r = false
  end.

(** Two outcomes of [decide] that agree on what is executed and on the
    state carried to the next day. *)
Definition same_execution (o1 o2 : Py (Decision * option Q)) : Prop :=
  match o1, o2 with
  | Ok (d1, s1), Ok (d2, s2) =>
      action d1 = action d2 /\ amount d1 = amount d2 /\ s1 = s2
  | Raise e1, Raise e2 => e1 = e2
  | _, _ => False
  end.

(** The variables of a window of [n] days inside a solution vector. *)
Definition sell_var (xs : list Q) (t : nat) : Q := nth t xs 0.
Definition inv_var (n : nat) (xs : list Q) (t : nat) : Q := nth (n + t) xs 0.

(** The inventory balance of horizon day [t]; day 0 starts from the
    inventory on hand. *)
Definition balance_holds (n : nat) (current_inventory : Q)
    (future_harvest xs : list Q) (t : nat) : Prop :=
  match t with
  | O =>
      sell_var xs 0 + inv_var n xs 0 - current_inventory
      == nth 0 future_harvest 0
  | S t' =>
      sell_var xs t + inv_var n xs t - inv_var n xs t'
      == nth t future_harvest 0
  end.

(** [A_eq x = b_eq], row by row. *)
Definition satisfies_equalities (lp : LinProg) (xs : list Q) : Prop :=
  Forall2 (fun row b => Vec.dot row xs == b) (A_eq lp) (b_eq lp).

(** The consensus strategy with its documented defaults under a
    commodity's cost rates (the two cost parameters are "inherited
    from config"). *)
Definition consensus_with_costs (storage_cost_pct_per_day
    transaction_cost_pct : Q) : ConsensusStrategy.Params :=
  {| ConsensusStrategy.storage_cost_pct_per_day := storage_cost_pct_per_day;
     ConsensusStrategy.transaction_cost_pct := transaction_cost_pct;
     ConsensusStrategy.consensus_threshold := 0.70;
     ConsensusStrategy.very_strong_consensus := 0.85;
     ConsensusStrategy.moderate_consensus := 0.60;
     ConsensusStrategy.min_return := 0.03;
     ConsensusStrategy.min_net_benefit_pct := 0.5;
     ConsensusStrategy.high_confidence_cv := 0.05;
     ConsensusStrategy.evaluation_day := 14;
     ConsensusStrategy.batch_strong_consensus := 0;
     ConsensusStrategy.batch_moderate := 0.15;
     ConsensusStrategy.batch_weak := 0.25;
     ConsensusStrategy.batch_bearish := 0.35;
     ConsensusStrategy.cooldown_days := 7 |}.

(** The sell fraction the consensus analysis selects. *)
Definition consensus_fraction (self : ConsensusStrategy.Params)
    (current_price : Q) (price_history : PriceHistory)
    (predictions : Ensemble) : Q :=
  fst (ConsensusStrategy._analyze_consensus_pct self current_price
         price_history predictions).

(** An ensemble of [paths] identical paths over a 14-day horizon. *)
Definition flat_ensemble (paths : nat) (level : Q) : Ensemble :=
  repeat (repeat level 14) paths.

(** The coefficient of variation the matched-pair strategies read:
    the ensemble's at horizon day 14 (index 13), or at its last day
    when the horizon is shorter. *)
Definition pair_cv (predictions : Ensemble) : Root :=
  Indicators.calculate_prediction_confidence (Some predictions)
    (Nat.min 13 (Ens.n_days predictions - 1)).

(** MEDIUM confidence: the coefficient of variation is not below the
    high cutoff and is below the medium one. *)
Definition medium_confidence (mp : MatchedPair.Params)
    (predictions : Ensemble) : Prop :=
  root_ltb (pair_cv predictions) (MatchedPair.high_confidence_cv mp) = false
  /\ root_ltb (pair_cv predictions) (MatchedPair.medium_confidence_cv mp)
     = true.

(** The blend of a matched-pair [decide] under MEDIUM confidence, for
    a day on which the strategy holds stock, is not forced to liquidate
    and is out of its cooldown: [get_baseline_action] is the paired
    baseline's signal. *)
Definition blends `{LiquidationRule} (decide : DatedDecide)
    (mp : MatchedPair.Params) (cooldown_days : Z)
    (get_baseline_action : Q -> PriceHistory -> BaselineAction) : Prop :=
  forall last_sale_day day inventory current_price price_history predictions,
    0 < inventory ->
    _force_liquidation_check day inventory = None ->
    (cooldown_days <= day - last_sale_day)%Z ->
    (0 < Ens.size predictions)%nat ->
    medium_confidence mp predictions ->
    let baseline := get_baseline_action current_price price_history in
    let forecast :=
      direction (MatchedPair._analyze_prediction_signal mp current_price
                   price_history predictions) in
    let d :=
      fst (decide last_sale_day day inventory current_price price_history
             (Some predictions)) in
    (triggered baseline = true -> is_upward forecast = true ->
     action d = SELL /\ amount d == inventory * batch_size baseline / 2)
    /\ (triggered baseline = false -> is_downward forecast = true ->
        action d = SELL
        /\ amount d = inventory * MatchedPair.batch_pred_cautious mp)
    /\ (triggered baseline = true -> is_upward forecast = false ->
        action d = SELL /\ amount d = inventory * batch_size baseline)
    /\ (triggered baseline = false -> is_downward forecast = false ->
        action d = HOLD /\ amount d = 0).

(** Maximal uncertainty: no ensemble, an empty one, or a coefficient
    of variation of 1.0. *)
Definition maximal_uncertainty (predictions : option Ensemble) : Prop :=
  match predictions with
  | None => True
  | Some p => Ens.size p = 0%nat \/ radicand (pair_cv p) == 1
  end.

(** The confidence cutoffs are fractions. *)
Definition cutoffs_are_fractions (mp : MatchedPair.Params) : Prop :=
  MatchedPair.high_confidence_cv mp <= 1
  /\ MatchedPair.medium_confidence_cv mp <= 1.

(** Two strategies that take the same action for the same amount and
    leave the same state, on every input of maximal uncertainty. *)
Definition agree_when_uncertain (predictive baseline : DatedDecide) : Prop :=
  forall last_sale_day day inventory current_price price_history predictions,
    maximal_uncertainty predictions ->
    let p :=
      predictive last_sale_day day inventory current_price price_history
        predictions in
    let b :=
      baseline last_sale_day day inventory current_price price_history
        predictions in
    action (fst p) = action (fst b)
    /\ amount (fst p) = amount (fst b)
    /\ snd p = snd b.

(** The undocumented indicator analysis of a predictive strategy's
    baseline branch selects the batch size its paired baseline
    selects. *)
Definition same_batch (technicals historical : Q -> PriceHistory -> Q * Reason)
  : Prop :=
  forall current_price price_history,
    fst (technicals current_price price_history)
    = fst (historical current_price price_history).

(** A harvest schedule never takes inventory away. *)
Definition nonneg_schedule (cfg : BacktestEngine.Config) : Prop :=
  forall day, 0 <= BacktestEngine.harvest_schedule cfg day.

(** What one simulated day does to the inventory: the day's harvest
    comes in, and what the day's decision sells (a SELL's amount, forced
    liquidation included; nothing for a HOLD) goes out. *)
Definition inventory_step (cfg : BacktestEngine.Config) (policy : Policy)
    (s s' : BacktestEngine.SimulationState (pstate policy)) : Prop :=
  exists d,
    let harvest := BacktestEngine.harvest_schedule cfg (BacktestEngine.day s) in
    let sold := BacktestEngine.sold_amount d in
    BacktestEngine.inventory s'
    = BacktestEngine.inventory s + harvest - sold
    /\ 0 <= harvest
    /\ 0 <= sold
    /\ sold <= BacktestEngine.inventory s + harvest
    /\ (action d = HOLD -> sold = 0)
    /\ BacktestEngine.day s' = (BacktestEngine.day s + 1)%Z.

(** A policy that never raises and never asks for more than there is. *)
Definition disciplined (policy : Policy) : Prop :=
  forall ps day inventory current_price price_history predictions,
    0 <= inventory ->
    exists d ps',
      pdecide policy ps day inventory current_price price_history predictions
      = Ok (d, ps')
      /\ 0 <= BacktestEngine.sold_amount d
      /\ BacktestEngine.sold_amount d <= inventory.

(** A forced-liquidation rule that sells within the stock. *)
Definition rule_within_stock `{LiquidationRule} : Prop :=
  forall day inventory d,
    0 <= inventory ->
    _force_liquidation_check day inventory = Some d ->
    0 <= BacktestEngine.sold_amount d
    /\ BacktestEngine.sold_amount d <= inventory.

(** The days [first, first + 1, ..., first + count - 1] of a harvest
    window. *)
Definition window_days (first : Z) (count : nat) : list Z :=
  map (fun k => (first + Z.of_nat k)%Z) (seq 0 count).

(** The scenario of the specification: 50 tons of coffee over a
    153-day window that opens on day 1, no costs needed. *)
Definition coffee : BacktestEngine.Config :=
  {| BacktestEngine.harvest_schedule :=
       BacktestEngine._create_harvest_schedule 50 [window_days 1 153];
     BacktestEngine.storage_cost_pct_per_day := 0.00005;
     BacktestEngine.transaction_cost_pct := 0.0001 |}.

(** Scheduled full liquidation with the documented parameters, run
    under the hard deadline. *)
Definition weekly_liquidation : Policy :=
  dated_policy
    (ImmediateSaleStrategy.decide (H := hard_deadline 365)
       ImmediateSaleStrategy.default).

(** [n] days at a constant price and without forecasts. *)
Definition quiet_days (n : nat) : list BacktestEngine.DayInput :=
  repeat {| BacktestEngine.price_today := 200;
            BacktestEngine.forecast := None |} n.

(** The days of a run's log on which something was sold, with the
    amounts. *)
Definition sales_of {S} (r : BacktestEngine.EngineError
                             + BacktestEngine.SimulationState S)
  : list (Z * Q) :=
  match r with
  | inl _ => []
  | inr s =>
      map (fun e => (BacktestEngine.rec_day e,
                     Qred (BacktestEngine.rec_sold e)))
        (filter (fun e => match action (BacktestEngine.rec_decision e) with
                          | SELL => true
                          | HOLD => false
                          end)
           (BacktestEngine.log s))
  end.

(** The solver contract [decide] relies on when it indexes the
    solution: a successful result carries at least one variable. *)
Definition solver_returns_solution (linprog : LinProg -> Py OptimizeResult)
  : Prop :=
  forall lp r, linprog lp = Ok r -> success r = true -> x r <> [].

(** A solver that reports failure on every program. *)
Definition failing_solver : LinProg -> Py OptimizeResult :=
  fun _ => Ok {| success := false; x := []; fun_ := 0 |}.

(** A harvest of 50 tons that comes in on two days. *)
Definition two_day_harvest : BacktestEngine.Config :=
  {| BacktestEngine.harvest_schedule :=
       BacktestEngine._create_harvest_schedule 50 [window_days 1 2];
     BacktestEngine.storage_cost_pct_per_day := 0.00005;
     BacktestEngine.transaction_cost_pct := 0.0001 |}.

(** Fixed-fraction disposal with the documented parameters, run under
    a holding limit of 5 days. *)
Definition monthly_batches : Policy :=
  dated_policy
    (EqualBatchStrategy.decide (H := hard_deadline 5)
       EqualBatchStrategy.default).

(** The number of values of a sample that exceed a level. *)
Definition count_above (v : Q) (l : list Q) : nat :=
  length (filter (Np.ltb v) l).

(** ** Further notions for the statements *)

(** The day-to-day price changes [calculate_rsi] averages: the
    differences of the last [period + 1] prices. *)
Definition rsi_window (prices : list Q) (period : Z) : list Q :=
  Np.diff (Np.last_slice (period + 1) prices).

(** The ensemble with every price multiplied by [k] (a change of unit). *)
Definition rescale (k : Q) (p : Ensemble) : Ensemble := map (map (Qmult k)) p.

(** Every path of the ensemble covers the same horizon, as the rows of a
    numpy matrix do. *)
Definition rectangular (p : Ensemble) : Prop :=
  Forall (fun path => length path = Ens.n_days p) p.

(** A batch size that is a fraction of the inventory. *)
Definition fraction (b : Q) : Prop := 0 <= b /\ b <= 1.

(** The decisions of a strategy ask for an amount between nothing and
    the whole inventory. *)
Definition amounts_within_stock (f : DatedDecide) : Prop :=
  forall state day inventory current_price price_history predictions,
    0 <= inventory ->
    let d :=
      fst (f state day inventory current_price price_history predictions) in
    0 <= amount d /\ amount d <= inventory.

(** The forced-liquidation rule asks for such an amount. *)
Definition rule_amounts_within_stock `{LiquidationRule} : Prop :=
  forall day inventory d,
    0 <= inventory ->
    _force_liquidation_check day inventory = Some d ->
    0 <= amount d /\ amount d <= inventory.

(** The four batch sizes of the price-threshold strategy are fractions. *)
Definition threshold_fractions (p : PriceThresholdStrategy.Params) : Prop :=
  Forall fraction
    [PriceThresholdStrategy.batch_baseline p;
     PriceThresholdStrategy.batch_overbought_strong p;
     PriceThresholdStrategy.batch_overbought p;
     PriceThresholdStrategy.batch_strong_trend p].

(** The four batch sizes of the moving-average strategy are fractions. *)
Definition crossover_fractions (p : MovingAverageStrategy.Params) : Prop :=
  Forall fraction
    [MovingAverageStrategy.batch_baseline p;
     MovingAverageStrategy.batch_strong_momentum p;
     MovingAverageStrategy.batch_overbought_strong p;
     MovingAverageStrategy.batch_overbought p].

(** The six batch sizes of the expected-value strategy are fractions. *)
Definition expected_value_fractions (p : ExpectedValueStrategy.Params)
  : Prop :=
  Forall fraction
    [ExpectedValueStrategy.batch_positive_confident p;
     ExpectedValueStrategy.batch_positive_uncertain p;
     ExpectedValueStrategy.batch_marginal p;
     ExpectedValueStrategy.batch_negative_mild p;
     ExpectedValueStrategy.batch_negative_strong p;
     ExpectedValueStrategy.baseline_batch p].

(** The four batch sizes of the consensus strategy are fractions. *)
Definition consensus_fractions (p : ConsensusStrategy.Params) : Prop :=
  Forall fraction
    [ConsensusStrategy.batch_strong_consensus p;
     ConsensusStrategy.batch_moderate p;
     ConsensusStrategy.batch_weak p;
     ConsensusStrategy.batch_bearish p].

(** The four batch sizes of the risk-adjusted strategy are fractions. *)
Definition risk_adjusted_fractions (p : RiskAdjustedStrategy.Params) : Prop :=
  Forall fraction
    [RiskAdjustedStrategy.batch_low_risk p;
     RiskAdjustedStrategy.batch_medium_risk p;
     RiskAdjustedStrategy.batch_high_risk p;
     RiskAdjustedStrategy.batch_very_high_risk p].

(** The batch sizes a matched pair can select: its own three, the
    paired baseline's, and whatever its two undocumented helpers
    return. *)
Definition pair_fractions (mp : MatchedPair.Params) (batch_baseline : Q)
    (get_baseline_action : Q -> PriceHistory -> BaselineAction)
    (analyze_baseline_technicals : Q -> PriceHistory -> Q * Reason) : Prop :=
  Forall fraction
    [MatchedPair.batch_pred_hold mp;
     MatchedPair.batch_pred_aggressive mp;
     MatchedPair.batch_pred_cautious mp;
     batch_baseline]
  /\ (forall current_price price_history,
        fraction (batch_size (get_baseline_action current_price
                                price_history)))
  /\ (forall current_price price_history,
        fraction (fst (analyze_baseline_technicals current_price
                         price_history))).

(** LOW confidence: the coefficient of variation is below neither
    cutoff. *)
Definition low_confidence (mp : MatchedPair.Params) (predictions : Ensemble)
  : Prop :=
  root_ltb (pair_cv predictions) (MatchedPair.high_confidence_cv mp) = false
  /\ root_ltb (pair_cv predictions) (MatchedPair.medium_confidence_cv mp)
     = false.

(** HIGH confidence: the coefficient of variation is below the high
    cutoff. *)
Definition high_confidence (mp : MatchedPair.Params) (predictions : Ensemble)
  : Prop :=
  root_ltb (pair_cv predictions) (MatchedPair.high_confidence_cv mp) = true.

(** Two decisions with their next states that agree on what is sold and
    on the state. *)
Definition same_outcome (a b : Decision * Z) : Prop :=
  action (fst a) = action (fst b)
  /\ amount (fst a) = amount (fst b)
  /\ snd a = snd b.

(** The batch size the override selects for a forecast direction. *)
Definition override_batch (mp : MatchedPair.Params) (batch_baseline : Q)
    (d : Direction) : Q :=
  match d with
  | STRONG_UPWARD => MatchedPair.batch_pred_hold mp
  | MODERATE_UPWARD => MatchedPair.batch_pred_cautious mp
  | STRONG_DOWNWARD => MatchedPair.batch_pred_aggressive mp
  | MODERATE_DOWNWARD | NEUTRAL => batch_baseline
  end.

(** The expected values the expected-value strategy compares. *)
Definition expected_values (self : ExpectedValueStrategy.Params)
    (current_price : Q) (predictions : Ensemble) : list Q :=
  ev_by_day (ExpectedValueStrategy.storage_cost_pct_per_day self)
    (ExpectedValueStrategy.transaction_cost_pct self)
    current_price predictions.

(** Two strategies configured with the same cost rates. *)
Definition same_costs (self : ExpectedValueStrategy.Params)
    (mp : MatchedPair.Params) : Prop :=
  ExpectedValueStrategy.storage_cost_pct_per_day self
  = MatchedPair.storage_cost_pct_per_day mp
  /\ ExpectedValueStrategy.transaction_cost_pct self
     = MatchedPair.transaction_cost_pct mp.

(** The expected-value strategy with its documented defaults under a
    commodity's cost rates. *)
Definition expected_value_with_costs (storage_cost_pct_per_day
    transaction_cost_pct : Q) : ExpectedValueStrategy.Params :=
  {| ExpectedValueStrategy.storage_cost_pct_per_day := storage_cost_pct_per_day;
     ExpectedValueStrategy.transaction_cost_pct := transaction_cost_pct;
     ExpectedValueStrategy.min_net_benefit_pct := 0.5;
     ExpectedValueStrategy.negative_threshold_pct := -0.3;
     ExpectedValueStrategy.high_confidence_cv := 0.05;
     ExpectedValueStrategy.medium_confidence_cv := 0.10;
     ExpectedValueStrategy.strong_trend_adx := 25;
     ExpectedValueStrategy.batch_positive_confident := 0;
     ExpectedValueStrategy.batch_positive_uncertain := 0.10;
     ExpectedValueStrategy.batch_marginal := 0.15;
     ExpectedValueStrategy.batch_negative_mild := 0.25;
     ExpectedValueStrategy.batch_negative_strong := 0.35;
     ExpectedValueStrategy.cooldown_days := 7;
     ExpectedValueStrategy.baseline_batch := 0.15;
     ExpectedValueStrategy.baseline_frequency := 30 |}.

(** The risk-adjusted strategy with its documented defaults under a
    commodity's cost rates. *)
Definition risk_adjusted_with_costs (storage_cost_pct_per_day
    transaction_cost_pct : Q) : RiskAdjustedStrategy.Params :=
  {| RiskAdjustedStrategy.storage_cost_pct_per_day := storage_cost_pct_per_day;
     RiskAdjustedStrategy.transaction_cost_pct := transaction_cost_pct;
     RiskAdjustedStrategy.min_return := 0.03;
     RiskAdjustedStrategy.min_net_benefit_pct := 0.5;
     RiskAdjustedStrategy.max_uncertainty_low := 0.05;
     RiskAdjustedStrategy.max_uncertainty_medium := 0.10;
     RiskAdjustedStrategy.max_uncertainty_high := 0.20;
     RiskAdjustedStrategy.strong_trend_adx := 25;
     RiskAdjustedStrategy.evaluation_day := 14;
     RiskAdjustedStrategy.batch_low_risk := 0;
     RiskAdjustedStrategy.batch_medium_risk := 0.10;
     RiskAdjustedStrategy.batch_high_risk := 0.25;
     RiskAdjustedStrategy.batch_very_high_risk := 0.35;
     RiskAdjustedStrategy.cooldown_days := 7 |}.

(** The trend strength the two strategies read: the ADX over
    [min(14, len(price_history) - 1)] days. *)
Definition trend_strength (price_history : PriceHistory) : Q :=
  fst (fst (Indicators.calculate_adx price_history
              (Z.min 14 (Np.len (price price_history) - 1)))).

(** The return the median path promises at the evaluation day. *)
Definition expected_return_pct (evaluation_day : nat) (current_price : Q)
    (predictions : Ensemble) : Q :=
  let eval_day := Nat.min evaluation_day (Ens.n_days predictions - 1) in
  (Np.median (Ens.column predictions eval_day) - current_price)
  / current_price.

(** That return less the storage until the evaluation day and the
    transaction cost, in percent. *)
Definition return_after_costs (storage_cost_pct_per_day
    transaction_cost_pct : Q) (evaluation_day : nat) (current_price : Q)
    (predictions : Ensemble) : Q :=
  let eval_day := Nat.min evaluation_day (Ens.n_days predictions - 1) in
  100 * (expected_return_pct evaluation_day current_price predictions
         - storage_cost_pct_per_day / 100 * inject_Z (Z.of_nat eval_day + 1)
         - transaction_cost_pct / 100).

(** [bounds], variable by variable: each value lies between its lower
    bound and, where there is one, its upper bound. *)
Definition within_bounds (lp : LinProg) (xs : list Q) : Prop :=
  Forall2 (fun v b =>
             fst b <= v
             /\ match snd b with
                | Some u => v <= u
                | None => True
                end)
    xs (bounds lp).

(** A point the solver may return: it meets the equality constraints
    and the bounds. *)
Definition feasible (lp : LinProg) (xs : list Q) : Prop :=
  satisfies_equalities lp xs /\ within_bounds lp xs.

(** The plan that sells, on each day of a window of [n] days, all that
    is in stock that day and carries nothing over. *)
Definition sell_on_arrival (current_inventory : Q) (future_harvest : list Q)
    (n : nat) : list Q :=
  map (RollingHorizonMPC.balance_rhs current_inventory future_harvest)
    (seq 0 n)
  ++ Vec.zeros n.

(** What [decide] returned, without the state: the decision, or the
    exception raised. *)
Definition outcome {S} (o : Py (Decision * S)) : Py Decision :=
  match o with
  | Ok (d, _) => Ok d
  | Raise e => Raise e
  end.

(** The inflow a schedule brings over all the days of its windows. *)
Definition total_scheduled (harvest_volume : Q)
    (harvest_windows : list (list Z)) : Q :=
  Np.sum (map (BacktestEngine._create_harvest_schedule harvest_volume
                 harvest_windows)
            (concat harvest_windows)).

(** A solver that returns the plan "sell half today, half tomorrow". *)
Definition halves_solver : LinProg -> Py OptimizeResult :=
  fun _ => Ok {| success := true; x := [25; 25; 25; 0]; fun_ := 0 |}.

(** A crossover strategy over a two-day moving average. *)
Definition two_day_crossover : MovingAverageStrategy.Params :=
  {| MovingAverageStrategy.ma_period := 2;
     MovingAverageStrategy.batch_baseline := 0.25;
     MovingAverageStrategy.batch_strong_momentum := 0.20;
     MovingAverageStrategy.batch_overbought_strong := 0.35;
     MovingAverageStrategy.batch_overbought := 0.30;
     MovingAverageStrategy.rsi_overbought := 70;
     MovingAverageStrategy.rsi_min := 45;
     MovingAverageStrategy.adx_strong := 25;
     MovingAverageStrategy.adx_weak := 20;
     MovingAverageStrategy.cooldown_days := 7;
     MovingAverageStrategy.max_days_without_sale := 60 |}.

(* ================================================================== *)
(** * Properties *)
(* ================================================================== *)

(** ** Comparisons *)

Lemma ltb_lt (x y : Q) : Np.ltb x y = true <-> x < y.
Proof.
  unfold Np.ltb. rewrite negb_true_iff.
  split; intro H.
  - apply Qnot_le_lt. intro L. apply Qle_bool_iff in L. congruence.
  - destruct (Qle_bool y x) eqn:E; [|reflexivity].
    apply Qle_bool_iff in E. exfalso. apply (Qlt_not_le _ _ H E).
Qed.

Lemma ltb_ge (x y : Q) : Np.ltb x y = false <-> y <= x.
Proof.
  unfold Np.ltb. rewrite negb_false_iff. apply Qle_bool_iff.
Qed.

Lemma leb_le (x y : Q) : Np.leb x y = true <-> x <= y.
Proof. apply Qle_bool_iff. Qed.

Lemma leb_gt (x y : Q) : Np.leb x y = false <-> y < x.
Proof.
  unfold Np.leb. split; intro H.
  - apply Qnot_le_lt. intro L. apply Qle_bool_iff in L. congruence.
  - destruct (Qle_bool x y) eqn:E; [|reflexivity].
    apply Qle_bool_iff in E. exfalso. apply (Qlt_not_le _ _ H E).
Qed.

Lemma py_min_le_r (a b : Q) : Np.py_min a b <= b.
Proof.
  unfold Np.py_min. destruct (Np.ltb b a) eqn:E.
  - apply Qle_refl.
  - apply ltb_ge in E. exact E.
Qed.

Lemma py_min_le_l (a b : Q) : Np.py_min a b <= a.
Proof.
  unfold Np.py_min. destruct (Np.ltb b a) eqn:E.
  - apply ltb_lt in E. apply Qlt_le_weak. exact E.
  - apply Qle_refl.
Qed.

(** ** The deadline of the two liquidation rules *)

Lemma hard_deadline_sells_all (max_holding_days : Z) :
  @sells_all_from (hard_deadline max_holding_days) max_holding_days.
Proof.
  intros day inventory Hd. simpl.
  apply Z.leb_le in Hd. rewrite Hd. reflexivity.
Qed.

Lemma two_tier_sells_all (harvest_start : Z) :
  @sells_all_from (two_tier harvest_start) (harvest_start + 365).
Proof.
  intros day inventory Hd. simpl.
  assert (E : (365 <=? day - harvest_start)%Z = true)
    by (apply Z.leb_le; lia).
  rewrite E. reflexivity.
Qed.

(** ** Empty inventory *)

Section EmptyInventory.

Context `{LiquidationRule}.
Variables (day : Z) (inventory current_price : Q).
Variables (price_history : PriceHistory) (predictions : option Ensemble).
Hypothesis empty : inventory <= 0.

Local Abbreviation nothing := (hold (plain "no_inventory")).

Lemma leb_empty : Np.leb inventory 0 = true.
Proof. apply leb_le. exact empty. Qed.

Lemma baseline_hold_when_empty :
  (forall p s, ImmediateSaleStrategy.decide p s day inventory current_price
                 price_history predictions = (nothing, s))
  /\ (forall p s, EqualBatchStrategy.decide p s day inventory current_price
                 price_history predictions = (nothing, s))
  /\ (forall p s, PriceThresholdStrategy.decide p s day inventory
                 current_price price_history predictions = (nothing, s))
  /\ (forall p s, MovingAverageStrategy.decide p s day inventory
                 current_price price_history predictions = (nothing, s)).
Proof.
  repeat split; intros p s;
    [ unfold ImmediateSaleStrategy.decide
    | unfold EqualBatchStrategy.decide
    | unfold PriceThresholdStrategy.decide
    | unfold MovingAverageStrategy.decide ];
    rewrite leb_empty; reflexivity.
Qed.

Lemma predictive_hold_when_empty :
  (forall p g a s, PriceThresholdPredictive.decide p g a s day inventory
                 current_price price_history predictions = (nothing, s))
  /\ (forall p g a s, MovingAveragePredictive.decide p g a s day inventory
                 current_price price_history predictions = (nothing, s))
  /\ (forall p s, ExpectedValueStrategy.decide p s day inventory
                 current_price price_history predictions = (nothing, s))
  /\ (forall p s, ConsensusStrategy.decide p s day inventory
                 current_price price_history predictions = (nothing, s))
  /\ (forall p s, RiskAdjustedStrategy.decide p s day inventory
                 current_price price_history predictions = (nothing, s)).
Proof.
  repeat split; intros;
    [ unfold PriceThresholdPredictive.decide, MatchedPair.decide
    | unfold MovingAveragePredictive.decide, MatchedPair.decide
    | unfold ExpectedValueStrategy.decide
    | unfold ConsensusStrategy.decide
    | unfold RiskAdjustedStrategy.decide ];
    rewrite leb_empty; reflexivity.
Qed.

Lemma mpc_hold_when_empty :
  forall linprog p s forecast,
    RollingHorizonMPC.decide linprog p s day inventory current_price
      price_history forecast = Ok (nothing, s).
Proof.
  intros. unfold RollingHorizonMPC.decide.
  rewrite leb_empty. reflexivity.
Qed.

End EmptyInventory.

(** C9. Every concrete strategy answers an inventory that is zero or
    negative with HOLD, amount 0 and the reason [no_inventory], and
    leaves its state as it was: the four rule-based strategies, the
    five forecast-aware ones and the optimiser, for every day, price,
    price history and forecast, under either forced-liquidation rule.
    Hence no strategy issues a SELL from an empty inventory. *)
Theorem no_sale_without_inventory :
  forall (rule : LiquidationRule) (day : Z) (inventory current_price : Q)
         (price_history : PriceHistory) (predictions : option Ensemble),
    inventory <= 0 ->
    let nothing := hold (plain "no_inventory") in
    (forall p s, ImmediateSaleStrategy.decide p s day inventory current_price
                   price_history predictions = (nothing, s))
    /\ (forall p s, EqualBatchStrategy.decide p s day inventory current_price
                   price_history predictions = (nothing, s))
    /\ (forall p s, PriceThresholdStrategy.decide p s day inventory
                   current_price price_history predictions = (nothing, s))
    /\ (forall p s, MovingAverageStrategy.decide p s day inventory
                   current_price price_history predictions = (nothing, s))
    /\ (forall p g a s, PriceThresholdPredictive.decide p g a s day inventory
                   current_price price_history predictions = (nothing, s))
    /\ (forall p g a s, MovingAveragePredictive.decide p g a s day inventory
                   current_price price_history predictions = (nothing, s))
    /\ (forall p s, ExpectedValueStrategy.decide p s day inventory
                   current_price price_history predictions = (nothing, s))
    /\ (forall p s, ConsensusStrategy.decide p s day inventory
                   current_price price_history predictions = (nothing, s))
    /\ (forall p s, RiskAdjustedStrategy.decide p s day inventory
                   current_price price_history predictions = (nothing, s))
    /\ (forall linprog p s forecast,
          RollingHorizonMPC.decide linprog p s day inventory current_price
            price_history forecast = Ok (nothing, s))
    /\ action nothing = HOLD /\ amount nothing = 0.
Proof.
  intros rule day inventory current_price price_history predictions empty
         nothing.
  pose proof (baseline_hold_when_empty day inventory current_price
                price_history predictions empty) as (B1 & B2 & B3 & B4).
  pose proof (predictive_hold_when_empty day inventory current_price
                price_history predictions empty) as (P1 & P2 & P3 & P4 & P5).
  pose proof (mpc_hold_when_empty day inventory current_price
                price_history empty) as M.
  repeat split; assumption.
Qed.

Lemma no_sale_without_inventory_witness :
  ImmediateSaleStrategy.decide (H := hard_deadline 365)
    ImmediateSaleStrategy.default 9 400 0 100 (mkHistory [] None) None
  = (hold (plain "no_inventory"), 9%Z).
Proof.
  refine (proj1 (no_sale_without_inventory (hard_deadline 365) 400 0 100
                   (mkHistory [] None) None _) _ _).
  unfold Qle. simpl. lia.
Defined.

(** ** Forced liquidation *)

Section Deadline.

Context `{LiquidationRule}.
Variable deadline : Z.
Hypothesis rule_deadline : sells_all_from deadline.
Variables (day : Z) (inventory current_price : Q).
Variables (price_history : PriceHistory) (predictions : option Ensemble).
Hypothesis late : (deadline <= day)%Z.
Hypothesis stock : 0 < inventory.

Local Abbreviation liquidate :=
  (sell inventory (plain "force_liquidation_max_days")).

Lemma leb_stock : Np.leb inventory 0 = false.
Proof. apply leb_gt. exact stock. Qed.

(** Nine of the ten strategies run the check before their own logic and
    sell the whole inventory from the deadline on. *)
Lemma nine_strategies_liquidate :
  (forall p s, ImmediateSaleStrategy.decide p s day inventory current_price
                 price_history predictions = (liquidate, s))
  /\ (forall p s, EqualBatchStrategy.decide p s day inventory current_price
                 price_history predictions = (liquidate, s))
  /\ (forall p s, PriceThresholdStrategy.decide p s day inventory
                 current_price price_history predictions = (liquidate, s))
  /\ (forall p s, MovingAverageStrategy.decide p s day inventory
                 current_price price_history predictions = (liquidate, s))
  /\ (forall p g a s, PriceThresholdPredictive.decide p g a s day inventory
                 current_price price_history predictions = (liquidate, s))
  /\ (forall p g a s, MovingAveragePredictive.decide p g a s day inventory
                 current_price price_history predictions = (liquidate, s))
  /\ (forall p s, ExpectedValueStrategy.decide p s day inventory
                 current_price price_history predictions = (liquidate, s))
  /\ (forall p s, ConsensusStrategy.decide p s day inventory
                 current_price price_history predictions = (liquidate, s))
  /\ (forall p s, RiskAdjustedStrategy.decide p s day inventory
                 current_price price_history predictions = (liquidate, s)).
Proof.
  pose proof (rule_deadline day inventory late) as E.
  repeat split; intros;
    [ unfold ImmediateSaleStrategy.decide
    | unfold EqualBatchStrategy.decide
    | unfold PriceThresholdStrategy.decide
    | unfold MovingAverageStrategy.decide
    | unfold PriceThresholdPredictive.decide, MatchedPair.decide
    | unfold MovingAveragePredictive.decide, MatchedPair.decide
    | unfold ExpectedValueStrategy.decide
    | unfold ConsensusStrategy.decide
    | unfold RiskAdjustedStrategy.decide ];
    rewrite leb_stock, E; reflexivity.
Qed.

End Deadline.

(** C2. The forced-liquidation check is not run by every policy.  The
    decision of [RollingHorizonMPC.decide] does not depend on the day
    at all; on day 365 with 10 tons in stock and no forecast it answers
    HOLD ([no_predictions]), where the sibling strategies, on the same
    input, sell the 10 tons with the reason
    [force_liquidation_max_days]. *)
Theorem mpc_skips_forced_liquidation :
  (forall linprog p s day1 day2 inventory current_price price_history
          forecast,
      RollingHorizonMPC.decide linprog p s day1 inventory current_price
        price_history forecast
      = RollingHorizonMPC.decide linprog p s day2 inventory current_price
          price_history forecast)
  /\ (forall linprog,
        RollingHorizonMPC.decide linprog RollingHorizonMPC.default None
          365 10 100 (mkHistory [] None) None
        = Ok (hold (plain "no_predictions"), None))
  /\ ImmediateSaleStrategy.decide (H := hard_deadline 365)
       ImmediateSaleStrategy.default 0 365 10 100 (mkHistory [] None) None
     = (sell 10 (plain "force_liquidation_max_days"), 0%Z)
  /\ PriceThresholdStrategy.decide (H := hard_deadline 365)
       PriceThresholdStrategy.default 0 365 10 100 (mkHistory [] None) None
     = (sell 10 (plain "force_liquidation_max_days"), 0%Z)
  /\ ConsensusStrategy.decide (H := two_tier 0)
       ConsensusStrategy.default 0 365 10 100 (mkHistory [] None) None
     = (sell 10 (plain "force_liquidation_max_days"), 0%Z).
Proof.
  repeat split; reflexivity.
Qed.

(** ** The optimiser *)

Section MPC.

Variable linprog : LinProg -> Py OptimizeResult.
Variable self : RollingHorizonMPC.Params.
Variable state : option Q.
Variables (day : Z) (inventory current_price : Q).
Variable price_history : PriceHistory.
Variable forecast : option Forecast.

Local Abbreviation prices :=
  (RollingHorizonMPC.future_prices_per_ton self forecast).
Local Abbreviation wlen := (RollingHorizonMPC.window_len self forecast).

Lemma window_prices_length :
  (0 < wlen)%Z -> length prices = Z.to_nat wlen.
Proof.
  unfold RollingHorizonMPC.future_prices_per_ton.
  intros Hw. rewrite length_map.
  destruct forecast as [[e|l]|].
  - rewrite length_map, length_seq. reflexivity.
  - rewrite length_firstn. apply Nat.min_l.
    unfold RollingHorizonMPC.window_len, Np.len in *. lia.
  - unfold RollingHorizonMPC.window_len in Hw. lia.
Qed.

(** With a window of at least one day the set-up before the [try]
    block cannot raise, and the solver's outcome is all that matters. *)
Lemma solve_window_spec :
  (0 < wlen)%Z ->
  RollingHorizonMPC._solve_window_lp linprog self state inventory prices
    (Vec.zeros (Z.to_nat wlen))
  = match linprog (day_lp self state inventory forecast) with
    | Raise _ => Ok None
    | Ok r =>
        if success r
        then Ok (Some
                   {| sell_solution := firstn (length prices) (x r);
                      inventory_solution := skipn (length prices) (x r);
                      objective_value := - fun_ r;
                      shadow_price :=
                        nth (length prices - 1) prices 0
                        * RollingHorizonMPC.terminal_value_decay self |})
        else Ok None
    end.
Proof.
  intros Hw. pose proof (window_prices_length Hw) as L.
  unfold RollingHorizonMPC._solve_window_lp, day_lp.
  unfold Vec.zeros at 1. rewrite repeat_length, L.
  replace (Z.to_nat wlen <? Z.to_nat wlen)%nat with false
    by (symmetry; apply Nat.ltb_irrefl).
  replace (Z.to_nat wlen =? 0)%nat with false
    by (symmetry; apply Nat.eqb_neq; lia).
  unfold try_except, bind.
  destruct (linprog _) as [r|e]; [|reflexivity].
  destruct (success r); reflexivity.
Qed.

Lemma decide_reaches_solver :
  0 < inventory -> usable self forecast ->
  RollingHorizonMPC.decide linprog self state day inventory current_price
    price_history forecast
  = bind (RollingHorizonMPC._solve_window_lp linprog self state inventory
            prices (Vec.zeros (Z.to_nat wlen)))
      (fun result =>
         match result with
         | None => Ok (hold (plain "lp_failed"), state)
         | Some result =>
             match sell_solution result with
             | [] => Raise IndexError
             | sell_today :: _ =>
                 let s' :=
                   RollingHorizonMPC.update_shadow_price self state
                     (shadow_price result) in
                 if Np.ltb sell_today 0.1
                 then Ok (hold (plain "mpc_hold"), s')
                 else
                   Ok ({| action := SELL;
                          amount := Np.py_min sell_today inventory;
                          reason := plain "mpc_optimize";
                          info :=
                            [("window_len"%string, Int wlen);
                             ("predicted_net_value"%string,
                              Flt (objective_value result))] |}, s')
             end
         end).
Proof.
  intros stock [Hn Hw].
  unfold RollingHorizonMPC.decide.
  rewrite (proj2 (leb_gt inventory 0) stock), Hn.
  replace (wlen <=? 0)%Z with false by (symmetry; apply Z.leb_gt; exact Hw).
  reflexivity.
Qed.

(** A failed solve is a HOLD. *)
Lemma decide_solver_failed :
  0 < inventory -> usable self forecast ->
  solver_failed (linprog (day_lp self state inventory forecast)) ->
  RollingHorizonMPC.decide linprog self state day inventory current_price
    price_history forecast
  = Ok (hold (plain "lp_failed"), state).
Proof.
  intros stock U F.
  rewrite (decide_reaches_solver stock U).
  rewrite (solve_window_spec (proj2 U)).
  unfold solver_failed in F.
  destruct (linprog _) as [r|e]; [|reflexivity].
  rewrite F. reflexivity.
Qed.

(** A successful solve: only the head of the solution is read. *)
Lemma decide_solver_succeeded (r : OptimizeResult) (sell_today : Q)
    (rest : list Q) :
  0 < inventory -> usable self forecast ->
  linprog (day_lp self state inventory forecast) = Ok r ->
  success r = true ->
  x r = sell_today :: rest ->
  RollingHorizonMPC.decide linprog self state day inventory current_price
    price_history forecast
  = let s' :=
      RollingHorizonMPC.update_shadow_price self state
        (nth (length prices - 1) prices 0
         * RollingHorizonMPC.terminal_value_decay self) in
    if Np.ltb sell_today 0.1
    then Ok (hold (plain "mpc_hold"), s')
    else
      Ok ({| action := SELL;
             amount := Np.py_min sell_today inventory;
             reason := plain "mpc_optimize";
             info :=
               [("window_len"%string, Int wlen);
                ("predicted_net_value"%string, Flt (- fun_ r))] |}, s').
Proof.
  intros stock U E S X.
  rewrite (decide_reaches_solver stock U).
  rewrite (solve_window_spec (proj2 U)), E, S.
  pose proof (window_prices_length (proj2 U)) as L.
  destruct U as [_ Hw].
  unfold bind. cbn [sell_solution shadow_price objective_value].
  rewrite X.
  destruct (length prices) as [|n] eqn:Ln; [lia|].
  cbn [firstn]. reflexivity.
Qed.

(** Whatever [decide] sells, it is not more than the inventory. *)
Lemma decide_never_oversells (d : Decision) (s' : option Q) :
  RollingHorizonMPC.decide linprog self state day inventory current_price
    price_history forecast = Ok (d, s') ->
  action d = SELL -> amount d <= inventory.
Proof.
  unfold RollingHorizonMPC.decide.
  destruct (Np.leb inventory 0); [intros [= <- _]; discriminate|].
  destruct (RollingHorizonMPC.no_predictions forecast);
    [intros [= <- _]; discriminate|].
  destruct (_ <=? 0)%Z; [intros [= <- _] _; apply Qle_refl|].
  destruct (RollingHorizonMPC._solve_window_lp _ _ _ _ _ _) as [[ws|]|e];
    cbn [bind]; try discriminate.
  - destruct (sell_solution ws) as [|sell_today ?]; [discriminate|].
    destruct (Np.ltb sell_today 0.1); intros [= <- _]; [discriminate|].
    intros _. apply py_min_le_r.
  - intros [= <- _]; discriminate.
Qed.

End MPC.

(** C10. The optimiser suppresses tiny trades and never over-sells.
    Whatever [decide] returns, a SELL is for no more than the inventory
    on hand.  When the solve succeeds with a first-day sale of
    [sell_today] tons, the decision is HOLD (amount 0) if
    [sell_today < 0.1], and otherwise a SELL of exactly
    [min(sell_today, inventory)]. *)
Theorem mpc_small_trades_and_cap :
  forall (linprog : LinProg -> Py OptimizeResult)
         (self : RollingHorizonMPC.Params) (state : option Q)
         (day : Z) (inventory current_price : Q)
         (price_history : PriceHistory) (forecast : option Forecast),
    (forall d s',
        RollingHorizonMPC.decide linprog self state day inventory
          current_price price_history forecast = Ok (d, s') ->
        action d = SELL -> amount d <= inventory)
    /\ (forall r sell_today rest,
          0 < inventory -> usable self forecast ->
          linprog (day_lp self state inventory forecast) = Ok r ->
          success r = true ->
          x r = sell_today :: rest ->
          exists d s',
            RollingHorizonMPC.decide linprog self state day inventory
              current_price price_history forecast = Ok (d, s')
            /\ (sell_today < 0.1 -> action d = HOLD /\ amount d = 0)
            /\ (0.1 <= sell_today ->
                action d = SELL
                /\ amount d = Np.py_min sell_today inventory
                /\ amount d <= inventory)).
Proof.
  intros. split.
  - intros d s'. apply decide_never_oversells.
  - intros r sell_today rest stock U E S X.
    rewrite (decide_solver_succeeded linprog self state day inventory
               current_price price_history forecast r sell_today rest
               stock U E S X).
    cbv zeta.
    destruct (Np.ltb sell_today 0.1) eqn:T; eexists; eexists;
      (split; [reflexivity|]); simpl; split; intro C.
    + split; reflexivity.
    + apply ltb_lt in T. exfalso. apply (Qlt_not_le _ _ T C).
    + apply ltb_ge in T. exfalso. apply (Qlt_not_le _ _ C T).
    + repeat split. apply py_min_le_r.
Qed.

(** C7. When the solver raises or returns without success, [decide]
    returns normally with a HOLD whose reason is [lp_failed], and
    leaves the state as it was; and with a solver that fails on every
    program, [decide] returns a decision on every input, it never
    raises. *)
Theorem mpc_holds_when_solver_fails :
  forall (linprog : LinProg -> Py OptimizeResult)
         (self : RollingHorizonMPC.Params) (state : option Q)
         (day : Z) (inventory current_price : Q)
         (price_history : PriceHistory) (forecast : option Forecast),
    (0 < inventory -> usable self forecast ->
     solver_failed (linprog (day_lp self state inventory forecast)) ->
     RollingHorizonMPC.decide linprog self state day inventory current_price
       price_history forecast
     = Ok (hold (plain "lp_failed"), state))
    /\ ((forall lp, solver_failed (linprog lp)) ->
        exists d,
          RollingHorizonMPC.decide linprog self state day inventory
            current_price price_history forecast = Ok (d, state)).
Proof.
  intros. split.
  - apply decide_solver_failed.
  - intros F.
    destruct (Np.leb inventory 0) eqn:E0.
    + eexists. unfold RollingHorizonMPC.decide. rewrite E0. reflexivity.
    + destruct (RollingHorizonMPC.no_predictions forecast) eqn:E1.
      * eexists. unfold RollingHorizonMPC.decide. rewrite E0, E1.
        reflexivity.
      * destruct (RollingHorizonMPC.window_len self forecast <=? 0)%Z eqn:E2.
        -- eexists. unfold RollingHorizonMPC.decide. rewrite E0, E1, E2.
           reflexivity.
        -- eexists. apply decide_solver_failed.
           ++ apply leb_gt. exact E0.
           ++ split; [exact E1|]. apply Z.leb_gt. exact E2.
           ++ apply F.
Qed.

Lemma mpc_small_trades_and_cap_witness :
  exists d s',
    RollingHorizonMPC.decide
      (fun _ => Ok {| success := true; x := [30; 0]; fun_ := 0 |})
      RollingHorizonMPC.default None 5 12 100 (mkHistory [] None)
      (Some (Path [100])) = Ok (d, s')
    /\ action d = SELL /\ amount d = 12.
Proof.
  destruct (proj2 (mpc_small_trades_and_cap
                     (fun _ => Ok {| success := true; x := [30; 0];
                                     fun_ := 0 |})
                     RollingHorizonMPC.default None 5 12 100
                     (mkHistory [] None) (Some (Path [100])))
              {| success := true; x := [30; 0]; fun_ := 0 |} 30 [0])
    as (d & s' & E & _ & S).
  - unfold Qlt. simpl. lia.
  - split; [reflexivity|]. vm_compute. reflexivity.
  - reflexivity.
  - reflexivity.
  - reflexivity.
  - exists d, s'. split; [exact E|].
    destruct S as (A & M & _).
    + unfold Qle. simpl. lia.
    + split; [exact A|]. rewrite M. reflexivity.
Defined.

Lemma mpc_holds_when_solver_fails_witness :
  RollingHorizonMPC.decide (fun _ => Raise SolverError)
    RollingHorizonMPC.default None 5 12 100 (mkHistory [] None)
    (Some (Path [100]))
  = Ok (hold (plain "lp_failed"), None).
Proof.
  apply (proj1 (mpc_holds_when_solver_fails (fun _ => Raise SolverError)
                  RollingHorizonMPC.default None 5 12 100
                  (mkHistory [] None) (Some (Path [100])))).
  - unfold Qlt. simpl. lia.
  - split; [reflexivity|]. vm_compute. reflexivity.
  - exact I.
Defined.

(** ** The linear program of a window *)

Lemma dot_nil_r (r : list Q) : Vec.dot r [] = 0.
Proof. destruct r; reflexivity. Qed.

Lemma dot_zeros (n : nat) (xs : list Q) : Vec.dot (Vec.zeros n) xs == 0.
Proof.
  revert xs. induction n as [|n IH]; intros xs; [reflexivity|].
  destruct xs as [|b xs]; [reflexivity|].
  change (0 * b + Vec.dot (Vec.zeros n) xs == 0).
  rewrite IH. ring.
Qed.

Lemma length_set_nth (i : nat) (v : Q) (r : list Q) :
  length (Vec.set_nth i v r) = length r.
Proof.
  revert i. induction r as [|a r IH]; intros [|i]; simpl; auto.
Qed.

Lemma nth_set_nth_other (i j : nat) (v : Q) (r : list Q) :
  i <> j -> nth i (Vec.set_nth j v r) 0 = nth i r 0.
Proof.
  revert i j. induction r as [|a r IH]; intros i j N.
  - destruct j; reflexivity.
  - destruct j as [|j], i as [|i]; simpl; try reflexivity.
    + contradiction N. reflexivity.
    + apply IH. intro E. apply N. rewrite E. reflexivity.
Qed.

Lemma nth_zeros (i n : nat) : nth i (Vec.zeros n) 0 = 0.
Proof.
  revert i. induction n as [|n IH]; intros [|i]; simpl; auto.
Qed.

(** Overwriting one coefficient of a row changes the product by that
    coefficient's change times the variable it multiplies. *)
Lemma dot_set_nth (r : list Q) :
  forall (i : nat) (v : Q) (xs : list Q),
    (i < length r)%nat ->
    Vec.dot (Vec.set_nth i v r) xs
    == Vec.dot r xs + (v - nth i r 0) * nth i xs 0.
Proof.
  induction r as [|a r IH]; intros i v xs L; [simpl in L; lia|].
  destruct xs as [|b xs].
  - rewrite !dot_nil_r. destruct i; simpl; ring.
  - destruct i as [|i]; simpl.
    + ring.
    + rewrite IH by (simpl in L; lia). ring.
Qed.

(** What a row of [A_eq] computes. *)
Lemma balance_row_dot (n t : nat) (xs : list Q) :
  (t < n)%nat ->
  Vec.dot (RollingHorizonMPC.balance_row n t) xs
  == sell_var xs t + inv_var n xs t
     - match t with O => 0 | S t' => inv_var n xs t' end.
Proof.
  intros L. unfold RollingHorizonMPC.balance_row, sell_var, inv_var.
  assert (Z0 : length (Vec.zeros (2 * n)) = (2 * n)%nat)
    by apply repeat_length.
  destruct t as [|t'].
  - cbn [Nat.ltb Nat.leb].
    rewrite dot_set_nth by (rewrite length_set_nth, Z0; lia).
    rewrite dot_set_nth by (rewrite Z0; lia).
    rewrite dot_zeros.
    rewrite nth_set_nth_other by lia.
    rewrite !nth_zeros. ring.
  - replace (0 <? S t')%nat with true by reflexivity.
    rewrite dot_set_nth by (rewrite !length_set_nth, Z0; lia).
    rewrite dot_set_nth by (rewrite length_set_nth, Z0; lia).
    rewrite dot_set_nth by (rewrite Z0; lia).
    rewrite dot_zeros.
    rewrite !nth_set_nth_other by lia.
    rewrite !nth_zeros.
    replace (n + S t' - 1)%nat with (n + t')%nat by lia.
    ring.
Qed.

Lemma Forall2_map_seq_from {A B} (R : A -> B -> Prop) (f : nat -> A)
    (g : nat -> B) (n : nat) :
  forall k,
    Forall2 R (map f (seq k n)) (map g (seq k n))
    <-> forall t, (k <= t < k + n)%nat -> R (f t) (g t).
Proof.
  induction n as [|n IH]; intros k; simpl.
  - split; [intros _ t Ht; lia | constructor].
  - split.
    + intros F t Ht. inversion F as [|? ? ? ? Hd Tl]; subst.
      destruct (Nat.eq_dec t k) as [->|N]; [exact Hd|].
      apply (proj1 (IH (S k)) Tl). lia.
    + intros F. constructor; [apply F; lia|].
      apply IH. intros t Ht. apply F. lia.
Qed.

Lemma Forall2_map_seq {A B} (R : A -> B -> Prop) (f : nat -> A)
    (g : nat -> B) (n : nat) :
  Forall2 R (map f (seq 0 n)) (map g (seq 0 n))
  <-> forall t, (t < n)%nat -> R (f t) (g t).
Proof.
  rewrite Forall2_map_seq_from.
  split; intros F t Ht; apply F; lia.
Qed.

(** The equality constraints of the window's program are exactly the
    daily inventory balances. *)
Lemma window_lp_equalities (self : RollingHorizonMPC.Params)
    (state : option Q) (current_inventory : Q)
    (future_prices future_harvest xs : list Q) :
  satisfies_equalities
    (RollingHorizonMPC.window_lp self state current_inventory future_prices
       future_harvest) xs
  <-> forall t, (t < length future_prices)%nat ->
        balance_holds (length future_prices) current_inventory
          future_harvest xs t.
Proof.
  unfold satisfies_equalities, RollingHorizonMPC.window_lp.
  cbn [A_eq b_eq].
  rewrite Forall2_map_seq.
  split; intros F t Ht; specialize (F t Ht);
    pose proof (balance_row_dot _ _ xs Ht) as D;
    unfold balance_holds, RollingHorizonMPC.balance_rhs in *;
    destruct t as [|t']; cbn [Nat.ltb Nat.leb] in *; lra.
Qed.

(** Receding horizon: two successful solves that agree on the first
    day's sale lead to the same executed decision and the same state,
    whatever they plan for the later days. *)
Lemma first_day_only (linprog1 linprog2 : LinProg -> Py OptimizeResult)
    (self : RollingHorizonMPC.Params) (state : option Q)
    (day : Z) (inventory current_price : Q)
    (price_history : PriceHistory) (forecast : option Forecast)
    (r1 r2 : OptimizeResult) :
  linprog1 (day_lp self state inventory forecast) = Ok r1 ->
  linprog2 (day_lp self state inventory forecast) = Ok r2 ->
  success r1 = true -> success r2 = true ->
  nth_error (x r1) 0 = nth_error (x r2) 0 ->
  same_execution
    (RollingHorizonMPC.decide linprog1 self state day inventory
       current_price price_history forecast)
    (RollingHorizonMPC.decide linprog2 self state day inventory
       current_price price_history forecast).
Proof.
  intros E1 E2 S1 S2 X.
  destruct (Np.leb inventory 0) eqn:E0;
    [unfold RollingHorizonMPC.decide; rewrite E0; simpl; auto|].
  destruct (RollingHorizonMPC.no_predictions forecast) eqn:En;
    [unfold RollingHorizonMPC.decide; rewrite E0, En; simpl; auto|].
  destruct (RollingHorizonMPC.window_len self forecast <=? 0)%Z eqn:Ew;
    [unfold RollingHorizonMPC.decide; rewrite E0, En, Ew; simpl; auto|].
  assert (stock : 0 < inventory) by (apply leb_gt; exact E0).
  assert (U : usable self forecast)
    by (split; [exact En | apply Z.leb_gt; exact Ew]).
  destruct (x r1) as [|a rest1] eqn:X1; destruct (x r2) as [|b rest2] eqn:X2;
    simpl in X; try discriminate.
  - rewrite !(decide_reaches_solver _ _ _ _ _ _ _ _ stock U).
    rewrite !(solve_window_spec _ _ _ _ _ (proj2 U)), E1, E2, S1, S2.
    simpl. rewrite X1, X2. rewrite !firstn_nil. reflexivity.
  - injection X as <-.
    rewrite (decide_solver_succeeded linprog1 self state day inventory
               current_price price_history forecast r1 a rest1
               stock U E1 S1 X1).
    rewrite (decide_solver_succeeded linprog2 self state day inventory
               current_price price_history forecast r2 a rest2
               stock U E2 S2 X2).
    cbv zeta. destruct (Np.ltb a 0.1); simpl; auto.
Qed.



(** ** Ensemble consensus *)




(** ** The matched pairs *)

Section MatchedPairFacts.

Context `{LiquidationRule}.
Variable mp : MatchedPair.Params.
Variable cooldown_days : Z.
Variable batch_baseline : Q.
Variable get_baseline_action : Q -> PriceHistory -> BaselineAction.
Variable baseline_logic : Z -> Z -> Q -> Q -> PriceHistory -> Decision * Z.

Local Abbreviation pair_decide :=
  (MatchedPair.decide mp cooldown_days batch_baseline get_baseline_action
     baseline_logic).

Lemma signal_cv (current_price : Q) (price_history : PriceHistory)
    (predictions : Ensemble) :
  cv (MatchedPair._analyze_prediction_signal mp current_price price_history
        predictions) = pair_cv predictions.
Proof. reflexivity. Qed.

Lemma signal_confidence (current_price : Q) (price_history : PriceHistory)
    (predictions : Ensemble) :
  confidence (MatchedPair._analyze_prediction_signal mp current_price
                price_history predictions)
  = if root_ltb (pair_cv predictions) (MatchedPair.high_confidence_cv mp)
    then HIGH
    else if root_ltb (pair_cv predictions)
              (MatchedPair.medium_confidence_cv mp)
    then MEDIUM else LOW.
Proof. reflexivity. Qed.

(** Past the three gates, [decide] is the tier selected by the
    confidence. *)
Lemma pair_decide_tiers (last_sale_day day : Z) (inventory current_price : Q)
    (price_history : PriceHistory) (predictions : Ensemble) :
  0 < inventory ->
  _force_liquidation_check day inventory = None ->
  (cooldown_days <= day - last_sale_day)%Z ->
  (0 < Ens.size predictions)%nat ->
  pair_decide last_sale_day day inventory current_price price_history
    (Some predictions)
  = let pred_signal :=
      MatchedPair._analyze_prediction_signal mp current_price price_history
        predictions in
    match confidence pred_signal with
    | HIGH =>
        MatchedPair._execute_prediction_override mp batch_baseline day
          inventory pred_signal price_history
    | MEDIUM =>
        MatchedPair._execute_blended_decision mp get_baseline_action
          last_sale_day day inventory current_price price_history pred_signal
    | LOW =>
        baseline_logic last_sale_day day inventory current_price
          price_history
    end.
Proof.
  intros stock free cooled some.
  unfold MatchedPair.decide.
  rewrite (proj2 (leb_gt inventory 0) stock), free.
  replace (day - last_sale_day <? cooldown_days)%Z with false
    by (symmetry; apply Z.ltb_ge; exact cooled).
  replace (0 <? Ens.size predictions)%nat with true
    by (symmetry; apply Nat.ltb_lt; exact some).
  reflexivity.
Qed.

(** Past the gates and without a usable forecast, [decide] is the
    baseline logic. *)
Lemma pair_decide_no_forecast (last_sale_day day : Z)
    (inventory current_price : Q) (price_history : PriceHistory)
    (predictions : option Ensemble) :
  0 < inventory ->
  _force_liquidation_check day inventory = None ->
  (cooldown_days <= day - last_sale_day)%Z ->
  match predictions with
  | None => True
  | Some p => Ens.size p = 0%nat
  end ->
  pair_decide last_sale_day day inventory current_price price_history
    predictions
  = baseline_logic last_sale_day day inventory current_price price_history.
Proof.
  intros stock free cooled none.
  unfold MatchedPair.decide.
  rewrite (proj2 (leb_gt inventory 0) stock), free.
  replace (day - last_sale_day <? cooldown_days)%Z with false
    by (symmetry; apply Z.ltb_ge; exact cooled).
  destruct predictions as [p|]; [|reflexivity].
  rewrite none. reflexivity.
Qed.

(** The blend, whatever the baseline logic of the pair. *)
Lemma pair_blends : blends pair_decide mp cooldown_days get_baseline_action.
Proof.
  intros last_sale_day day inventory current_price price_history predictions
         stock free cooled some [NotHigh Medium] baseline forecast d.
  unfold d.
  rewrite (pair_decide_tiers _ _ _ _ _ _ stock free cooled some).
  cbv zeta. rewrite signal_confidence, NotHigh, Medium.
  unfold MatchedPair._execute_blended_decision.
  fold baseline. fold forecast.
  destruct (triggered baseline), (is_upward forecast) eqn:Up,
    (is_downward forecast) eqn:Down;
    repeat split; intros; try discriminate; try reflexivity;
    cbn [fst _execute_trade sell amount]; field.
Qed.

End MatchedPairFacts.



(** A coefficient of variation of 1.0 is below no cutoff that is a
    fraction. *)
Lemma root_one_not_below (r : Root) (c : Q) :
  radicand r == 1 -> c <= 1 -> root_ltb r c = false.
Proof.
  intros One Frac. unfold root_ltb.
  destruct (Np.ltb 0 c) eqn:Pos; [|reflexivity].
  apply ltb_lt in Pos. cbn [andb].
  apply ltb_ge. rewrite One. nra.
Qed.

Section Fallback.

Context `{LiquidationRule}.
Variable mp : MatchedPair.Params.
Variable cooldown_days : Z.
Variable batch_baseline : Q.
Variable get_baseline_action : Q -> PriceHistory -> BaselineAction.
Variable baseline_logic : Z -> Z -> Q -> Q -> PriceHistory -> Decision * Z.
Hypothesis fractions : cutoffs_are_fractions mp.

(** Under maximal uncertainty the forecast plays no part: after the
    cooldown gate the strategy runs its baseline logic. *)
Lemma pair_decide_uncertain (last_sale_day day : Z)
    (inventory current_price : Q) (price_history : PriceHistory)
    (predictions : option Ensemble) :
  0 < inventory ->
  _force_liquidation_check day inventory = None ->
  maximal_uncertainty predictions ->
  MatchedPair.decide mp cooldown_days batch_baseline get_baseline_action
    baseline_logic last_sale_day day inventory current_price price_history
    predictions
  = if (day - last_sale_day <? cooldown_days)%Z
    then (hold (mkReason "cooldown_{}d"
                  [Int (cooldown_days - (day - last_sale_day))]),
          last_sale_day)
    else baseline_logic last_sale_day day inventory current_price
           price_history.
Proof.
  intros stock free U.
  destruct (day - last_sale_day <? cooldown_days)%Z eqn:C.
  - unfold MatchedPair.decide.
    rewrite (proj2 (leb_gt inventory 0) stock), free, C. reflexivity.
  - apply Z.ltb_ge in C.
    destruct predictions as [p|];
      [|apply pair_decide_no_forecast; auto].
    destruct (Nat.eq_dec (Ens.size p) 0) as [Z0|NZ];
      [apply pair_decide_no_forecast; auto|].
    destruct U as [Z0|One]; [contradiction|].
    rewrite pair_decide_tiers by (auto; lia).
    cbv zeta. rewrite signal_confidence.
    destruct fractions as [Fh Fm].
    rewrite (root_one_not_below _ _ One Fh), (root_one_not_below _ _ One Fm).
    reflexivity.
Qed.

End Fallback.

Section Agreement.

Context `{LiquidationRule}.
Variable get_baseline_action : Q -> PriceHistory -> BaselineAction.
Variable technicals : Q -> PriceHistory -> Q * Reason.

(** Price Threshold: the predictive variant tests the cooldown before
    the threshold, the baseline after it; with a fallback period not
    shorter than the cooldown the order does not show. *)
Lemma threshold_pair_agrees (p : PriceThresholdPredictive.Params) :
  (PriceThresholdStrategy.cooldown_days (PriceThresholdPredictive.base p)
   <= PriceThresholdStrategy.max_days_without_sale
        (PriceThresholdPredictive.base p))%Z ->
  cutoffs_are_fractions (PriceThresholdPredictive.pred p) ->
  same_batch technicals
    (PriceThresholdStrategy._analyze_historical
       (PriceThresholdPredictive.base p)) ->
  agree_when_uncertain
    (PriceThresholdPredictive.decide p get_baseline_action technicals)
    (PriceThresholdStrategy.decide (PriceThresholdPredictive.base p)).
Proof.
  intros Hc Hf Hs last day inventory current_price price_history predictions
         U pd bd.
  unfold pd, bd. clear pd bd.
  destruct (Np.leb inventory 0) eqn:E0.
  { unfold PriceThresholdPredictive.decide, MatchedPair.decide,
      PriceThresholdStrategy.decide.
    rewrite E0. simpl. auto. }
  destruct (_force_liquidation_check day inventory) as [f|] eqn:Ef.
  { unfold PriceThresholdPredictive.decide, MatchedPair.decide,
      PriceThresholdStrategy.decide.
    rewrite E0, Ef. simpl. auto. }
  unfold PriceThresholdPredictive.decide.
  rewrite pair_decide_uncertain by (auto; apply leb_gt; exact E0).
  unfold PriceThresholdStrategy.decide. rewrite E0, Ef. cbv zeta.
  unfold PriceThresholdPredictive._execute_baseline_logic.
  set (b := PriceThresholdPredictive.base p) in *.
  set (days := (day - last)%Z) in *.
  destruct (days <? PriceThresholdStrategy.cooldown_days b)%Z eqn:C.
  - apply Z.ltb_lt in C.
    destruct (negb (Np.gtb current_price
                      (PriceThresholdStrategy.threshold b current_price
                         price_history))).
    + replace (PriceThresholdStrategy.max_days_without_sale b <=? days)%Z
        with false by (symmetry; apply Z.leb_gt; lia).
      simpl. auto.
    + replace (PriceThresholdStrategy.cooldown_days b <=? days)%Z
        with false by (symmetry; apply Z.leb_gt; lia).
      simpl. auto.
  - apply Z.ltb_ge in C.
    destruct (negb (Np.gtb current_price
                      (PriceThresholdStrategy.threshold b current_price
                         price_history))).
    + destruct (PriceThresholdStrategy.max_days_without_sale b <=? days)%Z;
        simpl; auto.
    + replace (PriceThresholdStrategy.cooldown_days b <=? days)%Z
        with true by (symmetry; apply Z.leb_le; lia).
      specialize (Hs current_price price_history).
      destruct (technicals current_price price_history) as [b1 r1].
      destruct (PriceThresholdStrategy._analyze_historical b current_price
                  price_history) as [b2 r2].
      simpl in *. subst. auto.
Qed.

(** Moving Average: the same, over the crossover logic. *)
Lemma crossover_pair_agrees (p : MovingAveragePredictive.Params) :
  (MovingAverageStrategy.cooldown_days (MovingAveragePredictive.base p)
   <= MovingAverageStrategy.max_days_without_sale
        (MovingAveragePredictive.base p))%Z ->
  cutoffs_are_fractions (MovingAveragePredictive.pred p) ->
  same_batch technicals
    (MovingAverageStrategy._analyze_historical
       (MovingAveragePredictive.base p)) ->
  agree_when_uncertain
    (MovingAveragePredictive.decide p get_baseline_action technicals)
    (MovingAverageStrategy.decide (MovingAveragePredictive.base p)).
Proof.
  intros Hc Hf Hs last day inventory current_price price_history predictions
         U pd bd.
  unfold pd, bd. clear pd bd.
  destruct (Np.leb inventory 0) eqn:E0.
  { unfold MovingAveragePredictive.decide, MatchedPair.decide,
      MovingAverageStrategy.decide.
    rewrite E0. simpl. auto. }
  destruct (_force_liquidation_check day inventory) as [f|] eqn:Ef.
  { unfold MovingAveragePredictive.decide, MatchedPair.decide,
      MovingAverageStrategy.decide.
    rewrite E0, Ef. simpl. auto. }
  unfold MovingAveragePredictive.decide.
  rewrite pair_decide_uncertain by (auto; apply leb_gt; exact E0).
  unfold MovingAverageStrategy.decide. rewrite E0, Ef.
  unfold MovingAveragePredictive._execute_baseline_logic,
    MovingAverageStrategy.crossover_logic.
  set (b := MovingAveragePredictive.base p) in *.
  set (days := (day - last)%Z) in *.
  destruct (days <? MovingAverageStrategy.cooldown_days b)%Z eqn:C.
  - apply Z.ltb_lt in C.
    replace (MovingAverageStrategy.max_days_without_sale b <=? days)%Z
      with false by (symmetry; apply Z.leb_gt; lia).
    replace (MovingAverageStrategy.cooldown_days b <=? days)%Z
      with false by (symmetry; apply Z.leb_gt; lia).
    destruct (Np.len (price price_history)
              <? MovingAverageStrategy.ma_period b + 1)%Z;
      [simpl; auto|].
    destruct (MovingAverageStrategy.crossover b current_price price_history)
      as [[] []]; simpl; auto.
  - apply Z.ltb_ge in C.
    destruct (MovingAverageStrategy.max_days_without_sale b <=? days)%Z;
      [simpl; auto|].
    destruct (Np.len (price price_history)
              <? MovingAverageStrategy.ma_period b + 1)%Z;
      [simpl; auto|].
    replace (MovingAverageStrategy.cooldown_days b <=? days)%Z
      with true by (symmetry; apply Z.leb_le; lia).
    specialize (Hs current_price price_history).
    destruct (MovingAverageStrategy.crossover b current_price price_history)
      as [[] []]; simpl; auto;
      destruct (technicals current_price price_history) as [b1 r1];
      destruct (MovingAverageStrategy._analyze_historical b current_price
                  price_history) as [b2 r2];
      simpl in *; subst; auto.
Qed.

End Agreement.



(** ** Cooldown *)

Ltac zleb a b E :=
  destruct (a <=? b)%Z eqn:E; [apply Z.leb_le in E | apply Z.leb_gt in E].

Ltac zltb a b E :=
  destruct (a <? b)%Z eqn:E; [apply Z.ltb_lt in E | apply Z.ltb_ge in E].

(** Closes the two halves of [cooldown_gated] once [decide] is reduced
    to a HOLD, a forced decision or a trade. *)
Ltac gate_done :=
  cbn [fst snd _execute_trade sell hold action];
  split;
  [ intros N A;
    first [ congruence | discriminate A | split; [lia | reflexivity] ]
  | intros [N | A];
    [ first [ reflexivity | congruence ]
    | first [ reflexivity | discriminate A ] ] ].

Section Gates.

Context `{LiquidationRule}.

Lemma threshold_gated (p : PriceThresholdStrategy.Params) :
  (PriceThresholdStrategy.cooldown_days p
   <= PriceThresholdStrategy.max_days_without_sale p)%Z ->
  cooldown_gated (PriceThresholdStrategy.cooldown_days p)
    (PriceThresholdStrategy.decide p).
Proof.
  intros Hc last day inventory current_price price_history predictions r.
  unfold r, PriceThresholdStrategy.decide. clear r.
  destruct (Np.leb inventory 0); [gate_done|].
  destruct (_force_liquidation_check day inventory) as [f|] eqn:Ef;
    [gate_done|].
  cbv zeta.
  destruct (negb (Np.gtb current_price
                    (PriceThresholdStrategy.threshold p current_price
                       price_history))).
  - zleb (PriceThresholdStrategy.max_days_without_sale p)
         (day - last)%Z E; gate_done.
  - zleb (PriceThresholdStrategy.cooldown_days p) (day - last)%Z E;
      cbn [negb]; [|gate_done].
    destruct (PriceThresholdStrategy._analyze_historical p current_price
                price_history) as [b1 r1].
    gate_done.
Qed.

Lemma crossover_logic_gated (p : MovingAverageStrategy.Params)
    (analyze : Q -> PriceHistory -> Q * Reason) (label : Reason -> Reason)
    (last day : Z) (inventory current_price : Q)
    (price_history : PriceHistory) :
  (MovingAverageStrategy.cooldown_days p
   <= MovingAverageStrategy.max_days_without_sale p)%Z ->
  let r :=
    MovingAverageStrategy.crossover_logic p analyze label last day inventory
      current_price price_history in
  (action (fst r) = SELL ->
   (MovingAverageStrategy.cooldown_days p <= day - last)%Z /\ snd r = day)
  /\ (action (fst r) = HOLD -> snd r = last).
Proof.
  intros Hc r. unfold r, MovingAverageStrategy.crossover_logic. clear r.
  cbv zeta.
  zleb (MovingAverageStrategy.max_days_without_sale p) (day - last)%Z E.
  { simpl. split; [intros _; split; [lia|reflexivity] | discriminate]. }
  destruct (Np.len (price price_history)
            <? MovingAverageStrategy.ma_period p + 1)%Z.
  { simpl. split; [discriminate | reflexivity]. }
  destruct (MovingAverageStrategy.crossover p current_price price_history)
    as [[] []]; try (simpl; split; [discriminate | reflexivity]);
    (zleb (MovingAverageStrategy.cooldown_days p) (day - last)%Z C;
     cbn [negb];
     [ destruct (analyze current_price price_history) as [b1 r1]; simpl;
       split; [intros _; split; [lia|reflexivity] | discriminate]
     | simpl; split; [discriminate | reflexivity] ]).
Qed.

Lemma crossover_gated (p : MovingAverageStrategy.Params) :
  (MovingAverageStrategy.cooldown_days p
   <= MovingAverageStrategy.max_days_without_sale p)%Z ->
  cooldown_gated (MovingAverageStrategy.cooldown_days p)
    (MovingAverageStrategy.decide p).
Proof.
  intros Hc last day inventory current_price price_history predictions r.
  unfold r, MovingAverageStrategy.decide. clear r.
  destruct (Np.leb inventory 0); [gate_done|].
  destruct (_force_liquidation_check day inventory) as [f|] eqn:Ef;
    [gate_done|].
  destruct (crossover_logic_gated p
              (MovingAverageStrategy._analyze_historical p) (fun r => r)
              last day inventory current_price price_history Hc) as [S1 S2].
  split; [intros _ A; apply S1; exact A|].
  intros [N|A]; [congruence | apply S2; exact A].
Qed.

(** A matched pair is gated as soon as its baseline logic either
    trades and records the day, or holds and records nothing. *)
Lemma pair_gated (mp : MatchedPair.Params) (cooldown_days : Z)
    (batch_baseline : Q)
    (get_baseline_action : Q -> PriceHistory -> BaselineAction)
    (baseline_logic : Z -> Z -> Q -> Q -> PriceHistory -> Decision * Z) :
  (forall last day inventory current_price price_history,
      let r := baseline_logic last day inventory current_price price_history in
      (action (fst r) = SELL -> snd r = day)
      /\ (action (fst r) = HOLD -> snd r = last)) ->
  cooldown_gated cooldown_days
    (MatchedPair.decide mp cooldown_days batch_baseline get_baseline_action
       baseline_logic).
Proof.
  intros Hb last day inventory current_price price_history predictions r.
  unfold r, MatchedPair.decide. clear r.
  destruct (Np.leb inventory 0); [gate_done|].
  destruct (_force_liquidation_check day inventory) as [f|] eqn:Ef;
    [gate_done|].
  cbv zeta.
  zltb (day - last)%Z cooldown_days C; [gate_done|].
  destruct (Hb last day inventory current_price price_history) as [B1 B2].
  assert (G : forall r : Decision * Z,
             (action (fst r) = SELL -> snd r = day) ->
             (action (fst r) = HOLD -> snd r = last) ->
             (None = None :> option Decision -> action (fst r) = SELL ->
              (cooldown_days <= day - last)%Z /\ snd r = day)
             /\ (None <> None :> option Decision \/ action (fst r) = HOLD ->
                 snd r = last)).
  { intros r R1 R2. split.
    - intros _ A. split; [lia | apply R1; exact A].
    - intros [N|A]; [congruence | apply R2; exact A]. }
  destruct predictions as [e|]; [|apply G; assumption].
  destruct (0 <? Ens.size e)%nat; [|apply G; assumption].
  destruct (confidence _); [| |apply G; assumption].
  - unfold MatchedPair._execute_prediction_override.
    destruct (direction _); apply G; simpl; auto; discriminate.
  - unfold MatchedPair._execute_blended_decision.
    repeat match goal with
           | |- context [if ?b then _ else _] => destruct b
           end;
      apply G; simpl; auto; discriminate.
Qed.

Lemma threshold_pred_gated (p : PriceThresholdPredictive.Params)
    (g : Q -> PriceHistory -> BaselineAction)
    (a : Q -> PriceHistory -> Q * Reason) :
  cooldown_gated
    (PriceThresholdStrategy.cooldown_days (PriceThresholdPredictive.base p))
    (PriceThresholdPredictive.decide p g a).
Proof.
  apply pair_gated.
  intros last day inventory current_price price_history r.
  unfold r, PriceThresholdPredictive._execute_baseline_logic. clear r.
  cbv zeta.
  destruct (negb _).
  - destruct (_ <=? _)%Z; simpl; split; auto; discriminate.
  - destruct (a current_price price_history) as [b1 r1].
    simpl. split; auto; discriminate.
Qed.

Lemma crossover_pred_gated (p : MovingAveragePredictive.Params)
    (g : Q -> PriceHistory -> BaselineAction)
    (a : Q -> PriceHistory -> Q * Reason) :
  cooldown_gated
    (MovingAverageStrategy.cooldown_days (MovingAveragePredictive.base p))
    (MovingAveragePredictive.decide p g a).
Proof.
  apply pair_gated.
  intros last day inventory current_price price_history r.
  unfold r, MovingAveragePredictive._execute_baseline_logic,
    MovingAverageStrategy.crossover_logic. clear r.
  cbv zeta.
  destruct (_ <=? _)%Z; [simpl; split; auto; discriminate|].
  destruct (_ <? _)%Z; [simpl; split; auto; discriminate|].
  destruct (MovingAverageStrategy.crossover _ _ _) as [[] []];
    try (simpl; split; auto; discriminate);
    (destruct (negb _);
     [ simpl; split; auto; discriminate
     | destruct (a current_price price_history) as [b1 r1];
       simpl; split; auto; discriminate ]).
Qed.

Lemma expected_value_gated (p : ExpectedValueStrategy.Params) :
  cooldown_gated (ExpectedValueStrategy.cooldown_days p)
    (ExpectedValueStrategy.decide p).
Proof.
  intros last day inventory current_price price_history predictions r.
  unfold r, ExpectedValueStrategy.decide. clear r.
  destruct (Np.leb inventory 0); [gate_done|].
  destruct (_force_liquidation_check day inventory) as [f|] eqn:Ef;
    [gate_done|].
  cbv zeta.
  zltb (day - last)%Z (ExpectedValueStrategy.cooldown_days p) C;
    [gate_done|].
  destruct predictions as [e|].
  - destruct (ExpectedValueStrategy._analyze_expected_value_pct p
                current_price price_history e) as [b1 r1].
    gate_done.
  - destruct (_ <=? _)%Z; gate_done.
Qed.

Lemma consensus_gated (p : ConsensusStrategy.Params) :
  cooldown_gated (ConsensusStrategy.cooldown_days p)
    (ConsensusStrategy.decide p).
Proof.
  intros last day inventory current_price price_history predictions r.
  unfold r, ConsensusStrategy.decide. clear r.
  destruct (Np.leb inventory 0); [gate_done|].
  destruct (_force_liquidation_check day inventory) as [f|] eqn:Ef;
    [gate_done|].
  cbv zeta.
  zltb (day - last)%Z (ConsensusStrategy.cooldown_days p) C; [gate_done|].
  destruct predictions as [e|].
  - destruct (ConsensusStrategy._analyze_consensus_pct p current_price
                price_history e) as [b1 r1].
    gate_done.
  - destruct (_ <=? _)%Z; gate_done.
Qed.

Lemma risk_adjusted_gated (p : RiskAdjustedStrategy.Params) :
  cooldown_gated (RiskAdjustedStrategy.cooldown_days p)
    (RiskAdjustedStrategy.decide p).
Proof.
  intros last day inventory current_price price_history predictions r.
  unfold r, RiskAdjustedStrategy.decide. clear r.
  destruct (Np.leb inventory 0); [gate_done|].
  destruct (_force_liquidation_check day inventory) as [f|] eqn:Ef;
    [gate_done|].
  cbv zeta.
  zltb (day - last)%Z (RiskAdjustedStrategy.cooldown_days p) C; [gate_done|].
  destruct predictions as [e|].
  - destruct (RiskAdjustedStrategy._analyze_risk_adjusted_pct p current_price
                price_history e) as [b1 r1].
    gate_done.
  - destruct (_ <=? _)%Z; gate_done.
Qed.

(** Every strategy with a cooldown is gated by it. *)
Lemma every_cooldown_strategy_gated (s : CooldownStrategy) :
  fallback_after_cooldown s ->
  cooldown_gated (cooldown_of s) (decide_of s).
Proof.
  destruct s; simpl; intros Hc.
  - apply threshold_gated. exact Hc.
  - apply crossover_gated. exact Hc.
  - apply threshold_pred_gated.
  - apply crossover_pred_gated.
  - apply expected_value_gated.
  - apply consensus_gated.
  - apply risk_adjusted_gated.
Qed.

End Gates.

Section Runs.

Context `{LiquidationRule}.
Variable c : Z.
Variable f : DatedDecide.
Hypothesis c_nonneg : (0 <= c)%Z.
Hypothesis gated : cooldown_gated c f.

(** The gate holds at every call of a run. *)
Lemma trace_gate (calls : list Call) :
  forall last, Forall (gate_respected c) (trace f last calls).
Proof.
  induction calls as [|k calls IH]; intros last; simpl; [constructor|].
  pose proof (gated last (call_day k) (call_inventory k) (call_price k)
                (call_history k) (call_predictions k)) as G.
  destruct (f last (call_day k) (call_inventory k) (call_price k)
              (call_history k) (call_predictions k)) as [d s].
  simpl in G. destruct G as [G1 _].
  constructor; [|apply IH].
  unfold gate_respected, not_forced. simpl. intros Soon Free.
  destruct (action d) eqn:A; [|reflexivity].
  destruct (G1 Free eq_refl) as [Late _]. lia.
Qed.

(** Every sale of a run that is not forced comes [c] days or more
    after the sale recorded when the run started. *)
Lemma trace_sales_after (calls : list Call) :
  forall last,
    Forall (fun a => non_forced_sell a ->
                     (c <= call_day (asked a) - last)%Z)
      (trace f last calls).
Proof.
  induction calls as [|k calls IH]; intros last; simpl; [constructor|].
  pose proof (gated last (call_day k) (call_inventory k) (call_price k)
                (call_history k) (call_predictions k)) as G.
  destruct (f last (call_day k) (call_inventory k) (call_price k)
              (call_history k) (call_predictions k)) as [d s].
  simpl in G. destruct G as [G1 G2].
  constructor.
  - intros [A Free]. simpl in *. apply G1; assumption.
  - assert (Mono : (last <= s)%Z).
    { destruct (action d) eqn:A.
      - destruct (_force_liquidation_check (call_day k) (call_inventory k))
          as [forced|] eqn:Ef.
        + rewrite G2; [lia|]. left. discriminate.
        + destruct (G1 eq_refl eq_refl) as [Late ->]. lia.
      - rewrite G2; [lia|]. right. reflexivity. }
    eapply Forall_impl; [|apply IH].
    intros a P S. specialize (P S). lia.
Qed.

(** Any two sales of a run that are not forced are [c] days or more
    apart. *)
Lemma trace_spaced (calls : list Call) :
  forall last, ForallOrdPairs (sales_spaced c) (trace f last calls).
Proof.
  induction calls as [|k calls IH]; intros last; simpl; [constructor|].
  pose proof (gated last (call_day k) (call_inventory k) (call_price k)
                (call_history k) (call_predictions k)) as G.
  pose proof (fun s => trace_sales_after calls s) as After.
  destruct (f last (call_day k) (call_inventory k) (call_price k)
              (call_history k) (call_predictions k)) as [d s].
  simpl in G. destruct G as [G1 _].
  constructor; [|apply IH].
  eapply Forall_impl; [|apply (After s)].
  intros a P [A Free] S. simpl in *.
  destruct (G1 Free A) as [_ ->].
  apply P. exact S.
Qed.

End Runs.

(** C8. Cooldown respected.  For each of the seven strategies that are
    configured with [cooldown_days] (7 by default), over any sequence
    of calls with the state threaded through: whenever fewer than
    [cooldown_days] days have passed since the recorded last sale the
    decision is HOLD, unless the forced-liquidation check produced it;
    and any two sales that were not forced, consecutive or not, lie at
    least [cooldown_days] days apart.  The two rule-based strategies
    test their fallback before the cooldown, so their fallback period
    must not be shorter than the cooldown (60 against 7 by default). *)
Theorem cooldown_respected :
  forall (rule : LiquidationRule) (s : CooldownStrategy)
         (last_sale_day : Z) (calls : list Call),
    fallback_after_cooldown s ->
    (0 <= cooldown_of s)%Z ->
    let run := trace (decide_of s) last_sale_day calls in
    Forall (gate_respected (cooldown_of s)) run
    /\ ForallOrdPairs (sales_spaced (cooldown_of s)) run.
Proof.
  intros rule s last_sale_day calls Hf Hc run. unfold run.
  pose proof (every_cooldown_strategy_gated s Hf) as G.
  split.
  - apply trace_gate. exact G.
  - apply trace_spaced; assumption.
Qed.

Lemma cooldown_respected_witness :
  let calls :=
    [mkCall 100 40 100 (mkHistory [] None) None;
     mkCall 103 30 100 (mkHistory [] None) None;
     mkCall 170 30 100 (mkHistory [] None) None] in
  let run :=
    trace (decide_of (H := hard_deadline 365)
             (PriceThreshold PriceThresholdStrategy.default)) 0 calls in
  Forall (gate_respected (H := hard_deadline 365) 7) run
  /\ ForallOrdPairs (sales_spaced (H := hard_deadline 365) 7) run.
Proof.
  refine (cooldown_respected (hard_deadline 365)
            (PriceThreshold PriceThresholdStrategy.default) 0
            [mkCall 100 40 100 (mkHistory [] None) None;
             mkCall 103 30 100 (mkHistory [] None) None;
             mkCall 170 30 100 (mkHistory [] None) None] _ _).
  - simpl. lia.
  - simpl. lia.
Defined.

(** The run of the witness sells on days 100 and 170 and holds, in its
    cooldown, on day 103. *)
Example cooldown_run_actions :
  map (fun a => (call_day (asked a), action (answered a)))
    (trace (decide_of (H := hard_deadline 365)
              (PriceThreshold PriceThresholdStrategy.default)) 0
       [mkCall 100 40 100 (mkHistory [] None) None;
        mkCall 103 30 100 (mkHistory [] None) None;
        mkCall 170 30 100 (mkHistory [] None) None])
  = [(100%Z, SELL); (103%Z, HOLD); (170%Z, SELL)].
Proof. vm_compute. reflexivity. Qed.

(** ** Mass balance of a backtest run *)

Section MassBalance.

Variable cfg : BacktestEngine.Config.
Variable policy : Policy.
Hypothesis harvest_nonneg : nonneg_schedule cfg.

Local Abbreviation State := (BacktestEngine.SimulationState (pstate policy)).

Lemma initial_balanced (start_day : Z) (ps : pstate policy) :
  BacktestEngine.balanced (BacktestEngine.initial start_day ps).
Proof.
  unfold BacktestEngine.balanced, BacktestEngine.initial. simpl.
  split; lra.
Qed.

(** One day keeps the balance, and moves the inventory by the harvest
    and the sale only. *)
Lemma step_balanced (s s' : State) (i : BacktestEngine.DayInput) :
  BacktestEngine.balanced s ->
  BacktestEngine.step cfg policy s i = inr s' ->
  BacktestEngine.balanced s' /\ inventory_step cfg policy s s'.
Proof.
  intros [Bal Pos]. unfold BacktestEngine.step.
  destruct (pdecide policy _ _ _ _ _ _) as [[d ps]|e]; [|discriminate].
  destruct (Np.ltb (BacktestEngine.sold_amount d) 0) eqn:Neg;
    [discriminate|].
  destruct (Np.ltb _ (BacktestEngine.sold_amount d)) eqn:Over;
    [discriminate|].
  cbn [orb]. intros [= <-].
  apply ltb_ge in Neg. apply ltb_ge in Over.
  pose proof (harvest_nonneg (BacktestEngine.day s)) as Hh.
  split.
  - unfold BacktestEngine.balanced. simpl. split; lra.
  - exists d. simpl. repeat split; try assumption.
    intros A. unfold BacktestEngine.sold_amount. rewrite A. reflexivity.
Qed.

(** Every state a run ends in is balanced. *)
Lemma run_balanced (inputs : list BacktestEngine.DayInput) :
  forall s s',
    BacktestEngine.balanced s ->
    BacktestEngine.run cfg policy s inputs = inr s' ->
    BacktestEngine.balanced s'
    /\ BacktestEngine.day s'
       = (BacktestEngine.day s + Z.of_nat (length inputs))%Z.
Proof.
  induction inputs as [|i inputs IH]; intros s s' B.
  - simpl. intros [= <-]. split; [exact B | lia].
  - cbn [BacktestEngine.run].
    destruct (BacktestEngine.step cfg policy s i) as [e|s1] eqn:E;
      [discriminate|].
    intros R.
    destruct (step_balanced s s1 i B E) as [B1 (d & _ & _ & _ & _ & _ & D)].
    destruct (IH s1 s' B1 R) as [B' D'].
    split; [exact B'|]. rewrite D', D. cbn [length]. lia.
Qed.

(** A disciplined policy is never halted. *)
Lemma run_completes (inputs : list BacktestEngine.DayInput) :
  disciplined policy ->
  forall s, BacktestEngine.balanced s ->
    exists s', BacktestEngine.run cfg policy s inputs = inr s'.
Proof.
  intros Disc. induction inputs as [|i inputs IH]; intros s B.
  - exists s. reflexivity.
  - cbn [BacktestEngine.run].
    assert (St : exists s1, BacktestEngine.step cfg policy s i = inr s1).
    { unfold BacktestEngine.step.
      destruct B as [_ Pos].
      pose proof (harvest_nonneg (BacktestEngine.day s)) as Hh.
      destruct (Disc (BacktestEngine.policy_state s) (BacktestEngine.day s)
                  (BacktestEngine.inventory s
                   + BacktestEngine.harvest_schedule cfg
                       (BacktestEngine.day s))
                  (BacktestEngine.price_today i)
                  (mkHistory
                     (price (BacktestEngine.prices_seen s)
                      ++ [BacktestEngine.price_today i])
                     (high_low (BacktestEngine.prices_seen s)))
                  (BacktestEngine.forecast i))
        as (d & ps' & E & Lo & Hi); [lra|].
      rewrite E.
      rewrite (proj2 (ltb_ge _ _) Lo), (proj2 (ltb_ge _ _) Hi).
      cbn [orb]. eexists. reflexivity. }
    destruct St as [s1 E]. rewrite E.
    apply IH. apply (step_balanced s s1 i B E).
Qed.

End MassBalance.

(** C1. Mass balance.  For every configuration with a non-negative
    harvest schedule, every policy and every sequence of daily inputs,
    the state the run has reached after any number [t] of simulated
    days satisfies [cumulative_harvest = cumulative_sales + inventory]
    and [0 <= inventory]; and each simulated day changes the inventory
    by exactly the day's harvest inflow (never negative) minus the
    amount its decision sells (never negative, never more than the
    stock, zero for a HOLD). *)
Theorem mass_balance :
  forall (cfg : BacktestEngine.Config) (policy : Policy) (start_day : Z)
         (ps : pstate policy) (inputs : list BacktestEngine.DayInput),
    nonneg_schedule cfg ->
    (forall t s,
        BacktestEngine.run cfg policy (BacktestEngine.initial start_day ps)
          (firstn t inputs) = inr s ->
        BacktestEngine.balanced s)
    /\ (forall s i s',
          BacktestEngine.balanced s ->
          BacktestEngine.step cfg policy s i = inr s' ->
          BacktestEngine.balanced s' /\ inventory_step cfg policy s s').
Proof.
  intros cfg policy start_day ps inputs Hh. split.
  - intros t s R.
    apply (run_balanced cfg policy Hh (firstn t inputs) _ s
             (initial_balanced policy start_day ps) R).
  - intros s i s'. apply step_balanced. exact Hh.
Qed.

Lemma create_harvest_schedule_nonneg (harvest_volume : Q)
    (harvest_windows : list (list Z)) (day : Z) :
  0 <= harvest_volume ->
  0 <= BacktestEngine._create_harvest_schedule harvest_volume harvest_windows
         day.
Proof.
  intros V. induction harvest_windows as [|w rest IH]; simpl.
  - apply Qle_refl.
  - destruct (existsb (Z.eqb day) (concat rest)); [exact IH|].
    destruct (existsb (Z.eqb day) w); [|apply Qle_refl].
    unfold Qdiv. apply Qmult_le_0_compat; [exact V|].
    apply Qinv_le_0_compat.
    unfold Np.len, Qle. simpl. lia.
Qed.

Lemma coffee_nonneg : nonneg_schedule coffee.
Proof.
  intros day. apply create_harvest_schedule_nonneg.
  unfold Qle. simpl. lia.
Qed.

Lemma mass_balance_witness :
  match BacktestEngine.run coffee weekly_liquidation
          (BacktestEngine.initial 1 7%Z) (quiet_days 20) with
  | inr s => BacktestEngine.balanced s
  | inl _ => False
  end.
Proof.
  destruct (BacktestEngine.run coffee weekly_liquidation
              (BacktestEngine.initial 1 7%Z) (quiet_days 20))
    as [e|s] eqn:R.
  - vm_compute in R. discriminate R.
  - exact (proj1 (mass_balance coffee weekly_liquidation 1 7%Z
                    (quiet_days 20) coffee_nonneg) 20%nat s R).
Defined.

(** The scenario of the specification: the stock first reaches the
    5-ton batch on day 16 (16 x 50 / 153 is about 5.23 tons), and all
    of it is sold that day. *)
Example first_sale_on_day_16 :
  sales_of (BacktestEngine.run coffee weekly_liquidation
              (BacktestEngine.initial 1 7%Z) (quiet_days 20))
  = [(16%Z, 16 * 50 / 153)].
Proof. vm_compute. reflexivity. Qed.

(** ** Runs that are never halted *)

Ltac sold_simpl :=
  unfold BacktestEngine.sold_amount;
  cbn [action amount hold sell fst snd _execute_trade].

Lemma hard_deadline_within_stock (max_holding_days : Z) :
  @rule_within_stock (hard_deadline max_holding_days).
Proof.
  intros day inventory d Pos. simpl.
  destruct (max_holding_days <=? day)%Z; [|discriminate].
  intros [= <-]. sold_simpl. split; [exact Pos | apply Qle_refl].
Qed.

Lemma two_tier_within_stock (harvest_start : Z) :
  @rule_within_stock (two_tier harvest_start).
Proof.
  intros day inventory d Pos. simpl.
  destruct (365 <=? day - harvest_start)%Z.
  - intros [= <-]. sold_simpl. split; [exact Pos | apply Qle_refl].
  - destruct (345 <=? day - harvest_start)%Z; [|discriminate].
    intros [= <-]. sold_simpl. split; lra.
Qed.

(** A trade of a fraction of the stock stays within the stock. *)
Lemma trade_within_stock (day : Z) (inventory batch : Q) (r : Reason) :
  0 <= inventory -> 0 <= batch -> batch <= 1 ->
  0 <= BacktestEngine.sold_amount (fst (_execute_trade day inventory batch r))
  /\ BacktestEngine.sold_amount (fst (_execute_trade day inventory batch r))
     <= inventory.
Proof.
  intros Pos B0 B1. sold_simpl. split; nra.
Qed.

Section Discipline.

Context `{LiquidationRule}.
Hypothesis rule_ok : rule_within_stock.

Lemma immediate_sale_disciplined (p : ImmediateSaleStrategy.Params) :
  disciplined (dated_policy (ImmediateSaleStrategy.decide p)).
Proof.
  intros ps day inventory current_price price_history predictions Pos.
  simpl. unfold ImmediateSaleStrategy.decide.
  destruct (Np.leb inventory 0);
    [eexists; eexists; split; [reflexivity|]; sold_simpl; split; lra|].
  destruct (_force_liquidation_check day inventory) as [f|] eqn:Ef.
  { eexists; eexists; split; [reflexivity|].
    apply (rule_ok day inventory f Pos Ef). }
  cbv zeta.
  destruct (_ && _);
    [eexists; eexists; split; [reflexivity|];
     sold_simpl; split; lra|].
  destruct (negb _); eexists; eexists; (split; [reflexivity|]);
    sold_simpl; split; lra.
Qed.

Lemma equal_batch_disciplined (p : EqualBatchStrategy.Params) :
  0 <= EqualBatchStrategy.batch_size p ->
  EqualBatchStrategy.batch_size p <= 1 ->
  disciplined (dated_policy (EqualBatchStrategy.decide p)).
Proof.
  intros B0 B1 ps day inventory current_price price_history predictions Pos.
  simpl. unfold EqualBatchStrategy.decide.
  destruct (Np.leb inventory 0);
    [eexists; eexists; split; [reflexivity|]; sold_simpl; split; lra|].
  destruct (_force_liquidation_check day inventory) as [f|] eqn:Ef.
  { eexists; eexists; split; [reflexivity|].
    apply (rule_ok day inventory f Pos Ef). }
  cbv zeta.
  destruct (_ <=? _)%Z; eexists; eexists; (split; [reflexivity|]);
    sold_simpl; split; nra.
Qed.

End Discipline.

(** The optimiser, with a solver that honours its contract, is never
    halted either: it does not raise and sells within the stock. *)
Lemma mpc_disciplined (linprog : LinProg -> Py OptimizeResult)
    (self : RollingHorizonMPC.Params) :
  solver_returns_solution linprog ->
  disciplined (mpc_policy linprog self).
Proof.
  intros Contract ps day inventory current_price price_history predictions
         Pos.
  simpl.
  set (forecast := option_map Paths predictions).
  destruct (Np.leb inventory 0) eqn:E0.
  { unfold RollingHorizonMPC.decide. rewrite E0.
    eexists; eexists; split; [reflexivity|]. sold_simpl. split; lra. }
  destruct (RollingHorizonMPC.no_predictions forecast) eqn:E1.
  { unfold RollingHorizonMPC.decide. rewrite E0, E1.
    eexists; eexists; split; [reflexivity|]. sold_simpl. split; lra. }
  destruct (RollingHorizonMPC.window_len self forecast <=? 0)%Z eqn:E2.
  { unfold RollingHorizonMPC.decide. rewrite E0, E1, E2.
    eexists; eexists; split; [reflexivity|].
    sold_simpl. split; lra. }
  assert (stock : 0 < inventory) by (apply leb_gt; exact E0).
  assert (U : usable self forecast)
    by (split; [exact E1 | apply Z.leb_gt; exact E2]).
  destruct (linprog (day_lp self ps inventory forecast)) as [r|e] eqn:E.
  - destruct (success r) eqn:S.
    + destruct (x r) as [|sell_today rest] eqn:X;
        [exfalso; apply (Contract _ r E S X)|].
      rewrite (decide_solver_succeeded linprog self ps day inventory
                 current_price price_history forecast r sell_today rest
                 stock U E S X).
      cbv zeta. destruct (Np.ltb sell_today 0.1) eqn:T.
      * eexists; eexists; split; [reflexivity|]. sold_simpl. split; lra.
      * apply ltb_ge in T.
        eexists; eexists; split; [reflexivity|].
        sold_simpl.
        split; [|apply py_min_le_r].
        unfold Np.py_min. destruct (Np.ltb inventory sell_today); lra.
    + rewrite (decide_solver_failed linprog self ps day inventory
                 current_price price_history forecast stock U)
        by (rewrite E; exact S).
      eexists; eexists; split; [reflexivity|]. sold_simpl. split; lra.
  - rewrite (decide_solver_failed linprog self ps day inventory
               current_price price_history forecast stock U)
      by (rewrite E; exact I).
    eexists; eexists; split; [reflexivity|]. sold_simpl. split; lra.
Qed.

(** A harvest followed by the optimiser with no forecast in sight,
    under a holding limit of 5 days: on day 10 the whole harvest is
    still in stock.  The monthly batches, which run the deadline check,
    hold the stock through day 4 and have none left after day 5. *)
Example mpc_run_keeps_stock_past_deadline :
  match BacktestEngine.run two_day_harvest
          (mpc_policy failing_solver RollingHorizonMPC.default)
          (BacktestEngine.initial 1 None) (quiet_days 10) with
  | inr s => BacktestEngine.day s = 11%Z
             /\ BacktestEngine.inventory s == 50
  | inl _ => False
  end
  /\ match BacktestEngine.run two_day_harvest monthly_batches
             (BacktestEngine.initial 1 0%Z) (quiet_days 4) with
     | inr s => BacktestEngine.day s = 5%Z
                /\ BacktestEngine.inventory s == 50
     | inl _ => False
     end
  /\ match BacktestEngine.run two_day_harvest monthly_batches
             (BacktestEngine.initial 1 0%Z) (quiet_days 5) with
     | inr s => BacktestEngine.day s = 6%Z
                /\ BacktestEngine.inventory s == 0
     | inl _ => False
     end.
Proof. split; [|split]; vm_compute; split; reflexivity. Qed.

(** ** The median of a bullish ensemble *)

Lemma insert_length (a : Q) (l : list Q) :
  length (Np.insert a l) = S (length l).
Proof.
  induction l as [|b l IH]; simpl; [reflexivity|].
  destruct (Np.leb a b); simpl; [reflexivity | rewrite IH; reflexivity].
Qed.

Lemma sort_length (l : list Q) : length (Np.sort l) = length l.
Proof.
  induction l as [|a l IH]; simpl; [reflexivity|].
  unfold Np.sort in *. rewrite insert_length, IH. reflexivity.
Qed.

Lemma insert_count (v a : Q) (l : list Q) :
  count_above v (Np.insert a l) = count_above v (a :: l).
Proof.
  unfold count_above. induction l as [|b l IH]; simpl; [reflexivity|].
  destruct (Np.leb a b); simpl; [reflexivity|].
  simpl in IH.
  destruct (Np.ltb v b), (Np.ltb v a); simpl in *; rewrite IH; reflexivity.
Qed.

(** Sorting does not change how many values exceed a level. *)
Lemma sort_count (v : Q) (l : list Q) :
  count_above v (Np.sort l) = count_above v l.
Proof.
  induction l as [|a l IH]; [reflexivity|].
  change (Np.sort (a :: l)) with (Np.insert a (Np.sort l)).
  rewrite insert_count. unfold count_above in *. simpl.
  destruct (Np.ltb v a); simpl; rewrite IH; reflexivity.
Qed.

Lemma insert_Forall (P : Q -> Prop) (a : Q) (l : list Q) :
  P a -> Forall P l -> Forall P (Np.insert a l).
Proof.
  intros Pa. induction 1 as [|b l Pb Pl IH]; simpl.
  - constructor; [exact Pa | constructor].
  - destruct (Np.leb a b); repeat constructor; assumption.
Qed.

Lemma insert_sorted (a : Q) (l : list Q) :
  StronglySorted Qle l -> StronglySorted Qle (Np.insert a l).
Proof.
  induction 1 as [|b l Sl IH Fb]; simpl.
  - repeat constructor.
  - destruct (Np.leb a b) eqn:E.
    + apply leb_le in E. constructor.
      * constructor; assumption.
      * constructor; [exact E|].
        eapply Forall_impl; [|exact Fb].
        intros y By. apply (Qle_trans _ b); assumption.
    + apply leb_gt in E. constructor; [exact IH|].
      apply insert_Forall; [apply Qlt_le_weak; exact E | exact Fb].
Qed.

Lemma sort_sorted (l : list Q) : StronglySorted Qle (Np.sort l).
Proof.
  induction l as [|a l IH]; [constructor|].
  change (Np.sort (a :: l)) with (Np.insert a (Np.sort l)).
  apply insert_sorted. exact IH.
Qed.

Lemma filter_length_le {A} (f : A -> bool) (l : list A) :
  (length (filter f l) <= length l)%nat.
Proof.
  induction l as [|a l IH]; simpl; [lia|].
  destruct (f a); simpl; lia.
Qed.

(** In a sorted sample, a value that does not exceed the level has all
    the values before it, and itself, outside the count. *)
Lemma sorted_count_bound (v : Q) (s : list Q) :
  StronglySorted Qle s ->
  forall i, (i < length s)%nat -> nth i s 0 <= v ->
    (count_above v s + i + 1 <= length s)%nat.
Proof.
  unfold count_above.
  induction 1 as [|a s Ss IH Fa]; intros i L Low; [simpl in L; lia|].
  assert (Ha : Np.ltb v a = false).
  { apply ltb_ge. destruct i as [|i]; [exact Low|].
    simpl in Low, L.
    apply (Qle_trans _ (nth i s 0)); [|exact Low].
    apply (proj1 (Forall_forall _ _) Fa). apply nth_In. lia. }
  simpl. rewrite Ha.
  destruct i as [|i].
  - pose proof (filter_length_le (Np.ltb v) s). lia.
  - simpl in Low, L. specialize (IH i ltac:(lia) Low). lia.
Qed.

(** The values of a sorted sample from position [length - count] on
    exceed the level. *)
Lemma sorted_top_above (v : Q) (s : list Q) (i : nat) :
  StronglySorted Qle s ->
  (i < length s)%nat ->
  (length s <= count_above v s + i)%nat ->
  v < nth i s 0.
Proof.
  intros Ss L K.
  apply Qnot_le_lt. intros Low.
  pose proof (sorted_count_bound v s Ss i L Low). lia.
Qed.

Lemma median_nonempty (l : list Q) :
  l <> [] ->
  Np.median l
  = if Nat.even (length (Np.sort l))
    then (nth (length (Np.sort l) / 2 - 1) (Np.sort l) 0
          + nth (length (Np.sort l) / 2) (Np.sort l) 0) / 2
    else nth (length (Np.sort l) / 2) (Np.sort l) 0.
Proof.
  intros NE. unfold Np.median.
  destruct (length (Np.sort l)) eqn:Len; [|reflexivity].
  rewrite sort_length in Len.
  destruct l; [contradiction NE; reflexivity | discriminate Len].
Qed.

(** When at least 70 % of a sample exceeds a level, so does its
    median. *)
Lemma median_of_majority (v : Q) (l : list Q) :
  l <> [] ->
  (7 * length l <= 10 * count_above v l)%nat ->
  v < Np.median l.
Proof.
  intros NE Maj. rewrite (median_nonempty l NE).
  pose proof (sort_length l) as SL.
  pose proof (sort_count v l) as SC.
  pose proof (sort_sorted l) as SS.
  set (s := Np.sort l) in *.
  assert (Pos : (0 < length s)%nat).
  { rewrite SL. destruct l; [contradiction NE; reflexivity | simpl; lia]. }
  destruct (Nat.even (length s)) eqn:Ev.
  - apply Nat.even_spec in Ev. destruct Ev as [m Em].
    assert (Half : (length s / 2 = m)%nat)
      by (rewrite Em, Nat.mul_comm; apply Nat.div_mul; lia).
    assert (A : v < nth (length s / 2 - 1) s 0)
      by (apply sorted_top_above; [exact SS | |]; lia).
    assert (B : v < nth (length s / 2) s 0)
      by (apply sorted_top_above; [exact SS | |]; lia).
    setoid_replace ((nth (length s / 2 - 1) s 0 + nth (length s / 2) s 0) / 2)
      with ((nth (length s / 2 - 1) s 0 + nth (length s / 2) s 0) * (1 # 2))
      by field.
    lra.
  - assert (Od : Nat.odd (length s) = true)
      by (rewrite <- Nat.negb_even, Ev; reflexivity).
    apply Nat.odd_spec in Od. destruct Od as [m Em].
    assert (Half : (length s / 2 = m)%nat)
      by (rewrite Em; symmetry; apply (Nat.div_unique _ 2 m 1); lia).
    apply sorted_top_above; [exact SS | |]; lia.
Qed.

(** A path is counted as bullish exactly when its price exceeds the
    current one by more than the return threshold. *)
Lemma bullish_iff_above (current_price min_return p : Q) :
  0 < current_price ->
  Np.gtb ((p - current_price) / current_price) min_return
  = Np.ltb ((1 + min_return) * current_price) p.
Proof.
  intros Pos. unfold Np.gtb.
  assert (E : (p - current_price) / current_price * current_price
              == p - current_price) by (field; lra).
  destruct (Np.ltb ((1 + min_return) * current_price) p) eqn:R.
  - apply ltb_lt in R. apply ltb_lt.
    apply Qlt_shift_div_l; [exact Pos | lra].
  - apply ltb_ge in R. apply ltb_ge.
    apply Qle_shift_div_r; [exact Pos | lra].
Qed.

Lemma column_length (p : Ensemble) (h : nat) :
  length (Ens.column p h) = length p.
Proof. apply length_map. Qed.

(** The bullish fraction as a count. *)
Lemma bullish_pct_count (self : ConsensusStrategy.Params)
    (current_price : Q) (predictions : Ensemble) :
  0 < current_price ->
  ConsensusStrategy.bullish_pct self current_price predictions
  = inject_Z
      (Z.of_nat
         (count_above ((1 + ConsensusStrategy.min_return self) * current_price)
            (Ens.column predictions
               (ConsensusStrategy.eval_day self predictions))))
    / inject_Z (Z.of_nat (length predictions)).
Proof.
  intros Pos. unfold ConsensusStrategy.bullish_pct, count_above, Np.len.
  rewrite column_length.
  rewrite (filter_ext _ _ (fun p => bullish_iff_above current_price
                                      (ConsensusStrategy.min_return self) p
                                      Pos)).
  reflexivity.
Qed.

(** A fraction of counts that is at least 70 %. *)
Lemma fraction_at_least_70 (k n : nat) :
  (0 < n)%nat ->
  0.70 <= inject_Z (Z.of_nat k) / inject_Z (Z.of_nat n) ->
  (7 * n <= 10 * k)%nat.
Proof.
  intros Pos F.
  assert (Pn : 0 < inject_Z (Z.of_nat n))
    by (unfold Qlt; simpl; lia).
  assert (M : 0.70 * inject_Z (Z.of_nat n) <= inject_Z (Z.of_nat k)).
  { set (qk := inject_Z (Z.of_nat k)) in *.
    set (qn := inject_Z (Z.of_nat n)) in *.
    assert (E : qk / qn * qn == qk).
    { field. intros Z0. rewrite Z0 in Pn. apply (Qlt_irrefl 0 Pn). }
    rewrite <- E.
    apply Qmult_le_compat_r; [exact F | apply Qlt_le_weak; exact Pn]. }
  unfold Qle, Qmult, inject_Z in M. cbn [Qnum Qden] in M. lia.
Qed.

(** X18. With the default cost rates (0.005 % storage per day, 0.01 % per
    transaction) a bullish fraction of 70 % or more always comes with a
    net benefit above the 0.5 % minimum: the median path then returns
    more than 3 %, and two weeks of costs take less than 0.1 % of it.
    Under these rates the net-benefit condition of the two hold tiers
    is met whenever their bullish-fraction condition is. *)
Lemma default_costs_majority_has_net_benefit (current_price : Q)
    (predictions : Ensemble) :
  0 < current_price ->
  predictions <> [] ->
  0.70 <= ConsensusStrategy.bullish_pct (consensus_with_costs 0.005 0.01)
            current_price predictions ->
  0.5 < ConsensusStrategy.net_benefit_pct (consensus_with_costs 0.005 0.01)
          current_price predictions.
Proof.
  intros Pos NE Maj.
  set (self := consensus_with_costs 0.005 0.01) in *.
  rewrite (bullish_pct_count self current_price predictions Pos) in Maj.
  assert (Len : (0 < length predictions)%nat)
    by (destruct predictions; [contradiction NE; reflexivity | simpl; lia]).
  apply fraction_at_least_70 in Maj; [|exact Len].
  set (col := Ens.column predictions
                (ConsensusStrategy.eval_day self predictions)) in *.
  assert (Med : (1 + 0.03) * current_price < Np.median col).
  { apply median_of_majority.
    - intros E. apply (f_equal (@length Q)) in E. unfold col in E.
      rewrite column_length in E. simpl in E. lia.
    - unfold col at 1. rewrite column_length. exact Maj. }
  unfold ConsensusStrategy.net_benefit_pct. fold col.
  set (e := ConsensusStrategy.eval_day self predictions).
  assert (Days : inject_Z (Z.of_nat e + 1) <= 15).
  { assert (B : (e <= 14)%nat)
      by (unfold e, ConsensusStrategy.eval_day; apply Nat.le_min_l).
    unfold Qle, inject_Z. cbn [Qnum Qden]. lia. }
  assert (Ret : 0.03 < (Np.median col - current_price) / current_price)
    by (apply Qlt_shift_div_l; [exact Pos | lra]).
  set (ret := (Np.median col - current_price) / current_price) in *.
  set (days := inject_Z (Z.of_nat e + 1)) in *.
  change (ConsensusStrategy.storage_cost_pct_per_day self) with 0.005.
  change (ConsensusStrategy.transaction_cost_pct self) with 0.01.
  setoid_replace (0.005 / 100) with 0.00005 by reflexivity.
  setoid_replace (0.01 / 100) with 0.0001 by reflexivity.
  lra.
Qed.

Lemma default_costs_majority_has_net_benefit_witness :
  0.5 < ConsensusStrategy.net_benefit_pct (consensus_with_costs 0.005 0.01)
          100 (flat_ensemble 3 104).
Proof.
  refine (default_costs_majority_has_net_benefit 100 (flat_ensemble 3 104)
            _ _ _).
  - reflexivity.
  - discriminate.
  - vm_compute. discriminate.
Defined.

(* ================================================================== *)
(** * Further properties of the code *)
(* ================================================================== *)

(** ** Indicator library *)

Lemma sum_nonneg (l : list Q) :
  Forall (fun x => 0 <= x) l -> 0 <= Np.sum l.
Proof.
  induction 1 as [|x l Hx _ IH]; simpl.
  - apply Qle_refl.
  - unfold Np.sum in *. simpl. lra.
Qed.

Lemma len_pos {A} (x : A) (l : list A) : 0 < inject_Z (Np.len (x :: l)).
Proof.
  unfold Np.len, Qlt, inject_Z. cbn [Qnum Qden length]. lia.
Qed.

Lemma mean_nonneg (l : list Q) :
  Forall (fun x => 0 <= x) l -> 0 <= Np.mean l.
Proof.
  intros F. destruct l as [|x l]; [apply Qle_refl|].
  unfold Np.mean. apply Qle_shift_div_l.
  - apply len_pos.
  - rewrite Qmult_0_l. apply sum_nonneg, F.
Qed.

Lemma gains_nonneg (deltas : list Q) :
  Forall (fun x => 0 <= x)
    (map (fun d => if Np.gtb d 0 then d else 0) deltas).
Proof.
  apply Forall_forall. intros x Hx. apply in_map_iff in Hx.
  destruct Hx as (d & <- & _). unfold Np.gtb.
  destruct (Np.ltb 0 d) eqn:E; [|apply Qle_refl].
  apply ltb_lt in E. lra.
Qed.

Lemma losses_nonneg (deltas : list Q) :
  Forall (fun x => 0 <= x)
    (map (fun d => if Np.ltb d 0 then - d else 0) deltas).
Proof.
  apply Forall_forall. intros x Hx. apply in_map_iff in Hx.
  destruct Hx as (d & <- & _).
  destruct (Np.ltb d 0) eqn:E; [|apply Qle_refl].
  apply ltb_lt in E. lra.
Qed.

Lemma rsi_formula_bounds (g l : Q) :
  0 <= g -> 0 < l -> 0 <= 100 - 100 / (1 + g / l) <= 100.
Proof.
  intros Hg Hl.
  assert (R : 0 <= g / l).
  { apply Qle_shift_div_l; [exact Hl|]. lra. }
  set (rs := g / l) in *.
  assert (P : 0 < 1 + rs) by lra.
  assert (U : 100 / (1 + rs) <= 100).
  { apply Qle_shift_div_r; [exact P|]. nra. }
  assert (L : 0 <= 100 / (1 + rs)).
  { apply Qle_shift_div_l; [exact P|]. lra. }
  split; lra.
Qed.

(** X1. For a period of at least one day the RSI lies between 0 and
    100, whatever the prices: 50 on a history shorter than
    [period + 1], 100 when the window has no loss, and
    [100 - 100 / (1 + avg_gain / avg_loss)] otherwise. *)
Theorem rsi_within_bounds (prices : list Q) (period : Z) :
  (1 <= period)%Z ->
  0 <= Indicators.calculate_rsi prices period <= 100.
Proof.
  intros _. unfold Indicators.calculate_rsi.
  destruct (Np.len prices <? period + 1)%Z; [split; lra|].
  set (deltas := Np.diff _).
  destruct (Np.eqb _ 0) eqn:E; [split; lra|].
  apply rsi_formula_bounds.
  - apply mean_nonneg, gains_nonneg.
  - pose proof (mean_nonneg _ (losses_nonneg deltas)) as L.
    unfold Np.eqb in E.
    destruct (Qeq_dec (Np.mean (map (fun d => if Np.ltb d 0 then - d else 0)
                                  deltas)) 0) as [Z0|NZ].
    + apply Qeq_bool_iff in Z0. congruence.
    + apply Qle_lteq in L. destruct L as [L|L]; [exact L|].
      exfalso. apply NZ. symmetry. exact L.
Qed.

Lemma rsi_within_bounds_witness :
  0 <= Indicators.calculate_rsi [100; 102; 101; 105] 3 <= 100.
Proof. apply rsi_within_bounds. lia. Defined.

Lemma sum_all_zero (l : list Q) :
  Forall (fun x => x == 0) l -> Np.sum l == 0.
Proof.
  induction 1 as [|x l Hx _ IH]; unfold Np.sum in *; simpl; [reflexivity|].
  rewrite Hx, IH. reflexivity.
Qed.

Lemma mean_all_zero (l : list Q) :
  Forall (fun x => x == 0) l -> Np.mean l == 0.
Proof.
  intros F. destruct l as [|x l]; [reflexivity|].
  unfold Np.mean. rewrite (sum_all_zero _ F).
  unfold Qdiv. apply Qmult_0_l.
Qed.

Lemma sum_pos (l : list Q) :
  Forall (fun x => 0 <= x) l -> Exists (fun x => 0 < x) l -> 0 < Np.sum l.
Proof.
  intros F E. induction E as [x l Hx|x l _ IH].
  - apply Forall_inv_tail in F. pose proof (sum_nonneg _ F).
    unfold Np.sum in *. simpl. lra.
  - pose proof (Forall_inv F). apply Forall_inv_tail in F.
    specialize (IH F). unfold Np.sum in *. simpl. lra.
Qed.

Lemma mean_pos (l : list Q) :
  Forall (fun x => 0 <= x) l -> Exists (fun x => 0 < x) l -> 0 < Np.mean l.
Proof.
  intros F E. destruct l as [|x l]; [inversion E|].
  unfold Np.mean. apply Qlt_shift_div_l.
  - apply len_pos.
  - rewrite Qmult_0_l. apply sum_pos; assumption.
Qed.

(** X2. The three extreme readings of the RSI.  A history shorter than
    [period + 1] prices reads 50.  A window in which no price falls
    reads exactly 100.  A window in which no price rises and at least
    one falls reads 0. *)
Theorem rsi_extremes (prices : list Q) (period : Z) :
  (1 <= period)%Z ->
  ((Np.len prices < period + 1)%Z ->
   Indicators.calculate_rsi prices period = 50)
  /\ ((period + 1 <= Np.len prices)%Z ->
      Forall (fun d => 0 <= d) (rsi_window prices period) ->
      Indicators.calculate_rsi prices period = 100)
  /\ ((period + 1 <= Np.len prices)%Z ->
      Forall (fun d => d <= 0) (rsi_window prices period) ->
      Exists (fun d => d < 0) (rsi_window prices period) ->
      Indicators.calculate_rsi prices period == 0).
Proof.
  intros _. unfold Indicators.calculate_rsi, rsi_window.
  set (deltas := Np.diff _).
  split; [|split].
  - intros S. apply Z.ltb_lt in S. rewrite S. reflexivity.
  - intros L F. apply Z.ltb_ge in L. rewrite L.
    assert (Z0 : Np.mean (map (fun d => if Np.ltb d 0 then - d else 0) deltas)
                 == 0).
    { apply mean_all_zero, Forall_forall. intros x Hx.
      apply in_map_iff in Hx. destruct Hx as (d & <- & Hd).
      rewrite Forall_forall in F. specialize (F d Hd).
      destruct (Np.ltb d 0) eqn:E; [|reflexivity].
      apply ltb_lt in E. lra. }
    unfold Np.eqb. apply Qeq_bool_iff in Z0. rewrite Z0. reflexivity.
  - intros L F E. apply Z.ltb_ge in L. rewrite L.
    assert (G : Np.mean (map (fun d => if Np.gtb d 0 then d else 0) deltas)
                == 0).
    { apply mean_all_zero, Forall_forall. intros x Hx.
      apply in_map_iff in Hx. destruct Hx as (d & <- & Hd).
      rewrite Forall_forall in F. specialize (F d Hd). unfold Np.gtb.
      destruct (Np.ltb 0 d) eqn:E'; [|reflexivity].
      apply ltb_lt in E'. lra. }
    assert (P : 0 < Np.mean (map (fun d => if Np.ltb d 0 then - d else 0)
                               deltas)).
    { apply mean_pos; [apply losses_nonneg|].
      apply Exists_exists in E. destruct E as (d & Hd & Hneg).
      apply Exists_exists. exists (- d). split.
      - apply in_map_iff. exists d. split; [|exact Hd].
        apply ltb_lt in Hneg. rewrite Hneg. reflexivity.
      - lra. }
    set (avg_loss := Np.mean (map (fun d => if Np.ltb d 0 then - d else 0)
                               deltas)) in *.
    set (avg_gain := Np.mean (map (fun d => if Np.gtb d 0 then d else 0)
                               deltas)) in *.
    assert (NE : Np.eqb avg_loss 0 = false).
    { unfold Np.eqb. destruct (Qeq_bool avg_loss 0) eqn:B; [|reflexivity].
      apply Qeq_bool_iff in B. lra. }
    rewrite NE. rewrite G. field. lra.
Qed.

Lemma rsi_extremes_witness :
  Indicators.calculate_rsi [100; 101; 103] 2 = 100.
Proof.
  refine (proj1 (proj2 (rsi_extremes [100; 101; 103] 2 _)) _ _).
  - lia.
  - unfold Np.len. simpl. lia.
  - vm_compute. repeat constructor; discriminate.
Defined.

(** ** The RSI does not depend on the price unit *)

Lemma last_slice_map {A B} (f : A -> B) (k : Z) (l : list A) :
  Np.last_slice k (map f l) = map f (Np.last_slice k l).
Proof.
  unfold Np.last_slice. rewrite length_map.
  destruct (k <=? 0)%Z; apply skipn_map.
Qed.

(** The changes of rescaled prices are the rescaled changes. *)
Lemma diff_scale (k : Q) (l : list Q) :
  Forall2 (fun d' d => d' == k * d) (Np.diff (map (Qmult k) l)) (Np.diff l).
Proof.
  induction l as [|x l IH]; [constructor|].
  destruct l as [|y l]; [constructor|].
  change (Forall2 (fun d' d => d' == k * d)
            ((k * y - k * x) :: Np.diff (map (Qmult k) (y :: l)))
            ((y - x) :: Np.diff (y :: l))).
  constructor; [ring | exact IH].
Qed.

Lemma mean_scaled (k : Q) (l' l : list Q) :
  Forall2 (fun a b => a == k * b) l' l -> Np.mean l' == k * Np.mean l.
Proof.
  intros F.
  assert (S : Np.sum l' == k * Np.sum l).
  { induction F as [|a b l' l E _ IH]; unfold Np.sum in *; simpl; [ring|].
    rewrite E, IH. ring. }
  pose proof (Forall2_length F) as Len.
  destruct l as [|b l]; destruct l' as [|a l']; try discriminate Len.
  - unfold Np.mean. ring.
  - unfold Np.mean, Np.len. rewrite S, Len.
    pose proof (len_pos b l) as P. unfold Np.len in P. field. lra.
Qed.

Lemma gains_scale (k : Q) (l' l : list Q) :
  0 < k ->
  Forall2 (fun d' d => d' == k * d) l' l ->
  Forall2 (fun a b => a == k * b)
    (map (fun d => if Np.gtb d 0 then d else 0) l')
    (map (fun d => if Np.gtb d 0 then d else 0) l).
Proof.
  intros K. induction 1 as [|d' d l' l E _ IH]; simpl; constructor;
    [|exact IH].
  unfold Np.gtb.
  destruct (Np.ltb 0 d') eqn:E1; destruct (Np.ltb 0 d) eqn:E2;
    repeat match goal with
           | H : Np.ltb _ _ = true |- _ => apply ltb_lt in H
           | H : Np.ltb _ _ = false |- _ => apply ltb_ge in H
           end; try lra; try nra.
Qed.

Lemma losses_scale (k : Q) (l' l : list Q) :
  0 < k ->
  Forall2 (fun d' d => d' == k * d) l' l ->
  Forall2 (fun a b => a == k * b)
    (map (fun d => if Np.ltb d 0 then - d else 0) l')
    (map (fun d => if Np.ltb d 0 then - d else 0) l).
Proof.
  intros K. induction 1 as [|d' d l' l E _ IH]; simpl; constructor;
    [|exact IH].
  destruct (Np.ltb d' 0) eqn:E1; destruct (Np.ltb d 0) eqn:E2;
    repeat match goal with
           | H : Np.ltb _ _ = true |- _ => apply ltb_lt in H
           | H : Np.ltb _ _ = false |- _ => apply ltb_ge in H
           end; try lra; try nra.
Qed.

(** X3. The RSI does not depend on the unit of the prices: multiplying
    every price by the same positive factor (cents per pound to dollars
    per ton, say) leaves it unchanged. *)
Theorem rsi_is_scale_invariant :
  forall (k : Q) (prices : list Q) (period : Z),
    0 < k -> (1 <= period)%Z ->
    Indicators.calculate_rsi (map (Qmult k) prices) period
    == Indicators.calculate_rsi prices period.
Proof.
  intros k prices period K _. unfold Indicators.calculate_rsi.
  unfold Np.len. rewrite length_map.
  destruct (Z.of_nat (length prices) <? period + 1)%Z; [reflexivity|].
  rewrite last_slice_map.
  pose proof (diff_scale k (Np.last_slice (period + 1) prices)) as D.
  set (deltas' := Np.diff (map (Qmult k) _)) in *.
  set (deltas := Np.diff (Np.last_slice (period + 1) prices)) in *.
  pose proof (mean_scaled k _ _ (gains_scale k _ _ K D)) as G.
  pose proof (mean_scaled k _ _ (losses_scale k _ _ K D)) as L.
  pose proof (mean_nonneg _ (losses_nonneg deltas)) as Ln.
  set (g' := Np.mean (map (fun d => if Np.gtb d 0 then d else 0) deltas')) in *.
  set (l' := Np.mean (map (fun d => if Np.ltb d 0 then - d else 0) deltas')) in *.
  set (g := Np.mean (map (fun d => if Np.gtb d 0 then d else 0) deltas)) in *.
  set (l := Np.mean (map (fun d => if Np.ltb d 0 then - d else 0) deltas)) in *.
  unfold Np.eqb.
  destruct (Qeq_bool l 0) eqn:E.
  - apply Qeq_bool_iff in E.
    assert (E' : Qeq_bool l' 0 = true).
    { apply Qeq_bool_iff. rewrite L, E. ring. }
    rewrite E'. reflexivity.
  - assert (NZ : ~ l == 0).
    { intros Z0. apply Qeq_bool_iff in Z0. congruence. }
    assert (E' : Qeq_bool l' 0 = false).
    { destruct (Qeq_bool l' 0) eqn:B; [|reflexivity].
      apply Qeq_bool_iff in B. exfalso. apply NZ.
      rewrite L in B. nra. }
    rewrite E'. rewrite G, L.
    pose proof (mean_nonneg _ (gains_nonneg deltas)) as Gn. fold g in Gn.
    assert (Lp : 0 < l) by (apply Qle_lteq in Ln; destruct Ln as [?|Z0];
                            [assumption | exfalso; apply NZ; symmetry; exact Z0]).
    assert (R : 0 <= g / l) by (apply Qle_shift_div_l; [exact Lp | lra]).
    field. repeat split; lra.
Qed.

Lemma rsi_is_scale_invariant_witness :
  Indicators.calculate_rsi (map (Qmult 20) [100; 102; 101; 105]) 3
  == Indicators.calculate_rsi [100; 102; 101; 105] 3.
Proof.
  refine (rsi_is_scale_invariant 20 [100; 102; 101; 105] 3 _ _).
  - reflexivity.
  - lia.
Defined.

Lemma in_last_slice {A} (k : Z) (l : list A) (x : A) :
  In x (Np.last_slice k l) -> In x l.
Proof.
  unfold Np.last_slice. destruct (k <=? 0)%Z; intros I.
  - rewrite <- (firstn_skipn (Z.to_nat (- k)) l). apply in_or_app. now right.
  - rewrite <- (firstn_skipn (length l - Z.to_nat k) l).
    apply in_or_app. now right.
Qed.

Lemma Forall_last_slice {A} (P : A -> Prop) (k : Z) (l : list A) :
  Forall P l -> Forall P (Np.last_slice k l).
Proof.
  rewrite !Forall_forall. intros F x I. apply F, (in_last_slice k), I.
Qed.

Lemma Forall_zip_with {A B C} (P : C -> Prop) (f : A -> B -> C)
    (l : list A) (m : list B) :
  (forall a b, P (f a b)) -> Forall P (Np.zip_with f l m).
Proof.
  intros H. apply Forall_forall. intros x I. unfold Np.zip_with in I.
  apply in_map_iff in I. destruct I as (p & <- & _). apply H.
Qed.

Lemma py_max_0_nonneg (u : Q) : 0 <= Np.py_max u 0.
Proof.
  unfold Np.py_max. destruct (Np.ltb u 0) eqn:E; [apply Qle_refl|].
  apply ltb_ge in E. exact E.
Qed.

Lemma dx_bounds (p m : Q) :
  0 <= p -> 0 <= m -> 0 < p + m ->
  0 <= 100 * Qabs (p - m) / (p + m) <= 100.
Proof.
  intros Hp Hm S.
  assert (A0 : 0 <= Qabs (p - m)) by apply Qabs_nonneg.
  assert (A1 : Qabs (p - m) <= p + m).
  { apply Qabs_case; intros; lra. }
  split.
  - apply Qle_shift_div_l; [exact S|]. lra.
  - apply Qle_shift_div_r; [exact S|]. lra.
Qed.

(** X4. Whatever the price frame and the period,
    [calculate_adx] returns an ADX between 0 and 100 and two
    directional indicators that are not negative. *)
Theorem adx_within_bounds (price_history : PriceHistory) (period : Z) :
  let '(adx, plus_di, minus_di) :=
    Indicators.calculate_adx price_history period in
  0 <= adx <= 100 /\ 0 <= plus_di /\ 0 <= minus_di.
Proof.
  unfold Indicators.calculate_adx.
  destruct (Np.len (price price_history) <? period + 1)%Z.
  { repeat split; lra. }
  destruct (match high_low price_history with
            | Some hl => hl
            | None => (price price_history, price price_history)
            end) as [high low].
  set (tr := Np.zip_with Np.py_max _ _).
  set (up := Np.zip_with Qminus (Np.tail1 high) (Np.init1 high)).
  set (down := Np.zip_with Qminus (Np.init1 low) (Np.tail1 low)).
  set (plus_dm := Np.zip_with _ up down).
  set (minus_dm := Np.zip_with _ up down).
  set (atr := Np.mean (Np.last_slice period tr)).
  assert (P : 0 <= Np.mean (Np.last_slice period plus_dm)).
  { apply mean_nonneg, Forall_last_slice, Forall_zip_with. intros u d.
    destruct (Np.gtb u d); [apply py_max_0_nonneg|apply Qle_refl]. }
  assert (M : 0 <= Np.mean (Np.last_slice period minus_dm)).
  { apply mean_nonneg, Forall_last_slice, Forall_zip_with. intros u d.
    destruct (Np.gtb d u); [apply py_max_0_nonneg|apply Qle_refl]. }
  destruct (Np.gtb atr 0) eqn:EA.
  - unfold Np.gtb in EA. apply ltb_lt in EA.
    set (plus_di := 100 * Np.mean (Np.last_slice period plus_dm) / atr).
    set (minus_di := 100 * Np.mean (Np.last_slice period minus_dm) / atr).
    assert (P' : 0 <= plus_di).
    { apply Qle_shift_div_l; [exact EA|]. lra. }
    assert (M' : 0 <= minus_di).
    { apply Qle_shift_div_l; [exact EA|]. lra. }
    destruct (Np.gtb (plus_di + minus_di) 0) eqn:ES.
    + unfold Np.gtb in ES. apply ltb_lt in ES.
      split; [apply dx_bounds; assumption|]. split; assumption.
    + repeat split; try lra; assumption.
  - replace (Np.gtb (0 + 0) 0) with false by reflexivity.
    repeat split; lra.
Qed.

(** ** Directional movement on closing prices *)

Lemma zip_with_length {A B C} (f : A -> B -> C) (l : list A) (m : list B) :
  length (Np.zip_with f l m) = Nat.min (length l) (length m).
Proof. unfold Np.zip_with. rewrite length_map. apply length_combine. Qed.

Lemma zip_with_nth {A B C} (f : A -> B -> C) (da : A) (db : B) (dc : C)
    (l : list A) :
  forall (m : list B) (i : nat),
    (i < length l)%nat -> (i < length m)%nat ->
    nth i (Np.zip_with f l m) dc = f (nth i l da) (nth i m db).
Proof.
  unfold Np.zip_with.
  induction l as [|a l IH]; intros [|b m] i Ll Lm; simpl in *; try lia.
  destruct i as [|i]; [reflexivity|]. apply IH; lia.
Qed.

Lemma map_nth_in {A B} (f : A -> B) (da : A) (db : B) (l : list A) (i : nat) :
  (i < length l)%nat -> nth i (map f l) db = f (nth i l da).
Proof.
  intros L. rewrite (nth_indep _ db (f da)) by (rewrite length_map; exact L).
  apply map_nth.
Qed.

Lemma tail1_length {A} (l : list A) : length (Np.tail1 l) = (length l - 1)%nat.
Proof. unfold Np.tail1. rewrite length_skipn. reflexivity. Qed.

Lemma init1_length {A} (l : list A) : length (Np.init1 l) = (length l - 1)%nat.
Proof. unfold Np.init1. rewrite length_firstn. lia. Qed.

(** Lists that add up position by position add up in total, from any
    position on. *)
Lemma sum_skipn_pointwise (c : list Q) :
  forall (a b : list Q) (k : nat),
    length a = length c -> length b = length c ->
    (forall i, (i < length c)%nat -> nth i a 0 + nth i b 0 == nth i c 0) ->
    Np.sum (skipn k a) + Np.sum (skipn k b) == Np.sum (skipn k c).
Proof.
  induction c as [|z c IH]; intros a b k La Lb P.
  - destruct a; [|discriminate La]. destruct b; [|discriminate Lb].
    rewrite !skipn_nil. unfold Np.sum. simpl. ring.
  - destruct a as [|x a]; [discriminate La|].
    destruct b as [|y b]; [discriminate Lb|].
    simpl in La, Lb.
    assert (Tl : forall i, (i < length c)%nat ->
                           nth i a 0 + nth i b 0 == nth i c 0).
    { intros i Hi. apply (P (S i)). simpl. lia. }
    destruct k as [|k].
    + pose proof (IH a b 0%nat ltac:(lia) ltac:(lia) Tl) as R.
      pose proof (P 0%nat ltac:(simpl; lia)) as H0.
      cbn [skipn nth] in *. unfold Np.sum in *. cbn [fold_right]. lra.
    + cbn [skipn]. apply IH; [lia | lia | exact Tl].
Qed.

(** One day's directional movement on closing prices: the upward and
    the downward movement add up to the true range. *)
Lemma movement_splits_range (t s : Q) :
  (if Np.gtb (t - s) (s - t) then Np.py_max (t - s) 0 else 0)
  + (if Np.gtb (s - t) (t - s) then Np.py_max (s - t) 0 else 0)
  == Np.py_max (t - t) (Np.py_max (Qabs (t - s)) (Qabs (t - s))).
Proof.
  assert (A : Np.py_max (Qabs (t - s)) (Qabs (t - s)) = Qabs (t - s)).
  { unfold Np.py_max. destruct (Np.ltb _ _); reflexivity. }
  rewrite A.
  assert (B : Np.py_max (t - t) (Qabs (t - s)) == Qabs (t - s)).
  { unfold Np.py_max. pose proof (Qabs_nonneg (t - s)).
    destruct (Np.ltb (t - t) (Qabs (t - s))) eqn:E; [reflexivity|].
    apply ltb_ge in E. lra. }
  rewrite B. unfold Np.gtb, Np.py_max.
  destruct (Np.ltb (s - t) (t - s)) eqn:E1;
    destruct (Np.ltb (t - s) (s - t)) eqn:E2;
    destruct (Np.ltb (t - s) 0) eqn:E3;
    destruct (Np.ltb (s - t) 0) eqn:E4;
    repeat match goal with
           | H : Np.ltb _ _ = true |- _ => apply ltb_lt in H
           | H : Np.ltb _ _ = false |- _ => apply ltb_ge in H
           end;
    apply Qabs_case; intros; lra.
Qed.

Lemma mean_skipn_pointwise (a b c : list Q) (k : nat) :
  length a = length c -> length b = length c ->
  (forall i, (i < length c)%nat -> nth i a 0 + nth i b 0 == nth i c 0) ->
  Np.mean (skipn k a) + Np.mean (skipn k b) == Np.mean (skipn k c).
Proof.
  intros La Lb P.
  pose proof (sum_skipn_pointwise c a b k La Lb P) as S.
  assert (Ka : length (skipn k a) = length (skipn k c))
    by (rewrite !length_skipn; lia).
  assert (Kb : length (skipn k b) = length (skipn k c))
    by (rewrite !length_skipn; lia).
  destruct (skipn k c) as [|z c'] eqn:Ec.
  - destruct (skipn k a); [|discriminate Ka].
    destruct (skipn k b); [|discriminate Kb]. unfold Np.mean. ring.
  - destruct (skipn k a) as [|x a'] eqn:Ea; [discriminate Ka|].
    destruct (skipn k b) as [|y b'] eqn:Eb; [discriminate Kb|].
    unfold Np.mean, Np.len. rewrite Ka, Kb.
    pose proof (len_pos z c') as Pz. unfold Np.len in Pz.
    set (n := inject_Z (Z.of_nat (length (z :: c')))) in *.
    setoid_replace (Np.sum (z :: c') / n)
      with ((Np.sum (x :: a') + Np.sum (y :: b')) / n)
      by (rewrite S; reflexivity).
    field. lra.
Qed.

Lemma last_slice_as_skipn {A} (k : Z) (l : list A) :
  exists j, forall m : list A,
    length m = length l -> Np.last_slice k m = skipn j m.
Proof.
  unfold Np.last_slice. destruct (k <=? 0)%Z.
  - exists (Z.to_nat (- k)). reflexivity.
  - exists (length l - Z.to_nat k)%nat. intros m ->. reflexivity.
Qed.

(** X5. On a frame without [high] and [low] columns, with at least
    [period + 1] prices: either the window has no price movement and
    all three results are 0, or the two directional indicators add up
    to 100 and the ADX is their absolute difference. *)
Theorem adx_on_closing_prices :
  forall (prices : list Q) (period : Z),
    (period + 1 <= Np.len prices)%Z ->
    let '(adx, plus_di, minus_di) :=
      Indicators.calculate_adx (mkHistory prices None) period in
    (plus_di + minus_di == 100 /\ adx == Qabs (plus_di - minus_di))
    \/ (adx = 0 /\ plus_di = 0 /\ minus_di = 0).
Proof.
  intros prices period L. unfold Indicators.calculate_adx.
  cbn [price high_low].
  replace (Np.len prices <? period + 1)%Z with false
    by (symmetry; apply Z.ltb_ge; exact L).
  set (t := Np.tail1 prices). set (s := Np.init1 prices).
  set (tr := Np.zip_with Np.py_max _ _).
  set (up := Np.zip_with Qminus t s).
  set (down := Np.zip_with Qminus s t).
  set (plus_dm := Np.zip_with _ up down).
  set (minus_dm := Np.zip_with _ up down).
  assert (Lt : length t = length s)
    by (unfold t, s; rewrite tail1_length, init1_length; reflexivity).
  assert (Lup : length up = length t)
    by (unfold up; rewrite zip_with_length; lia).
  assert (Ldown : length down = length t)
    by (unfold down; rewrite zip_with_length; lia).
  assert (Ltr : length tr = length t).
  { unfold tr. rewrite !zip_with_length, !length_map, !zip_with_length. lia. }
  assert (Lp : length plus_dm = length tr)
    by (unfold plus_dm; rewrite zip_with_length; lia).
  assert (Lm : length minus_dm = length tr)
    by (unfold minus_dm; rewrite zip_with_length; lia).
  assert (P : forall i, (i < length tr)%nat ->
                nth i plus_dm 0 + nth i minus_dm 0 == nth i tr 0).
  { intros i Hi. unfold plus_dm, minus_dm, tr.
    rewrite !(zip_with_nth _ 0 0 0)
      by (rewrite ?zip_with_length, ?length_map, ?zip_with_length; lia).
    rewrite !(map_nth_in Qabs 0 0) by (rewrite zip_with_length; lia).
    unfold up, down.
    rewrite !(zip_with_nth _ 0 0 0) by lia.
    apply movement_splits_range. }
  destruct (last_slice_as_skipn period tr) as [j J].
  rewrite (J tr eq_refl), (J plus_dm Lp), (J minus_dm Lm).
  pose proof (mean_skipn_pointwise plus_dm minus_dm tr j Lp Lm P) as M.
  set (atr := Np.mean (skipn j tr)) in *.
  set (mp := Np.mean (skipn j plus_dm)) in *.
  set (mm := Np.mean (skipn j minus_dm)) in *.
  destruct (Np.gtb atr 0) eqn:EA.
  - unfold Np.gtb in EA. apply ltb_lt in EA. left.
    assert (S100 : 100 * mp / atr + 100 * mm / atr == 100).
    { setoid_replace (100 * mp / atr + 100 * mm / atr)
        with (100 * (mp + mm) / atr) by (field; lra).
      rewrite M. field. lra. }
    assert (G : Np.gtb (100 * mp / atr + 100 * mm / atr) 0 = true).
    { unfold Np.gtb. apply ltb_lt. lra. }
    rewrite G. split; [exact S100|].
    rewrite S100. field.
  - right. replace (Np.gtb (0 + 0) 0) with false by reflexivity.
    repeat split.
Qed.

Lemma adx_on_closing_prices_witness :
  let '(adx, plus_di, minus_di) :=
    Indicators.calculate_adx (mkHistory [100; 102; 101; 105] None) 2 in
  (plus_di + minus_di == 100 /\ adx == Qabs (plus_di - minus_di))
  \/ (adx = 0 /\ plus_di = 0 /\ minus_di = 0).
Proof.
  refine (adx_on_closing_prices [100; 102; 101; 105] 2 _).
  apply Z.leb_le. reflexivity.
Defined.

Lemma sort_Forall (P : Q -> Prop) (l : list Q) :
  Forall P l -> Forall P (Np.sort l).
Proof.
  induction 1 as [|a l Pa Pl IH]; [constructor|].
  change (Np.sort (a :: l)) with (Np.insert a (Np.sort l)).
  apply insert_Forall; assumption.
Qed.

Lemma nth_Forall (P : Q -> Prop) (l : list Q) (i : nat) :
  Forall P l -> (i < length l)%nat -> P (nth i l 0).
Proof.
  intros F L. apply (proj1 (Forall_forall _ _) F). apply nth_In. exact L.
Qed.

(** The median of a sample whose values all equal [v] is [v]. *)
Lemma median_constant (v : Q) (l : list Q) :
  l <> [] -> Forall (fun x => x == v) l -> Np.median l == v.
Proof.
  intros NE F. rewrite (median_nonempty l NE).
  pose proof (sort_length l) as SL.
  pose proof (sort_Forall _ l F) as SF.
  set (s := Np.sort l) in *.
  assert (Pos : (0 < length s)%nat).
  { rewrite SL. destruct l; [contradiction NE; reflexivity | simpl; lia]. }
  assert (H2 : (length s / 2 < length s)%nat)
    by (apply Nat.div_lt; lia).
  destruct (Nat.even (length s)).
  - rewrite (nth_Forall _ s (length s / 2 - 1) SF) by lia.
    rewrite (nth_Forall _ s (length s / 2) SF) by lia.
    field.
  - apply (nth_Forall _ s _ SF). lia.
Qed.

Lemma sum_constant (v : Q) (l : list Q) :
  Forall (fun x => x == v) l -> Np.sum l == inject_Z (Np.len l) * v.
Proof.
  induction 1 as [|x l Hx _ IH]; unfold Np.sum, Np.len in *; simpl length.
  - simpl. field.
  - cbn [fold_right]. rewrite Hx, IH.
    rewrite Nat2Z.inj_succ, <- Z.add_1_r, inject_Z_plus. ring.
Qed.

Lemma mean_constant (v : Q) (l : list Q) :
  l <> [] -> Forall (fun x => x == v) l -> Np.mean l == v.
Proof.
  intros NE F. destruct l as [|x l]; [contradiction NE; reflexivity|].
  unfold Np.mean. rewrite (sum_constant v _ F).
  pose proof (len_pos x l). field. lra.
Qed.

Lemma var_constant (v : Q) (l : list Q) :
  Forall (fun x => x == v) l -> Np.var l == 0.
Proof.
  intros F. destruct l as [|x l]; [reflexivity|].
  unfold Np.var.
  pose proof (mean_constant v (x :: l) ltac:(discriminate) F) as M.
  apply mean_all_zero. apply Forall_forall. intros y Hy.
  apply in_map_iff in Hy. destruct Hy as (z & <- & Hz).
  rewrite Forall_forall in F. rewrite (F z Hz), M. ring.
Qed.

(** X6. When every path of a non-empty ensemble predicts the same
    positive price for the evaluated day, the coefficient of variation
    is below every positive cutoff: the forecast counts as HIGH
    confidence under any configuration. *)
Theorem unanimous_forecast_is_confident (predictions : Ensemble)
    (horizon_day : nat) (v cutoff : Q) :
  predictions <> [] ->
  (horizon_day < Ens.n_days predictions)%nat ->
  Forall (fun path => nth horizon_day path 0 == v) predictions ->
  0 < v -> 0 < cutoff ->
  root_ltb
    (Indicators.calculate_prediction_confidence (Some predictions)
       horizon_day) cutoff = true.
Proof.
  intros NE H F Pv Pc. unfold Indicators.calculate_prediction_confidence.
  assert (S0 : (Ens.size predictions =? 0)%nat = false).
  { apply Nat.eqb_neq. unfold Ens.size, Ens.n_paths.
    destruct predictions; [contradiction NE; reflexivity|]. simpl in *. nia. }
  rewrite S0.
  assert (C : (Ens.n_days predictions <=? horizon_day)%nat = false)
    by (apply Nat.leb_gt; exact H).
  rewrite C.
  assert (FC : Forall (fun x => x == v) (Ens.column predictions horizon_day)).
  { unfold Ens.column. apply Forall_forall. intros x Hx.
    apply in_map_iff in Hx. destruct Hx as (r & <- & Hr).
    apply (proj1 (Forall_forall _ _) F r Hr). }
  assert (NC : Ens.column predictions horizon_day <> []).
  { unfold Ens.column. destruct predictions; [contradiction NE; reflexivity|].
    discriminate. }
  pose proof (median_constant v _ NC FC) as M.
  pose proof (var_constant v _ FC) as V.
  assert (G : Np.gtb (Np.median (Ens.column predictions horizon_day)) 0 = true).
  { unfold Np.gtb. apply ltb_lt. lra. }
  rewrite G. unfold root_ltb. cbn [radicand].
  apply andb_true_intro. split; apply ltb_lt; [exact Pc|].
  rewrite V, M. setoid_replace (0 / (v * v)) with 0 by (field; lra). nra.
Qed.

Lemma unanimous_forecast_is_confident_witness :
  root_ltb
    (Indicators.calculate_prediction_confidence
       (Some (flat_ensemble 3 104)) 13) 0.05 = true.
Proof.
  refine (unanimous_forecast_is_confident (flat_ensemble 3 104) 13 104 0.05
            _ _ _ _ _).
  - discriminate.
  - simpl. lia.
  - repeat constructor.
  - reflexivity.
  - reflexivity.
Defined.

Lemma ltb_compat (x x' y y' : Q) :
  x == x' -> y == y' -> Np.ltb x y = Np.ltb x' y'.
Proof.
  intros Hx Hy. destruct (Np.ltb x' y') eqn:E.
  - apply ltb_lt. apply ltb_lt in E. lra.
  - apply ltb_ge. apply ltb_ge in E. lra.
Qed.

Lemma leb_scale (k x y : Q) :
  0 < k -> Np.leb (k * x) (k * y) = Np.leb x y.
Proof.
  intros K. destruct (Np.leb x y) eqn:E.
  - apply leb_le. apply leb_le in E. nra.
  - apply leb_gt. apply leb_gt in E. nra.
Qed.

Lemma insert_scale (k a : Q) (l : list Q) :
  0 < k ->
  Np.insert (k * a) (map (Qmult k) l) = map (Qmult k) (Np.insert a l).
Proof.
  intros K. induction l as [|b l IH]; simpl; [reflexivity|].
  rewrite (leb_scale k a b K). destruct (Np.leb a b); simpl.
  - reflexivity.
  - rewrite IH. reflexivity.
Qed.

Lemma sort_scale (k : Q) (l : list Q) :
  0 < k -> Np.sort (map (Qmult k) l) = map (Qmult k) (Np.sort l).
Proof.
  intros K. induction l as [|a l IH]; [reflexivity|].
  change (Np.sort (map (Qmult k) (a :: l)))
    with (Np.insert (k * a) (Np.sort (map (Qmult k) l))).
  change (Np.sort (a :: l)) with (Np.insert a (Np.sort l)).
  rewrite IH. apply insert_scale, K.
Qed.

Lemma nth_scale (k : Q) (l : list Q) (i : nat) :
  (i < length l)%nat -> nth i (map (Qmult k) l) 0 = k * nth i l 0.
Proof.
  intros L. rewrite (nth_indep _ 0 (k * 0)) by (rewrite length_map; exact L).
  apply map_nth.
Qed.

Lemma median_scale (k : Q) (l : list Q) :
  0 < k -> Np.median (map (Qmult k) l) == k * Np.median l.
Proof.
  intros K. destruct l as [|a l].
  - unfold Np.median. simpl. ring.
  - rewrite (median_nonempty (map (Qmult k) (a :: l))) by discriminate.
    rewrite (median_nonempty (a :: l)) by discriminate.
    rewrite (sort_scale k _ K), length_map.
    pose proof (sort_length (a :: l)) as SL.
    set (s := Np.sort (a :: l)) in *.
    assert (Pos : (0 < length s)%nat) by (rewrite SL; simpl; lia).
    assert (H2 : (length s / 2 < length s)%nat) by (apply Nat.div_lt; lia).
    destruct (Nat.even (length s)).
    + rewrite !nth_scale by lia. field.
    + rewrite nth_scale by lia. reflexivity.
Qed.

Lemma sum_map_ext (f g : Q -> Q) (l : list Q) :
  (forall x, In x l -> f x == g x) -> Np.sum (map f l) == Np.sum (map g l).
Proof.
  induction l as [|a l IH]; intros E; unfold Np.sum in *; simpl;
    [reflexivity|].
  rewrite (E a (or_introl eq_refl)), IH; [reflexivity|].
  intros x I. apply E. now right.
Qed.

Lemma mean_map_ext (f g : Q -> Q) (l : list Q) :
  (forall x, In x l -> f x == g x) -> Np.mean (map f l) == Np.mean (map g l).
Proof.
  intros E. destruct l as [|a l]; [reflexivity|].
  unfold Np.mean. cbn [map]. change (f a :: map f l) with (map f (a :: l)).
  change (g a :: map g l) with (map g (a :: l)).
  rewrite (sum_map_ext f g (a :: l) E). unfold Np.len. rewrite !length_map.
  reflexivity.
Qed.

Lemma sum_map_scale (c : Q) (f : Q -> Q) (l : list Q) :
  Np.sum (map (fun x => c * f x) l) == c * Np.sum (map f l).
Proof.
  induction l as [|a l IH]; unfold Np.sum in *; simpl; [ring|].
  rewrite IH. ring.
Qed.

Lemma mean_map_scale (c : Q) (f : Q -> Q) (l : list Q) :
  Np.mean (map (fun x => c * f x) l) == c * Np.mean (map f l).
Proof.
  destruct l as [|a l]; [unfold Np.mean; simpl; ring|].
  unfold Np.mean. cbn [map].
  change ((c * f a) :: map (fun x => c * f x) l)
    with (map (fun x => c * f x) (a :: l)).
  change (f a :: map f l) with (map f (a :: l)).
  rewrite sum_map_scale. unfold Np.len. rewrite !length_map.
  pose proof (len_pos a l) as P. unfold Np.len in P.
  field. lra.
Qed.

Lemma mean_scale (k : Q) (l : list Q) :
  Np.mean (map (Qmult k) l) == k * Np.mean l.
Proof.
  rewrite <- (map_id l) at 2.
  apply (mean_map_scale k (fun x => x) l).
Qed.

Lemma var_scale (k : Q) (l : list Q) :
  Np.var (map (Qmult k) l) == (k * k) * Np.var l.
Proof.
  unfold Np.var. rewrite map_map.
  rewrite <- (mean_map_scale (k * k) (fun x => (x - Np.mean l) * (x - Np.mean l))).
  apply mean_map_ext. intros x _. rewrite (mean_scale k l). ring.
Qed.

Lemma column_rescale (k : Q) (p : Ensemble) (h : nat) :
  rectangular p -> (h < Ens.n_days p)%nat ->
  Ens.column (rescale k p) h = map (Qmult k) (Ens.column p h).
Proof.
  unfold rectangular, Ens.column, rescale. intros R H.
  rewrite !map_map. apply map_ext_in. intros r Hr.
  apply nth_scale. rewrite (proj1 (Forall_forall _ _) R r Hr). exact H.
Qed.

Lemma n_days_rescale (k : Q) (p : Ensemble) :
  Ens.n_days (rescale k p) = Ens.n_days p.
Proof.
  destruct p as [|r p]; [reflexivity|]. simpl. apply length_map.
Qed.

Lemma size_rescale (k : Q) (p : Ensemble) :
  Ens.size (rescale k p) = Ens.size p.
Proof.
  unfold Ens.size, Ens.n_paths. rewrite n_days_rescale.
  unfold rescale. rewrite length_map. reflexivity.
Qed.

(** X7. The confidence tier does not depend on the unit of the prices:
    for a rectangular ensemble, multiplying every predicted price by
    the same positive factor leaves every comparison of the coefficient
    of variation with a cutoff unchanged. *)
Theorem confidence_is_scale_invariant (k : Q) (predictions : Ensemble)
    (horizon_day : nat) (cutoff : Q) :
  0 < k -> rectangular predictions ->
  root_ltb
    (Indicators.calculate_prediction_confidence
       (Some (rescale k predictions)) horizon_day) cutoff
  = root_ltb
      (Indicators.calculate_prediction_confidence (Some predictions)
         horizon_day) cutoff.
Proof.
  intros K R. unfold Indicators.calculate_prediction_confidence.
  rewrite size_rescale, n_days_rescale.
  destruct (Ens.size predictions =? 0)%nat eqn:S0; [reflexivity|].
  apply Nat.eqb_neq in S0.
  assert (D : (0 < Ens.n_days predictions)%nat).
  { unfold Ens.size in S0. destruct (Ens.n_days predictions); lia. }
  set (h := if (Ens.n_days predictions <=? horizon_day)%nat
            then (Ens.n_days predictions - 1)%nat else horizon_day).
  assert (H : (h < Ens.n_days predictions)%nat).
  { unfold h. destruct (Ens.n_days predictions <=? horizon_day)%nat eqn:E.
    - lia.
    - apply Nat.leb_gt in E. exact E. }
  rewrite (column_rescale k predictions h R H).
  set (col := Ens.column predictions h).
  pose proof (median_scale k col K) as M.
  pose proof (var_scale k col) as V.
  assert (G : Np.gtb (Np.median (map (Qmult k) col)) 0
              = Np.gtb (Np.median col) 0).
  { unfold Np.gtb. rewrite (ltb_compat 0 0 _ (k * Np.median col));
      [|reflexivity|exact M].
    destruct (Np.ltb 0 (Np.median col)) eqn:E.
    - apply ltb_lt. apply ltb_lt in E. nra.
    - apply ltb_ge. apply ltb_ge in E. nra. }
  rewrite G. destruct (Np.gtb (Np.median col) 0) eqn:E; [|reflexivity].
  unfold Np.gtb in E. apply ltb_lt in E.
  unfold root_ltb. cbn [radicand]. f_equal.
  apply ltb_compat; [|reflexivity].
  rewrite M, V. field. split; lra.
Qed.

Lemma confidence_is_scale_invariant_witness :
  root_ltb
    (Indicators.calculate_prediction_confidence
       (Some (rescale 20 [[100; 110]; [101; 90]])) 1) 0.05
  = root_ltb
      (Indicators.calculate_prediction_confidence
         (Some [[100; 110]; [101; 90]]) 1) 0.05.
Proof.
  refine (confidence_is_scale_invariant 20 [[100; 110]; [101; 90]] 1 0.05
            _ _).
  - reflexivity.
  - repeat constructor.
Defined.

(** ** Forced liquidation comes first *)

(** X8. Whenever the stock is positive and the forced-liquidation check
    answers with a decision, be it the whole inventory at the deadline
    or the gradual 5 % of the two-tier rule, each of the nine
    rule-based and forecast-aware strategies returns exactly that
    decision and leaves its own state as it was. *)
Theorem forced_liquidation_takes_precedence :
  forall (rule : LiquidationRule) (day : Z) (inventory current_price : Q)
         (price_history : PriceHistory) (predictions : option Ensemble)
         (forced : Decision),
    0 < inventory ->
    _force_liquidation_check day inventory = Some forced ->
    (forall p s, ImmediateSaleStrategy.decide p s day inventory current_price
                   price_history predictions = (forced, s))
    /\ (forall p s, EqualBatchStrategy.decide p s day inventory current_price
                   price_history predictions = (forced, s))
    /\ (forall p s, PriceThresholdStrategy.decide p s day inventory
                   current_price price_history predictions = (forced, s))
    /\ (forall p s, MovingAverageStrategy.decide p s day inventory
                   current_price price_history predictions = (forced, s))
    /\ (forall p g a s, PriceThresholdPredictive.decide p g a s day inventory
                   current_price price_history predictions = (forced, s))
    /\ (forall p g a s, MovingAveragePredictive.decide p g a s day inventory
                   current_price price_history predictions = (forced, s))
    /\ (forall p s, ExpectedValueStrategy.decide p s day inventory
                   current_price price_history predictions = (forced, s))
    /\ (forall p s, ConsensusStrategy.decide p s day inventory
                   current_price price_history predictions = (forced, s))
    /\ (forall p s, RiskAdjustedStrategy.decide p s day inventory
                   current_price price_history predictions = (forced, s)).
Proof.
  intros rule day inventory current_price price_history predictions forced
    Stock E.
  assert (L : Np.leb inventory 0 = false) by (apply leb_gt; exact Stock).
  repeat split; intros;
    [ unfold ImmediateSaleStrategy.decide
    | unfold EqualBatchStrategy.decide
    | unfold PriceThresholdStrategy.decide
    | unfold MovingAverageStrategy.decide
    | unfold PriceThresholdPredictive.decide, MatchedPair.decide
    | unfold MovingAveragePredictive.decide, MatchedPair.decide
    | unfold ExpectedValueStrategy.decide
    | unfold ConsensusStrategy.decide
    | unfold RiskAdjustedStrategy.decide ];
    rewrite L, E; reflexivity.
Qed.

Lemma forced_liquidation_takes_precedence_witness :
  ConsensusStrategy.decide (H := two_tier 0) ConsensusStrategy.default
    300 350 40 100 (mkHistory [] None) None
  = (sell (40 * 0.05) (plain "gradual_liquidation"), 300%Z).
Proof.
  refine (proj1 (proj2 (proj2 (proj2 (proj2 (proj2 (proj2 (proj2
            (forced_liquidation_takes_precedence (two_tier 0) 350 40 100
               (mkHistory [] None) None
               (sell (40 * 0.05) (plain "gradual_liquidation")) _ _))))))))
            ConsensusStrategy.default 300%Z).
  - reflexivity.
  - reflexivity.
Defined.

(** ** The two schedule-driven strategies *)

Section Schedules.

Context `{LiquidationRule}.

Lemma equal_batch_gated (p : EqualBatchStrategy.Params) :
  cooldown_gated (EqualBatchStrategy.frequency p)
    (EqualBatchStrategy.decide p).
Proof.
  intros last day inventory current_price price_history predictions r.
  unfold r, EqualBatchStrategy.decide. clear r.
  destruct (Np.leb inventory 0); [gate_done|].
  destruct (_force_liquidation_check day inventory) as [f|] eqn:Ef;
    [gate_done|].
  cbv zeta.
  zleb (EqualBatchStrategy.frequency p) (day - last)%Z E; gate_done.
Qed.

Lemma equal_batch_amount (p : EqualBatchStrategy.Params) (calls : list Call) :
  forall last,
    Forall (fun a => non_forced_sell a ->
                     amount (answered a)
                     = call_inventory (asked a) * EqualBatchStrategy.batch_size p)
      (trace (EqualBatchStrategy.decide p) last calls).
Proof.
  induction calls as [|k calls IH]; intros last; simpl; [constructor|].
  destruct (EqualBatchStrategy.decide p last (call_day k) (call_inventory k)
              (call_price k) (call_history k) (call_predictions k))
    as [d s] eqn:E.
  constructor; [|apply IH].
  intros [A Free]. unfold not_forced in Free. simpl in *.
  unfold EqualBatchStrategy.decide in E. rewrite Free in E.
  destruct (Np.leb (call_inventory k) 0);
    [injection E as <- _; discriminate A|].
  destruct (EqualBatchStrategy.frequency p <=? call_day k - last)%Z;
    injection E as <- _; [reflexivity | discriminate A].
Qed.

End Schedules.

(** X9. Equal Batch, over any sequence of calls with the state threaded
    through and a frequency that is not negative: any two sales that
    were not forced lie at least [frequency] days apart, and every such
    sale comes [frequency] days or more after the recorded one and is
    for exactly [inventory * batch_size]. *)
Theorem equal_batch_keeps_its_schedule :
  forall (rule : LiquidationRule) (p : EqualBatchStrategy.Params)
         (last_sale_day : Z) (calls : list Call),
    (0 <= EqualBatchStrategy.frequency p)%Z ->
    let run := trace (EqualBatchStrategy.decide p) last_sale_day calls in
    ForallOrdPairs (sales_spaced (EqualBatchStrategy.frequency p)) run
    /\ Forall (fun a => non_forced_sell a ->
                 (EqualBatchStrategy.frequency p
                  <= call_day (asked a) - last_sale_before a)%Z
                 /\ amount (answered a)
                    = call_inventory (asked a)
                      * EqualBatchStrategy.batch_size p) run.
Proof.
  intros rule p last calls F run. unfold run. split.
  - apply trace_spaced; [exact F | apply equal_batch_gated].
  - pose proof (equal_batch_amount p calls last) as A.
    pose proof (trace_gate (EqualBatchStrategy.frequency p)
                  (EqualBatchStrategy.decide p) (equal_batch_gated p)
                  calls last) as G.
    rewrite Forall_forall in *. intros a Ia S. split.
    + specialize (G a Ia). unfold gate_respected in G.
      destruct S as [Sa Sf].
      destruct (Z_lt_le_dec (call_day (asked a) - last_sale_before a)
                  (EqualBatchStrategy.frequency p)) as [Soon|Late];
        [|exact Late].
      specialize (G Soon Sf). congruence.
    + apply A; assumption.
Qed.

Lemma equal_batch_keeps_its_schedule_witness :
  let calls :=
    [mkCall 30 50 100 (mkHistory [] None) None;
     mkCall 45 40 100 (mkHistory [] None) None;
     mkCall 60 40 100 (mkHistory [] None) None] in
  let run :=
    trace (EqualBatchStrategy.decide (H := hard_deadline 365)
             EqualBatchStrategy.default) 0 calls in
  ForallOrdPairs (sales_spaced (H := hard_deadline 365) 30) run
  /\ Forall (fun a => non_forced_sell (H := hard_deadline 365) a ->
               (30 <= call_day (asked a) - last_sale_before a)%Z
               /\ amount (answered a) = call_inventory (asked a) * 0.25) run.
Proof.
  refine (equal_batch_keeps_its_schedule (hard_deadline 365)
            EqualBatchStrategy.default 0
            [mkCall 30 50 100 (mkHistory [] None) None;
             mkCall 45 40 100 (mkHistory [] None) None;
             mkCall 60 40 100 (mkHistory [] None) None] _).
  simpl. lia.
Defined.

Section Weekly.

Context `{LiquidationRule}.
Variable p : ImmediateSaleStrategy.Params.

Local Abbreviation weekly := (ImmediateSaleStrategy.decide p).

(** One call: the counter grows by at most one, and a sale that is not
    forced needs a counter of [sale_frequency_days] or more and a stock
    of [min_batch_size] or more, sells the whole stock and resets the
    counter. *)
Lemma weekly_step (s day : Z) (inventory current_price : Q)
    (price_history : PriceHistory) (predictions : option Ensemble) :
  let r := weekly s day inventory current_price price_history predictions in
  (snd r <= Z.max s 0 + 1)%Z
  /\ (_force_liquidation_check day inventory = None ->
      action (fst r) = SELL ->
      snd r = 0%Z
      /\ (ImmediateSaleStrategy.sale_frequency_days p <= s)%Z
      /\ ImmediateSaleStrategy.min_batch_size p <= inventory
      /\ amount (fst r) = inventory).
Proof.
  unfold ImmediateSaleStrategy.decide.
  destruct (Np.leb inventory 0).
  { cbn [fst snd hold action]. split; [lia | discriminate]. }
  destruct (_force_liquidation_check day inventory) as [f|].
  { cbn [fst snd]. split; [lia | discriminate]. }
  cbv zeta.
  zleb (ImmediateSaleStrategy.sale_frequency_days p) s E.
  - destruct (Np.geb inventory (ImmediateSaleStrategy.min_batch_size p))
      eqn:G; cbn [andb negb fst snd hold sell action amount].
    + split; [lia|]. intros _ _. unfold Np.geb in G. apply leb_le in G.
      repeat split; assumption.
    + split; [lia | discriminate].
  - cbn [andb].
    destruct (negb (Np.geb inventory (ImmediateSaleStrategy.min_batch_size p)));
      cbn [fst snd hold action]; (split; [lia | discriminate]).
Qed.

Lemma weekly_counter (calls : list Call) :
  forall s j a,
    nth_error (trace weekly s calls) j = Some a ->
    (last_sale_before a <= Z.max s 0 + Z.of_nat j)%Z.
Proof.
  induction calls as [|k calls IH]; intros s j a E; simpl in E.
  - destruct j; discriminate E.
  - pose proof (weekly_step s (call_day k) (call_inventory k) (call_price k)
                  (call_history k) (call_predictions k)) as [B _].
    destruct (weekly s (call_day k) (call_inventory k) (call_price k)
                (call_history k) (call_predictions k)) as [d s'].
    cbn [snd] in B. destruct j as [|j]; simpl in E.
    + injection E as <-. simpl. lia.
    + specialize (IH s' j a E). lia.
Qed.

(** Every sale of a run that is not forced finds the counter at
    [sale_frequency_days] or more and a stock of [min_batch_size] or
    more, and sells the whole stock. *)
Lemma weekly_sales (calls : list Call) :
  forall s,
    Forall (fun a => non_forced_sell a ->
              (ImmediateSaleStrategy.sale_frequency_days p
               <= last_sale_before a)%Z
              /\ ImmediateSaleStrategy.min_batch_size p
                 <= call_inventory (asked a)
              /\ amount (answered a) = call_inventory (asked a))
      (trace weekly s calls).
Proof.
  induction calls as [|k calls IH]; intros s; simpl; [constructor|].
  pose proof (weekly_step s (call_day k) (call_inventory k) (call_price k)
                (call_history k) (call_predictions k)) as [_ St].
  destruct (weekly s (call_day k) (call_inventory k) (call_price k)
              (call_history k) (call_predictions k)) as [d s'].
  cbn [fst snd] in St. constructor; [|apply IH].
  intros [A F]. unfold not_forced in F. simpl in *.
  destruct (St F A) as (_ & Fq & Mb & Am). repeat split; assumption.
Qed.

Lemma weekly_spacing (calls : list Call) :
  forall s i j ai aj,
    nth_error (trace weekly s calls) i = Some ai ->
    nth_error (trace weekly s calls) j = Some aj ->
    (i < j)%nat ->
    non_forced_sell ai -> non_forced_sell aj ->
    (ImmediateSaleStrategy.sale_frequency_days p < Z.of_nat (j - i))%Z.
Proof.
  induction calls as [|k calls IH]; intros s i j ai aj Ei Ej Lt Si Sj;
    simpl in Ei, Ej.
  - destruct i; discriminate Ei.
  - pose proof (weekly_step s (call_day k) (call_inventory k) (call_price k)
                  (call_history k) (call_predictions k)) as [_ St].
    pose proof (fun s' => weekly_counter calls s') as C.
    pose proof (fun s' => weekly_sales calls s') as W.
    destruct (weekly s (call_day k) (call_inventory k) (call_price k)
                (call_history k) (call_predictions k)) as [d s'].
    cbn [fst snd] in St.
    destruct j as [|j]; [lia|]. simpl in Ej.
    destruct i as [|i]; simpl in Ei.
    + injection Ei as <-. destruct Si as [Ai Fi].
      unfold not_forced in Fi. simpl in Ai, Fi.
      destruct (St Fi Ai) as (-> & _).
      specialize (C 0%Z j aj Ej).
      pose proof (proj1 (Forall_forall _ _) (W 0%Z) aj
                    (nth_error_In _ _ Ej) Sj) as (Fq & _).
      lia.
    + replace (S j - S i)%nat with (j - i)%nat by lia.
      apply (IH s' i j ai aj Ei Ej); [lia | assumption | assumption].
Qed.

End Weekly.

(** X10. Immediate Sale, over any sequence of calls.  A sale that is
    not forced finds the counter at [sale_frequency_days] or more and a
    stock of at least [min_batch_size], and sells the whole stock.  The
    counter restarts at 0 and grows by one per call, so two such sales
    are more than [sale_frequency_days] calls apart: with the default
    of 7, eight calls or more. *)
Theorem immediate_sale_rhythm :
  forall (rule : LiquidationRule) (p : ImmediateSaleStrategy.Params)
         (days_since_last_sale : Z) (calls : list Call),
    let run :=
      trace (ImmediateSaleStrategy.decide p) days_since_last_sale calls in
    Forall (fun a => non_forced_sell a ->
              (ImmediateSaleStrategy.sale_frequency_days p
               <= last_sale_before a)%Z
              /\ ImmediateSaleStrategy.min_batch_size p
                 <= call_inventory (asked a)
              /\ amount (answered a) = call_inventory (asked a)) run
    /\ (forall i j ai aj,
          nth_error run i = Some ai -> nth_error run j = Some aj ->
          (i < j)%nat ->
          non_forced_sell ai -> non_forced_sell aj ->
          (ImmediateSaleStrategy.sale_frequency_days p
           < Z.of_nat (j - i))%Z).
Proof.
  intros rule p s calls run. unfold run. split.
  - apply weekly_sales.
  - apply weekly_spacing.
Qed.

Section Override.

Context `{LiquidationRule}.

Lemma pair_high_overrides (mp : MatchedPair.Params) (cooldown_days : Z)
    (batch_baseline : Q)
    (get_baseline_action : Q -> PriceHistory -> BaselineAction)
    (baseline_logic : Z -> Z -> Q -> Q -> PriceHistory -> Decision * Z)
    (last_sale_day day : Z) (inventory current_price : Q)
    (price_history : PriceHistory) (predictions : Ensemble) :
  0 < inventory ->
  _force_liquidation_check day inventory = None ->
  (cooldown_days <= day - last_sale_day)%Z ->
  (0 < Ens.size predictions)%nat ->
  high_confidence mp predictions ->
  let r :=
    MatchedPair.decide mp cooldown_days batch_baseline get_baseline_action
      baseline_logic last_sale_day day inventory current_price price_history
      (Some predictions) in
  let forecast :=
    direction (MatchedPair._analyze_prediction_signal mp current_price
                 price_history predictions) in
  r = MatchedPair._execute_prediction_override mp batch_baseline day
        inventory
        (MatchedPair._analyze_prediction_signal mp current_price
           price_history predictions) price_history
  /\ amount (fst r) = inventory * override_batch mp batch_baseline forecast.
Proof.
  intros stock free cooled some High r forecast. unfold r.
  rewrite (pair_decide_tiers _ _ _ _ _ _ _ _ _ _ _ stock free cooled some).
  cbv zeta. rewrite signal_confidence. unfold high_confidence in High.
  rewrite High. split; [reflexivity|].
  unfold MatchedPair._execute_prediction_override, forecast.
  destruct (direction _); reflexivity.
Qed.

End Override.



(** ** The price threshold on a short history *)

(** X12. With fewer than 30 prices the threshold of Price Threshold is
    the current price raised by [threshold_pct], which the current
    price never exceeds: for a threshold percentage and a price that are
    not negative, the only sale that is not forced is the fallback,
    [max_days_without_sale] days or more after the last sale, for
    [inventory * batch_baseline]. *)
Theorem threshold_needs_thirty_prices :
  forall (rule : LiquidationRule) (p : PriceThresholdStrategy.Params)
         (last_sale_day day : Z) (inventory current_price : Q)
         (price_history : PriceHistory) (predictions : option Ensemble),
    (Np.len (price price_history) < 30)%Z ->
    0 <= PriceThresholdStrategy.threshold_pct p ->
    0 <= current_price ->
    _force_liquidation_check day inventory = None ->
    let r :=
      PriceThresholdStrategy.decide p last_sale_day day inventory
        current_price price_history predictions in
    action (fst r) = SELL ->
    (PriceThresholdStrategy.max_days_without_sale p
     <= day - last_sale_day)%Z
    /\ amount (fst r)
       = inventory * PriceThresholdStrategy.batch_baseline p.
Proof.
  intros rule p last day inventory current_price price_history predictions
         Short Pct Price free r. unfold r, PriceThresholdStrategy.decide.
  rewrite free.
  destruct (Np.leb inventory 0); [discriminate|]. cbv zeta.
  assert (Quiet : Np.gtb current_price
                    (PriceThresholdStrategy.threshold p current_price
                       price_history) = false).
  { unfold Np.gtb. apply ltb_ge. unfold PriceThresholdStrategy.threshold.
    replace (30 <=? Np.len (price price_history))%Z with false
      by (symmetry; apply Z.leb_gt; exact Short).
    nra. }
  rewrite Quiet. cbn [negb].
  zleb (PriceThresholdStrategy.max_days_without_sale p) (day - last)%Z E.
  - intros _. split; [exact E | reflexivity].
  - discriminate.
Qed.

Lemma threshold_needs_thirty_prices_witness :
  let r :=
    PriceThresholdStrategy.decide (H := hard_deadline 365)
      PriceThresholdStrategy.default 0 100 40 100
      (mkHistory [90; 120] None) None in
  (60 <= 100 - 0)%Z /\ amount (fst r) = 40 * 0.25.
Proof.
  refine (threshold_needs_thirty_prices (hard_deadline 365)
            PriceThresholdStrategy.default 0 100 40 100
            (mkHistory [90; 120] None) None _ _ _ _ _).
  - unfold Np.len. simpl. lia.
  - discriminate.
  - discriminate.
  - reflexivity.
  - vm_compute. reflexivity.
Defined.

(** ** The moving-average crossover *)

Lemma last_slice_nested {A} (k : Z) (l : list A) :
  (1 <= k)%Z -> (k + 1 <= Np.len l)%Z ->
  Np.last_slice k (Np.last_slice (k + 1) l) = Np.last_slice k l.
Proof.
  intros K L. unfold Np.last_slice, Np.len in *.
  replace (k <=? 0)%Z with false by (symmetry; apply Z.leb_gt; lia).
  replace (k + 1 <=? 0)%Z with false by (symmetry; apply Z.leb_gt; lia).
  rewrite length_skipn, skipn_skipn. f_equal. lia.
Qed.

(** A downward crossover has the current price strictly below the
    moving average of the last [ma_period] prices. *)
Lemma downward_cross_below_average (p : MovingAverageStrategy.Params)
    (current_price : Q) (price_history : PriceHistory) :
  (1 <= MovingAverageStrategy.ma_period p)%Z ->
  (MovingAverageStrategy.ma_period p + 1 <= Np.len (price price_history))%Z ->
  snd (MovingAverageStrategy.crossover p current_price price_history) = true ->
  current_price < tail_mean price_history (MovingAverageStrategy.ma_period p).
Proof.
  intros K L. unfold MovingAverageStrategy.crossover, tail_mean. cbn [snd].
  rewrite (last_slice_nested _ _ K L).
  intros D. apply andb_prop in D. destruct D as [_ D].
  apply ltb_lt in D. exact D.
Qed.



Ltac fractions :=
  repeat match goal with
         | H : Forall fraction (_ :: _) |- _ => inversion_clear H
         | H : Forall fraction [] |- _ => clear H
         end.

Ltac split_ifs :=
  repeat match goal with
         | |- context [if ?b then _ else _] => destruct b
         end.

Lemma hold_within (inventory : Q) (r : Reason) :
  0 <= inventory ->
  0 <= amount (hold r) /\ amount (hold r) <= inventory.
Proof. intros P. cbn [amount hold]. split; lra. Qed.

Lemma trade_within (day : Z) (inventory batch : Q) (r : Reason) :
  0 <= inventory -> fraction batch ->
  0 <= amount (fst (_execute_trade day inventory batch r))
  /\ amount (fst (_execute_trade day inventory batch r)) <= inventory.
Proof.
  intros P [B0 B1]. cbn [fst _execute_trade sell amount]. split; nra.
Qed.

Lemma hard_deadline_amounts (max_holding_days : Z) :
  @rule_amounts_within_stock (hard_deadline max_holding_days).
Proof.
  intros day inventory d Pos. simpl.
  destruct (max_holding_days <=? day)%Z; [|discriminate].
  intros [= <-]. cbn [amount sell]. split; [exact Pos | apply Qle_refl].
Qed.

Lemma two_tier_amounts (harvest_start : Z) :
  @rule_amounts_within_stock (two_tier harvest_start).
Proof.
  intros day inventory d Pos. simpl.
  destruct (365 <=? day - harvest_start)%Z.
  - intros [= <-]. cbn [amount sell]. split; [exact Pos | apply Qle_refl].
  - destruct (345 <=? day - harvest_start)%Z; [|discriminate].
    intros [= <-]. cbn [amount sell]. split; lra.
Qed.

Lemma threshold_analysis_fraction (p : PriceThresholdStrategy.Params)
    (current_price : Q) (price_history : PriceHistory) :
  threshold_fractions p ->
  fraction (fst (PriceThresholdStrategy._analyze_historical p current_price
                   price_history)).
Proof.
  unfold threshold_fractions, PriceThresholdStrategy._analyze_historical.
  intros F. fractions.
  destruct (Indicators.calculate_adx price_history 14) as [[adx pdi] mdi].
  split_ifs; cbn [fst]; assumption.
Qed.

Lemma crossover_analysis_fraction (p : MovingAverageStrategy.Params)
    (current_price : Q) (price_history : PriceHistory) :
  crossover_fractions p ->
  fraction (fst (MovingAverageStrategy._analyze_historical p current_price
                   price_history)).
Proof.
  unfold crossover_fractions, MovingAverageStrategy._analyze_historical.
  intros F. fractions.
  destruct (Indicators.calculate_adx price_history 14) as [[adx pdi] mdi].
  split_ifs; cbn [fst]; assumption.
Qed.

Lemma expected_value_analysis_fraction (p : ExpectedValueStrategy.Params)
    (current_price : Q) (price_history : PriceHistory)
    (predictions : Ensemble) :
  expected_value_fractions p ->
  fraction (fst (ExpectedValueStrategy._analyze_expected_value_pct p
                   current_price price_history predictions)).
Proof.
  unfold expected_value_fractions,
    ExpectedValueStrategy._analyze_expected_value_pct.
  intros F. fractions.
  destruct (ExpectedValueStrategy._find_optimal_sale_day_pct p current_price
              predictions) as [optimal_day net_benefit_pct].
  destruct (Indicators.calculate_adx price_history _) as [[adx pdi] mdi].
  split_ifs; cbn [fst]; assumption.
Qed.

Lemma consensus_analysis_fraction (p : ConsensusStrategy.Params)
    (current_price : Q) (price_history : PriceHistory)
    (predictions : Ensemble) :
  consensus_fractions p ->
  fraction (fst (ConsensusStrategy._analyze_consensus_pct p current_price
                   price_history predictions)).
Proof.
  unfold consensus_fractions, ConsensusStrategy._analyze_consensus_pct.
  intros F. fractions. cbv zeta.
  split_ifs; cbn [fst]; assumption.
Qed.

Lemma risk_adjusted_analysis_fraction (p : RiskAdjustedStrategy.Params)
    (current_price : Q) (price_history : PriceHistory)
    (predictions : Ensemble) :
  risk_adjusted_fractions p ->
  fraction (fst (RiskAdjustedStrategy._analyze_risk_adjusted_pct p
                   current_price price_history predictions)).
Proof.
  unfold risk_adjusted_fractions,
    RiskAdjustedStrategy._analyze_risk_adjusted_pct.
  intros F. fractions. cbv zeta.
  destruct (Indicators.calculate_adx price_history _) as [[adx pdi] mdi].
  split_ifs; cbn [fst]; assumption.
Qed.

Lemma fraction_fifth : fraction 0.20.
Proof. split; lra. Qed.

Lemma fraction_half (b : Q) : fraction b -> fraction (b * 0.5).
Proof. intros [B0 B1]. split; lra. Qed.

Section WithinStock.

Context `{LiquidationRule}.
Hypothesis rule_ok : rule_amounts_within_stock.

(** Opens a [decide]: the empty-inventory answer and the forced
    decision are within the stock. *)
Ltac gates Pos :=
  match goal with
  | |- context [Np.leb ?inventory 0] =>
      destruct (Np.leb inventory 0); [apply hold_within; exact Pos|]
  end;
  match goal with
  | |- context [_force_liquidation_check ?day ?inventory] =>
      let f := fresh "f" in
      let Ef := fresh "Ef" in
      destruct (_force_liquidation_check day inventory) as [f|] eqn:Ef;
      [exact (rule_ok day inventory f Pos Ef)|]
  end.

Ltac close Pos :=
  first [ apply hold_within; exact Pos
        | apply trade_within; [exact Pos | first [assumption | apply fraction_fifth]] ].

Lemma immediate_sale_within (p : ImmediateSaleStrategy.Params) :
  amounts_within_stock (ImmediateSaleStrategy.decide p).
Proof.
  intros s day inventory current_price price_history predictions Pos d.
  unfold d, ImmediateSaleStrategy.decide. clear d. gates Pos. cbv zeta.
  split_ifs; cbn [fst amount sell hold]; split; lra.
Qed.

Lemma equal_batch_within (p : EqualBatchStrategy.Params) :
  fraction (EqualBatchStrategy.batch_size p) ->
  amounts_within_stock (EqualBatchStrategy.decide p).
Proof.
  intros [B0 B1] s day inventory current_price price_history predictions Pos d.
  unfold d, EqualBatchStrategy.decide. clear d. gates Pos. cbv zeta.
  split_ifs; cbn [fst amount sell hold]; split; nra.
Qed.

Lemma threshold_within (p : PriceThresholdStrategy.Params) :
  threshold_fractions p ->
  amounts_within_stock (PriceThresholdStrategy.decide p).
Proof.
  intros F s day inventory current_price price_history predictions Pos d.
  unfold d, PriceThresholdStrategy.decide. clear d. gates Pos. cbv zeta.
  pose proof (threshold_analysis_fraction p current_price price_history F)
    as A.
  destruct (PriceThresholdStrategy._analyze_historical p current_price
              price_history) as [b r]. cbn [fst] in A.
  unfold threshold_fractions in F. fractions.
  split_ifs; close Pos.
Qed.

Lemma crossover_logic_within (p : MovingAverageStrategy.Params)
    (analyze : Q -> PriceHistory -> Q * Reason) (label : Reason -> Reason)
    (s day : Z) (inventory current_price : Q) (price_history : PriceHistory) :
  fraction (MovingAverageStrategy.batch_baseline p) ->
  (forall c h, fraction (fst (analyze c h))) ->
  0 <= inventory ->
  let d :=
    fst (MovingAverageStrategy.crossover_logic p analyze label s day
           inventory current_price price_history) in
  0 <= amount d /\ amount d <= inventory.
Proof.
  intros B A Pos d. unfold d, MovingAverageStrategy.crossover_logic. clear d.
  cbv zeta. specialize (A current_price price_history).
  destruct (analyze current_price price_history) as [b r]. cbn [fst] in A.
  destruct (MovingAverageStrategy.crossover p current_price price_history)
    as [up down].
  split_ifs; close Pos.
Qed.

Lemma crossover_within (p : MovingAverageStrategy.Params) :
  crossover_fractions p ->
  amounts_within_stock (MovingAverageStrategy.decide p).
Proof.
  intros F s day inventory current_price price_history predictions Pos d.
  unfold d, MovingAverageStrategy.decide. clear d. gates Pos.
  apply crossover_logic_within; [| |exact Pos].
  - unfold crossover_fractions in F. fractions. assumption.
  - intros c h. apply crossover_analysis_fraction, F.
Qed.

Lemma pair_within (mp : MatchedPair.Params) (cooldown_days : Z)
    (batch_baseline : Q)
    (get_baseline_action : Q -> PriceHistory -> BaselineAction)
    (baseline_logic : Z -> Z -> Q -> Q -> PriceHistory -> Decision * Z) :
  Forall fraction
    [MatchedPair.batch_pred_hold mp;
     MatchedPair.batch_pred_aggressive mp;
     MatchedPair.batch_pred_cautious mp;
     batch_baseline] ->
  (forall c h, fraction (batch_size (get_baseline_action c h))) ->
  (forall s day inventory c h,
      0 <= inventory ->
      0 <= amount (fst (baseline_logic s day inventory c h))
      /\ amount (fst (baseline_logic s day inventory c h)) <= inventory) ->
  amounts_within_stock
    (MatchedPair.decide mp cooldown_days batch_baseline get_baseline_action
       baseline_logic).
Proof.
  intros F G B s day inventory current_price price_history predictions Pos d.
  unfold d, MatchedPair.decide. clear d. gates Pos. cbv zeta.
  specialize (B s day inventory current_price price_history Pos).
  fractions.
  destruct (day - s <? cooldown_days)%Z; [apply hold_within; exact Pos|].
  destruct predictions as [e|]; [|exact B].
  destruct (0 <? Ens.size e)%nat; [|exact B].
  destruct (confidence _); [| |exact B].
  - unfold MatchedPair._execute_prediction_override.
    destruct (direction _); close Pos.
  - unfold MatchedPair._execute_blended_decision. cbv zeta.
    pose proof (G current_price price_history) as Gb.
    pose proof (fraction_half _ Gb) as Gh.
    split_ifs; close Pos.
Qed.

Lemma threshold_pred_within (p : PriceThresholdPredictive.Params)
    (g : Q -> PriceHistory -> BaselineAction)
    (a : Q -> PriceHistory -> Q * Reason) :
  pair_fractions (PriceThresholdPredictive.pred p)
    (PriceThresholdStrategy.batch_baseline (PriceThresholdPredictive.base p))
    g a ->
  amounts_within_stock (PriceThresholdPredictive.decide p g a).
Proof.
  intros (F & G & A). unfold PriceThresholdPredictive.decide.
  apply pair_within; [exact F | exact G |].
  intros s day inventory c h Pos.
  unfold PriceThresholdPredictive._execute_baseline_logic. cbv zeta.
  specialize (A c h). destruct (a c h) as [b r]. cbn [fst] in A.
  fractions. split_ifs; close Pos.
Qed.

Lemma expected_value_within (p : ExpectedValueStrategy.Params) :
  expected_value_fractions p ->
  amounts_within_stock (ExpectedValueStrategy.decide p).
Proof.
  intros F s day inventory current_price price_history predictions Pos d.
  unfold d, ExpectedValueStrategy.decide. clear d. gates Pos. cbv zeta.
  destruct (day - s <? ExpectedValueStrategy.cooldown_days p)%Z;
    [apply hold_within; exact Pos|].
  destruct predictions as [e|].
  - pose proof (expected_value_analysis_fraction p current_price
                  price_history e F) as A.
    destruct (ExpectedValueStrategy._analyze_expected_value_pct p
                current_price price_history e) as [b r]. cbn [fst] in A.
    close Pos.
  - unfold expected_value_fractions in F. fractions. split_ifs; close Pos.
Qed.

Lemma consensus_within (p : ConsensusStrategy.Params) :
  consensus_fractions p ->
  amounts_within_stock (ConsensusStrategy.decide p).
Proof.
  intros F s day inventory current_price price_history predictions Pos d.
  unfold d, ConsensusStrategy.decide. clear d. gates Pos. cbv zeta.
  destruct (day - s <? ConsensusStrategy.cooldown_days p)%Z;
    [apply hold_within; exact Pos|].
  destruct predictions as [e|].
  - pose proof (consensus_analysis_fraction p current_price
                  price_history e F) as A.
    destruct (ConsensusStrategy._analyze_consensus_pct p
                current_price price_history e) as [b r]. cbn [fst] in A.
    close Pos.
  - split_ifs; close Pos.
Qed.

Lemma risk_adjusted_within (p : RiskAdjustedStrategy.Params) :
  risk_adjusted_fractions p ->
  amounts_within_stock (RiskAdjustedStrategy.decide p).
Proof.
  intros F s day inventory current_price price_history predictions Pos d.
  unfold d, RiskAdjustedStrategy.decide. clear d. gates Pos. cbv zeta.
  destruct (day - s <? RiskAdjustedStrategy.cooldown_days p)%Z;
    [apply hold_within; exact Pos|].
  destruct predictions as [e|].
  - pose proof (risk_adjusted_analysis_fraction p current_price
                  price_history e F) as A.
    destruct (RiskAdjustedStrategy._analyze_risk_adjusted_pct p
                current_price price_history e) as [b r]. cbn [fst] in A.
    close Pos.
  - split_ifs; close Pos.
Qed.

End WithinStock.

(** X14. No decision asks for a negative amount or for more than the
    inventory.  For a forced-liquidation rule that stays within the
    stock (both documented ones do) and batch sizes that are fractions
    between 0 and 1, the amount of every decision of the four
    rule-based strategies, of Price Threshold Predictive and of the
    three standalone forecast strategies lies between 0 and the
    inventory, on every input with an inventory that is not negative. *)
Theorem sales_stay_within_stock :
  forall (rule : LiquidationRule),
    rule_amounts_within_stock ->
    (forall p, amounts_within_stock (ImmediateSaleStrategy.decide p))
    /\ (forall p, fraction (EqualBatchStrategy.batch_size p) ->
                  amounts_within_stock (EqualBatchStrategy.decide p))
    /\ (forall p, threshold_fractions p ->
                  amounts_within_stock (PriceThresholdStrategy.decide p))
    /\ (forall p, crossover_fractions p ->
                  amounts_within_stock (MovingAverageStrategy.decide p))
    /\ (forall p g a,
          pair_fractions (PriceThresholdPredictive.pred p)
            (PriceThresholdStrategy.batch_baseline
               (PriceThresholdPredictive.base p)) g a ->
          amounts_within_stock (PriceThresholdPredictive.decide p g a))
    /\ (forall p, expected_value_fractions p ->
                  amounts_within_stock (ExpectedValueStrategy.decide p))
    /\ (forall p, consensus_fractions p ->
                  amounts_within_stock (ConsensusStrategy.decide p))
    /\ (forall p, risk_adjusted_fractions p ->
                  amounts_within_stock (RiskAdjustedStrategy.decide p)).
Proof.
  intros rule R.
  split; [intros p; apply immediate_sale_within, R|].
  split; [intros p; apply equal_batch_within, R|].
  split; [intros p; apply threshold_within, R|].
  split; [intros p; apply crossover_within, R|].
  split; [intros p g a; apply threshold_pred_within, R|].
  split; [intros p; apply expected_value_within, R|].
  split; [intros p; apply consensus_within, R|].
  intros p; apply risk_adjusted_within, R.
Qed.

Lemma sales_stay_within_stock_witness :
  let d :=
    fst (ConsensusStrategy.decide (H := two_tier 0) ConsensusStrategy.default
           0 100 40 100 (mkHistory [] None) (Some (flat_ensemble 3 104))) in
  0 <= amount d /\ amount d <= 40.
Proof.
  refine (proj1 (proj2 (proj2 (proj2 (proj2 (proj2 (proj2
            (sales_stay_within_stock (two_tier 0) (two_tier_amounts 0))))))))
            ConsensusStrategy.default _ 0%Z 100%Z 40 100 (mkHistory [] None)
            (Some (flat_ensemble 3 104)) _).
  - repeat constructor; discriminate.
  - discriminate.
Defined.

Section Tiers.

Context `{LiquidationRule}.

(** With a forecast of LOW confidence, [decide] is what it is without
    a forecast. *)
Lemma pair_low_is_no_forecast (mp : MatchedPair.Params) (cooldown_days : Z)
    (batch_baseline : Q)
    (get_baseline_action : Q -> PriceHistory -> BaselineAction)
    (baseline_logic : Z -> Z -> Q -> Q -> PriceHistory -> Decision * Z)
    (last_sale_day day : Z) (inventory current_price : Q)
    (price_history : PriceHistory) (predictions : Ensemble) :
  low_confidence mp predictions ->
  MatchedPair.decide mp cooldown_days batch_baseline get_baseline_action
    baseline_logic last_sale_day day inventory current_price price_history
    (Some predictions)
  = MatchedPair.decide mp cooldown_days batch_baseline get_baseline_action
      baseline_logic last_sale_day day inventory current_price price_history
      None.
Proof.
  intros [NotHigh NotMedium]. unfold MatchedPair.decide.
  destruct (Np.leb inventory 0); [reflexivity|].
  destruct (_force_liquidation_check day inventory); [reflexivity|].
  cbv zeta.
  destruct (day - last_sale_day <? cooldown_days)%Z; [reflexivity|].
  destruct (0 <? Ens.size predictions)%nat; [|reflexivity].
  rewrite signal_confidence, NotHigh, NotMedium. reflexivity.
Qed.

End Tiers.



(** ** The best day to sell *)

(** The scan shared by [np.argmax] and [max]: after the values [t],
    started from the running maximum [best] found at index [ibest]
    (below the next index [i]), the index returned carries the maximum
    returned, nothing exceeds it, and everything before it is strictly
    below it. *)
Lemma argmax_from_spec (t : list Q) :
  forall (best : Q) (ibest i : nat),
    (ibest < i)%nat ->
    let r := Np.argmax_from best ibest i t in
    let m := fold_left Np.py_max t best in
    best <= m
    /\ Forall (fun x => x <= m) t
    /\ ((r = ibest /\ m = best /\ Forall (fun x => x <= best) t)
        \/ ((i <= r < i + length t)%nat
            /\ nth (r - i) t 0 = m
            /\ best < m
            /\ forall j, (j < r - i)%nat -> nth j t 0 < m)).
Proof.
  induction t as [|x t IH]; intros best ibest i Lt; cbn zeta.
  - simpl. split; [apply Qle_refl|]. split; [constructor|].
    left. repeat split. constructor.
  - cbn [Np.argmax_from fold_left length].
    destruct (Np.ltb best x) eqn:E.
    + assert (P : Np.py_max best x = x) by (unfold Np.py_max; rewrite E; reflexivity).
      rewrite P. apply ltb_lt in E.
      destruct (IH x i (S i) ltac:(lia)) as (B & F & C).
      split; [lra|]. split; [constructor; assumption|].
      right. destruct C as [(-> & M & Fb)|(R & V & Bm & Early)].
      * rewrite M in *. split; [lia|].
        rewrite Nat.sub_diag. cbn [nth]. repeat split; try assumption.
        intros j Hj. lia.
      * split; [lia|].
        replace (Np.argmax_from x i (S i) t - i)%nat
          with (S (Np.argmax_from x i (S i) t - S i)) by lia.
        cbn [nth]. split; [exact V|]. split; [lra|].
        intros [|j] Hj; cbn [nth]; [exact Bm|]. apply Early. lia.
    + assert (P : Np.py_max best x = best) by (unfold Np.py_max; rewrite E; reflexivity).
      rewrite P. apply ltb_ge in E.
      destruct (IH best ibest (S i) ltac:(lia)) as (B & F & C).
      split; [exact B|]. split; [constructor; [lra | exact F]|].
      destruct C as [(R & M & Fb)|(R & V & Bm & Early)].
      * left. repeat split; try assumption. constructor; assumption.
      * right. split; [lia|].
        replace (Np.argmax_from best ibest (S i) t - i)%nat
          with (S (Np.argmax_from best ibest (S i) t - S i)) by lia.
        cbn [nth]. split; [exact V|]. split; [exact Bm|].
        intros [|j] Hj; cbn [nth]; [lra|]. apply Early. lia.
Qed.

(** [np.argmax] returns the first position of the largest value, which
    is the value [max] returns. *)
Lemma argmax_spec (l : list Q) :
  l <> [] ->
  (Np.argmax l < length l)%nat
  /\ nth (Np.argmax l) l 0 = Np.maximum l
  /\ (forall j, (j < length l)%nat -> nth j l 0 <= Np.maximum l)
  /\ (forall j, (j < Np.argmax l)%nat -> nth j l 0 < Np.maximum l).
Proof.
  destruct l as [|x t]; [intros NE; contradiction NE; reflexivity|].
  intros _. unfold Np.argmax, Np.maximum.
  destruct (argmax_from_spec t x 0%nat 1%nat ltac:(lia)) as (B & F & C).
  assert (All : forall j, (j < length (x :: t))%nat ->
                          nth j (x :: t) 0 <= fold_left Np.py_max t x).
  { intros [|j] Hj; cbn [nth]; [exact B|].
    apply (proj1 (Forall_forall _ _) F). apply nth_In. simpl in Hj. lia. }
  destruct C as [(-> & M & Fb)|(R & V & Bm & Early)].
  - split; [simpl; lia|]. split; [simpl; symmetry; exact M|].
    split; [exact All|]. intros j Hj. lia.
  - split; [simpl; lia|].
    set (r := Np.argmax_from x 0 1 t) in *.
    replace r with (S (r - 1)) by lia. cbn [nth].
    split; [exact V|]. split; [exact All|].
    intros [|j] Hj; cbn [nth]; [exact Bm|]. apply Early. lia.
Qed.

Lemma ev_by_day_length (storage transaction current_price : Q)
    (predictions : Ensemble) :
  length (ev_by_day storage transaction current_price predictions)
  = Ens.n_days predictions.
Proof. unfold ev_by_day. rewrite length_map, length_seq. reflexivity. Qed.



(** ** Holding the whole stock *)

Ltac bools :=
  repeat match goal with
         | H : Np.ltb _ _ = true |- _ => apply ltb_lt in H
         | H : Np.ltb _ _ = false |- _ => apply ltb_ge in H
         | H : Np.leb _ _ = true |- _ => apply leb_le in H
         | H : Np.leb _ _ = false |- _ => apply leb_gt in H
         | H : _ /\ _ |- _ => destruct H
         end.

Ltac not_zero :=
  match goal with
  | H : ?q == 0 |- _ =>
      exfalso; revert H; unfold Qeq; cbn [Qnum Qden]; discriminate
  end.


Lemma Forall2_repeat {A B} (R : A -> B -> Prop) (b : B) (xs : list A) :
  Forall (fun v => R v b) xs -> Forall2 R xs (repeat b (length xs)).
Proof.
  induction 1; simpl; constructor; assumption.
Qed.

Lemma Forall2_repeat_inv {A B} (R : A -> B -> Prop) (b : B) (n : nat)
    (xs : list A) :
  Forall2 R xs (repeat b n) -> length xs = n /\ Forall (fun v => R v b) xs.
Proof.
  revert xs. induction n as [|n IH]; intros xs F; simpl in F.
  - inversion F. split; [reflexivity | constructor].
  - inversion F as [|v b' xs' bs' Hv Tl]; subst.
    destruct (IH xs' Tl) as [L Fx]. split; [simpl; lia|].
    constructor; assumption.
Qed.

Lemma nth_nonneg (l : list Q) (t : nat) :
  Forall (fun h => 0 <= h) l -> 0 <= nth t l 0.
Proof.
  intros F. destruct (Nat.lt_ge_cases t (length l)) as [L|G].
  - apply (proj1 (Forall_forall _ _) F). apply nth_In. exact L.
  - rewrite nth_overflow by exact G. apply Qle_refl.
Qed.

Lemma sell_on_arrival_length (inventory : Q) (harvest : list Q) (n : nat) :
  length (sell_on_arrival inventory harvest n) = (2 * n)%nat.
Proof.
  unfold sell_on_arrival, Vec.zeros.
  rewrite length_app, length_map, length_seq, repeat_length. lia.
Qed.

Lemma sell_on_arrival_sell (inventory : Q) (harvest : list Q) (n t : nat) :
  (t < n)%nat ->
  sell_var (sell_on_arrival inventory harvest n) t
  = RollingHorizonMPC.balance_rhs inventory harvest t.
Proof.
  intros L. unfold sell_var, sell_on_arrival.
  rewrite app_nth1 by (rewrite length_map, length_seq; exact L).
  rewrite (nth_indep _ 0 (RollingHorizonMPC.balance_rhs inventory harvest 0))
    by (rewrite length_map, length_seq; exact L).
  rewrite map_nth, seq_nth by exact L. reflexivity.
Qed.

Lemma sell_on_arrival_inv (inventory : Q) (harvest : list Q) (n t : nat) :
  inv_var n (sell_on_arrival inventory harvest n) t = 0.
Proof.
  unfold inv_var, sell_on_arrival.
  rewrite app_nth2 by (rewrite length_map, length_seq; lia).
  apply nth_zeros.
Qed.

(** X19. The linear program of a window is never infeasible: for an
    inventory and a harvest that are not negative, the plan that sells
    each day all that is in stock and carries nothing over meets every
    equality constraint and every bound. *)
Theorem window_lp_always_feasible :
  forall (self : RollingHorizonMPC.Params) (state : option Q)
         (current_inventory : Q) (future_prices future_harvest : list Q),
    0 <= current_inventory ->
    Forall (fun h => 0 <= h) future_harvest ->
    feasible
      (RollingHorizonMPC.window_lp self state current_inventory future_prices
         future_harvest)
      (sell_on_arrival current_inventory future_harvest
         (length future_prices)).
Proof.
  intros self state inventory prices harvest Pos Hv. split.
  - apply window_lp_equalities. intros t Ht. unfold balance_holds.
    destruct t as [|t'].
    + rewrite sell_on_arrival_sell by exact Ht.
      rewrite sell_on_arrival_inv.
      unfold RollingHorizonMPC.balance_rhs. cbn [Nat.ltb Nat.leb]. ring.
    + rewrite sell_on_arrival_sell by exact Ht.
      rewrite !sell_on_arrival_inv.
      unfold RollingHorizonMPC.balance_rhs.
      replace (0 <? S t')%nat with true by reflexivity. ring.
  - unfold within_bounds, RollingHorizonMPC.window_lp. cbn [bounds].
    rewrite <- (sell_on_arrival_length inventory harvest (length prices)).
    apply Forall2_repeat. cbn [fst snd].
    unfold sell_on_arrival. apply Forall_app. split.
    + apply Forall_forall. intros v Hvn. apply in_map_iff in Hvn.
      destruct Hvn as (t & <- & _). split; [|exact I].
      unfold RollingHorizonMPC.balance_rhs.
      pose proof (nth_nonneg harvest t Hv).
      destruct (0 <? t)%nat; lra.
    + apply Forall_forall. intros v Hvn. unfold Vec.zeros in Hvn.
      apply repeat_spec in Hvn. subst v. split; [apply Qle_refl | exact I].
Qed.

Lemma window_lp_always_feasible_witness :
  feasible
    (RollingHorizonMPC.window_lp RollingHorizonMPC.default None 50
       [4000; 4020] [0; 0])
    (sell_on_arrival 50 [0; 0] 2).
Proof.
  refine (window_lp_always_feasible RollingHorizonMPC.default None 50
            [4000; 4020] [0; 0] _ _).
  - discriminate.
  - repeat constructor; discriminate.
Defined.

Lemma sum_firstn_succ (l : list Q) :
  forall k, Np.sum (firstn (S k) l) == Np.sum (firstn k l) + nth k l 0.
Proof.
  induction l as [|a l IH]; intros k.
  - rewrite !firstn_nil. destruct k; unfold Np.sum; simpl; ring.
  - destruct k as [|k].
    + unfold Np.sum. simpl. ring.
    + change (Np.sum (firstn (S (S k)) (a :: l)))
        with (a + Np.sum (firstn (S k) l)).
      change (Np.sum (firstn (S k) (a :: l)))
        with (a + Np.sum (firstn k l)).
      cbn [nth]. rewrite IH. ring.
Qed.

Lemma within_bounds_window (self : RollingHorizonMPC.Params)
    (state : option Q) (inventory : Q) (prices harvest xs : list Q) :
  within_bounds
    (RollingHorizonMPC.window_lp self state inventory prices harvest) xs ->
  length xs = (2 * length prices)%nat /\ Forall (fun v => 0 <= v) xs.
Proof.
  unfold within_bounds, RollingHorizonMPC.window_lp. cbn [bounds].
  intros F. apply Forall2_repeat_inv in F. destruct F as [L F].
  split; [exact L|]. eapply Forall_impl; [|exact F].
  cbn [fst snd]. intros v [V _]. exact V.
Qed.

(** X20. Every feasible plan conserves the stock: up to any horizon
    day [k], what the plan has sold plus what it still holds equals the
    inventory at the start plus the harvest received, and neither a
    sale nor a holding is negative. *)
Theorem feasible_plan_conserves_stock :
  forall (self : RollingHorizonMPC.Params) (state : option Q)
         (current_inventory : Q) (future_prices future_harvest xs : list Q),
    let n := length future_prices in
    feasible
      (RollingHorizonMPC.window_lp self state current_inventory future_prices
         future_harvest) xs ->
    forall k, (k < n)%nat ->
      Np.sum (firstn (S k) xs) + inv_var n xs k
      == current_inventory + Np.sum (firstn (S k) future_harvest)
      /\ 0 <= sell_var xs k
      /\ 0 <= inv_var n xs k.
Proof.
  intros self state inventory prices harvest xs n [Eq Bd] k Hk.
  pose proof (proj1 (window_lp_equalities _ _ _ _ _ _) Eq) as Bal.
  destruct (within_bounds_window _ _ _ _ _ _ Bd) as [Len Pos].
  fold n in Bal, Len.
  split; [|split].
  - induction k as [|k IH].
    + specialize (Bal 0%nat Hk). unfold balance_holds, sell_var in Bal.
      rewrite !sum_firstn_succ. cbn [firstn]. unfold Np.sum.
      cbn [fold_right]. lra.
    + specialize (IH ltac:(lia)).
      specialize (Bal (S k) Hk). unfold balance_holds, sell_var in Bal.
      rewrite (sum_firstn_succ xs (S k)), (sum_firstn_succ harvest (S k)).
      lra.
  - unfold sell_var. apply nth_nonneg. exact Pos.
  - unfold inv_var. apply nth_nonneg. exact Pos.
Qed.

Lemma feasible_plan_conserves_stock_witness :
  Np.sum (firstn 2 [25; 25; 25; 0]) + inv_var 2 [25; 25; 25; 0] 1
  == 50 + Np.sum (firstn 2 [0; 0])
  /\ 0 <= sell_var [25; 25; 25; 0] 1
  /\ 0 <= inv_var 2 [25; 25; 25; 0] 1.
Proof.
  refine (feasible_plan_conserves_stock RollingHorizonMPC.default None 50
            [4000; 4020] [0; 0] [25; 25; 25; 0] _ 1%nat _).
  - split.
    + apply window_lp_equalities. intros [|[|t]] Ht; simpl in Ht; try lia;
        vm_compute; reflexivity.
    + repeat constructor; discriminate.
  - simpl. lia.
Defined.

(** On the program [decide] builds (no harvest inside the window) a
    feasible plan sells on its first day no more than the stock. *)
Lemma first_sale_within_stock (self : RollingHorizonMPC.Params)
    (state : option Q) (inventory : Q) (forecast : option Forecast)
    (xs : list Q) :
  usable self forecast ->
  feasible (day_lp self state inventory forecast) xs ->
  0 <= sell_var xs 0 /\ sell_var xs 0 <= inventory.
Proof.
  intros [Hn Hw] [Eq Bd]. unfold day_lp in Eq, Bd.
  pose proof (window_prices_length self forecast Hw) as L.
  assert (N : (0 < length (RollingHorizonMPC.future_prices_per_ton self
                             forecast))%nat) by lia.
  pose proof (proj1 (window_lp_equalities _ _ _ _ _ _) Eq 0%nat N) as Bal.
  destruct (within_bounds_window _ _ _ _ _ _ Bd) as [_ Pos].
  pose proof (nth_nonneg xs 0 Pos) as S0.
  pose proof (nth_nonneg xs
                (length (RollingHorizonMPC.future_prices_per_ton self
                           forecast) + 0) Pos) as I0.
  unfold balance_holds, inv_var in Bal. rewrite nth_zeros in Bal.
  unfold sell_var in *. split; lra.
Qed.

(** X21. When the solver returns a feasible plan, [decide] executes
    its first day as planned: HOLD if the planned sale is below 0.1
    tons, otherwise a SELL of exactly the planned amount.  The cap
    [min(sell_today, inventory)] never binds on such a plan. *)
Theorem mpc_executes_a_feasible_plan :
  forall (linprog : LinProg -> Py OptimizeResult)
         (self : RollingHorizonMPC.Params) (state : option Q)
         (day : Z) (inventory current_price : Q)
         (price_history : PriceHistory) (forecast : option Forecast)
         (r : OptimizeResult),
    0 < inventory -> usable self forecast ->
    linprog (day_lp self state inventory forecast) = Ok r ->
    success r = true ->
    feasible (day_lp self state inventory forecast) (x r) ->
    exists d s',
      RollingHorizonMPC.decide linprog self state day inventory
        current_price price_history forecast = Ok (d, s')
      /\ (sell_var (x r) 0 < 0.1 -> action d = HOLD /\ amount d = 0)
      /\ (0.1 <= sell_var (x r) 0 ->
          action d = SELL /\ amount d = sell_var (x r) 0).
Proof.
  intros linprog self state day inventory current_price price_history
         forecast r stock U E S F.
  destruct (first_sale_within_stock self state inventory forecast (x r) U F)
    as [P0 P1].
  destruct (within_bounds_window _ _ _ _ _ _ (proj2 F)) as [Len _].
  pose proof (window_prices_length self forecast (proj2 U)) as L.
  pose proof (proj2 U) as Hw.
  destruct (x r) as [|sell_today rest] eqn:X; [cbn [length] in Len; lia|].
  unfold sell_var in *. cbn [nth] in *.
  rewrite (decide_solver_succeeded linprog self state day inventory
             current_price price_history forecast r sell_today rest
             stock U E S X).
  cbv zeta. destruct (Np.ltb sell_today 0.1) eqn:T.
  - eexists. eexists. split; [reflexivity|]. split.
    + intros _. split; reflexivity.
    + intros Big. apply ltb_lt in T. lra.
  - eexists. eexists. split; [reflexivity|]. split.
    + intros Small. apply ltb_ge in T. lra.
    + intros _. cbn [action amount]. split; [reflexivity|].
      unfold Np.py_min.
      replace (Np.ltb inventory sell_today) with false; [reflexivity|].
      symmetry. apply ltb_ge. exact P1.
Qed.

Lemma mpc_executes_a_feasible_plan_witness :
  exists d s',
    RollingHorizonMPC.decide halves_solver RollingHorizonMPC.default None
      10 50 200 (mkHistory [] None) (Some (Path [200; 201])) = Ok (d, s')
    /\ (sell_var [25; 25; 25; 0] 0 < 0.1 -> action d = HOLD /\ amount d = 0)
    /\ (0.1 <= sell_var [25; 25; 25; 0] 0 ->
        action d = SELL /\ amount d = sell_var [25; 25; 25; 0] 0).
Proof.
  refine (mpc_executes_a_feasible_plan halves_solver
            RollingHorizonMPC.default None 10 50 200 (mkHistory [] None)
            (Some (Path [200; 201]))
            {| success := true; x := [25; 25; 25; 0]; fun_ := 0 |}
            _ _ _ _ _).
  - reflexivity.
  - split; [reflexivity | apply Z.ltb_lt; reflexivity].
  - reflexivity.
  - reflexivity.
  - split.
    + apply window_lp_equalities. intros [|[|t]] Ht; simpl in Ht; try lia;
        vm_compute; reflexivity.
    + repeat constructor; discriminate.
Defined.

(** ** The optimiser's state *)

Lemma window_lp_without_smoothing (self : RollingHorizonMPC.Params)
    (s1 s2 : option Q) (inventory : Q) (prices harvest : list Q) :
  RollingHorizonMPC.shadow_price_smoothing self = None ->
  RollingHorizonMPC.window_lp self s1 inventory prices harvest
  = RollingHorizonMPC.window_lp self s2 inventory prices harvest.
Proof.
  intros N. unfold RollingHorizonMPC.window_lp. rewrite N. reflexivity.
Qed.

(** X22. Without shadow-price smoothing (the default) the optimiser
    carries nothing from one day to the next: [decide] returns the
    state it was given, and its decision depends on the inventory and
    the forecast only, not on the state, the day, the current price or
    the price history. *)
Theorem mpc_without_smoothing_is_memoryless :
  forall (linprog : LinProg -> Py OptimizeResult)
         (self : RollingHorizonMPC.Params) (state : option Q)
         (day : Z) (inventory current_price : Q)
         (price_history : PriceHistory) (forecast : option Forecast),
    RollingHorizonMPC.shadow_price_smoothing self = None ->
    (forall d s',
        RollingHorizonMPC.decide linprog self state day inventory
          current_price price_history forecast = Ok (d, s') ->
        s' = state)
    /\ (forall state' day' current_price' price_history',
          outcome
            (RollingHorizonMPC.decide linprog self state' day' inventory
               current_price' price_history' forecast)
          = outcome
              (RollingHorizonMPC.decide linprog self state day inventory
                 current_price price_history forecast)).
Proof.
  intros linprog self state day inventory current_price price_history
         forecast N.
  assert (U : forall s sp,
             RollingHorizonMPC.update_shadow_price self s sp = s).
  { intros s sp. unfold RollingHorizonMPC.update_shadow_price.
    rewrite N. reflexivity. }
  split.
  - intros d s'. unfold RollingHorizonMPC.decide.
    destruct (Np.leb inventory 0); [intros [= _ <-]; reflexivity|].
    destruct (RollingHorizonMPC.no_predictions forecast);
      [intros [= _ <-]; reflexivity|].
    destruct (_ <=? 0)%Z; [intros [= _ <-]; reflexivity|].
    destruct (RollingHorizonMPC._solve_window_lp _ _ _ _ _ _) as [[ws|]|e];
      cbn [bind]; try discriminate.
    + destruct (sell_solution ws) as [|sell_today ?]; [discriminate|].
      rewrite U.
      destruct (Np.ltb sell_today 0.1); intros [= _ <-]; reflexivity.
    + intros [= _ <-]. reflexivity.
  - intros state' day' current_price' price_history'.
    unfold RollingHorizonMPC.decide.
    destruct (Np.leb inventory 0); [reflexivity|].
    destruct (RollingHorizonMPC.no_predictions forecast); [reflexivity|].
    destruct (_ <=? 0)%Z; [reflexivity|].
    unfold RollingHorizonMPC._solve_window_lp.
    rewrite (window_lp_without_smoothing self state' state _ _ _ N).
    destruct (_ <? _)%nat; [reflexivity|].
    destruct (_ =? 0)%nat; [reflexivity|].
    destruct (linprog _) as [r|e]; cbn [bind try_except]; [|reflexivity].
    destruct (negb (success r)); cbn [bind try_except]; [reflexivity|].
    cbn [sell_solution shadow_price objective_value].
    destruct (firstn _ (x r)) as [|sell_today ?]; [reflexivity|].
    rewrite !U.
    destruct (Np.ltb sell_today 0.1); reflexivity.
Qed.

Lemma mpc_without_smoothing_is_memoryless_witness :
  (forall d s',
      RollingHorizonMPC.decide halves_solver RollingHorizonMPC.default
        (Some 3800) 10 50 200 (mkHistory [] None) (Some (Path [200; 201]))
      = Ok (d, s') ->
      s' = Some 3800)
  /\ (forall state' day' current_price' price_history',
        outcome
          (RollingHorizonMPC.decide halves_solver RollingHorizonMPC.default
             state' day' 50 current_price' price_history'
             (Some (Path [200; 201])))
        = outcome
            (RollingHorizonMPC.decide halves_solver RollingHorizonMPC.default
               (Some 3800) 10 50 200 (mkHistory [] None)
               (Some (Path [200; 201])))).
Proof.
  refine (mpc_without_smoothing_is_memoryless halves_solver
            RollingHorizonMPC.default (Some 3800) 10 50 200
            (mkHistory [] None) (Some (Path [200; 201])) _).
  reflexivity.
Defined.

(** ** A forecast without a horizon *)

Lemma window_len_empty_horizon (self : RollingHorizonMPC.Params)
    (forecast : option Forecast) :
  (0 < RollingHorizonMPC.horizon_days self)%Z ->
  RollingHorizonMPC.no_predictions forecast = false ->
  (RollingHorizonMPC.window_len self forecast <= 0)%Z ->
  exists e, forecast = Some (Paths e) /\ e <> [] /\ Ens.n_days e = 0%nat.
Proof.
  intros Hz Np0 W. unfold RollingHorizonMPC.window_len in W.
  destruct forecast as [[e|l]|]; simpl in Np0.
  - exists e. split; [reflexivity|]. split.
    + intros ->. discriminate Np0.
    + lia.
  - apply Nat.eqb_neq in Np0. unfold Np.len in W. lia.
  - discriminate Np0.
Qed.

(** X23. With a positive horizon and stock in hand, the optimiser
    answers with the sale of the whole inventory for the reason
    [no_forecast_horizon] exactly when the forecast is a matrix with at
    least one path and no horizon day.  (A missing or empty forecast is
    a HOLD instead.) *)
Theorem forecast_without_horizon_sells_everything :
  forall (linprog : LinProg -> Py OptimizeResult)
         (self : RollingHorizonMPC.Params) (state : option Q)
         (day : Z) (inventory current_price : Q)
         (price_history : PriceHistory) (forecast : option Forecast),
    0 < inventory ->
    (0 < RollingHorizonMPC.horizon_days self)%Z ->
    (exists s',
        RollingHorizonMPC.decide linprog self state day inventory
          current_price price_history forecast
        = Ok (sell inventory (plain "no_forecast_horizon"), s'))
    <-> (exists e,
           forecast = Some (Paths e) /\ e <> [] /\ Ens.n_days e = 0%nat).
Proof.
  intros linprog self state day inventory current_price price_history
         forecast stock Hz.
  assert (L : Np.leb inventory 0 = false) by (apply leb_gt; exact stock).
  split.
  - intros [s' E]. unfold RollingHorizonMPC.decide in E. rewrite L in E.
    destruct (RollingHorizonMPC.no_predictions forecast) eqn:Np0;
      [discriminate E|].
    destruct (RollingHorizonMPC.window_len self forecast <=? 0)%Z eqn:W.
    + apply Z.leb_le in W.
      apply (window_len_empty_horizon self forecast Hz Np0 W).
    + exfalso.
      destruct (RollingHorizonMPC._solve_window_lp _ _ _ _ _ _)
        as [[ws|]|e]; cbn [bind] in E; try discriminate E.
      destruct (sell_solution ws) as [|sell_today ?]; [discriminate E|].
      destruct (Np.ltb sell_today 0.1); discriminate E.
  - intros (e & -> & NE & D). exists state.
    unfold RollingHorizonMPC.decide. rewrite L.
    assert (Np0 : RollingHorizonMPC.no_predictions (Some (Paths e)) = false).
    { simpl. apply Nat.eqb_neq. destruct e; [contradiction NE|];
        [reflexivity | discriminate]. }
    rewrite Np0.
    assert (W : (RollingHorizonMPC.window_len self (Some (Paths e)) <=? 0)%Z
                = true).
    { apply Z.leb_le. unfold RollingHorizonMPC.window_len. rewrite D. lia. }
    rewrite W. reflexivity.
Qed.

Lemma forecast_without_horizon_sells_everything_witness :
  exists s',
    RollingHorizonMPC.decide failing_solver RollingHorizonMPC.default None
      10 40 100 (mkHistory [] None) (Some (Paths [[]; []]))
    = Ok (sell 40 (plain "no_forecast_horizon"), s').
Proof.
  refine (proj2 (forecast_without_horizon_sells_everything failing_solver
                   RollingHorizonMPC.default None 10 40 100
                   (mkHistory [] None) (Some (Paths [[]; []])) _ _) _).
  - reflexivity.
  - reflexivity.
  - exists [[]; []]. split; [reflexivity|]. split; [discriminate|reflexivity].
Defined.

(** ** The harvest schedule *)

Lemma existsb_eqb_in (day : Z) (l : list Z) :
  existsb (Z.eqb day) l = true <-> In day l.
Proof.
  rewrite existsb_exists. split.
  - intros (x & I & E). apply Z.eqb_eq in E. subst. exact I.
  - intros I. exists day. split; [exact I | apply Z.eqb_refl].
Qed.

Lemma sum_app (l m : list Q) : Np.sum (l ++ m) == Np.sum l + Np.sum m.
Proof.
  induction l as [|a l IH]; unfold Np.sum in *; simpl; [ring|].
  rewrite IH. ring.
Qed.

Lemma sum_map_ext_in {A} (f g : A -> Q) (l : list A) :
  (forall x, In x l -> f x == g x) -> Np.sum (map f l) == Np.sum (map g l).
Proof.
  induction l as [|a l IH]; intros E; unfold Np.sum in *; simpl;
    [reflexivity|].
  rewrite (E a (or_introl eq_refl)), IH; [reflexivity|].
  intros x I. apply E. now right.
Qed.

Lemma sum_map_constant {A} (c : Q) (l : list A) :
  Np.sum (map (fun _ => c) l) == inject_Z (Np.len l) * c.
Proof.
  induction l as [|a l IH]; unfold Np.sum, Np.len in *; simpl length.
  - simpl. ring.
  - cbn [map fold_right]. rewrite IH.
    rewrite Nat2Z.inj_succ, <- Z.add_1_r, inject_Z_plus. ring.
Qed.

Lemma NoDup_app_apart {A} (l m : list A) (x : A) :
  NoDup (l ++ m) -> In x l -> ~ In x m.
Proof.
  induction l as [|a l IH]; intros ND I; [contradiction I|].
  simpl in ND. apply NoDup_cons_iff in ND. destruct ND as [Na ND].
  destruct I as [->|I].
  - intros M. apply Na, in_or_app. now right.
  - apply IH; assumption.
Qed.

Lemma schedule_outside_windows (harvest_volume : Q)
    (harvest_windows : list (list Z)) (day : Z) :
  ~ In day (concat harvest_windows) ->
  BacktestEngine._create_harvest_schedule harvest_volume harvest_windows day
  = 0.
Proof.
  induction harvest_windows as [|w rest IH]; intros Out; [reflexivity|].
  simpl in *.
  destruct (existsb (Z.eqb day) (concat rest)) eqn:R.
  - apply existsb_eqb_in in R. exfalso. apply Out, in_or_app. now right.
  - destruct (existsb (Z.eqb day) w) eqn:W; [|reflexivity].
    apply existsb_eqb_in in W. exfalso. apply Out, in_or_app. now left.
Qed.


